(** * GoodBrain: the mental wellness support bot of [app.py]

    A shallow embedding of the classification and recommendation engine of
    [app.py] (crisis detection, distress scoring, theme extraction, strategy
    selection, explanation) and of the session loop [run_bot] that sequences
    them against console input and output.

    Modelling conventions.
    - A Python [str] is the list of its code points, each a number in [N].
      A literal of the program is written as a string literal; it stands for
      the code points its UTF-8 text encodes.
    - [str.strip] and the white space class of [re] work on Python's white
      space, the fixed set of code points of [Py.is_space].
    - [str.lower] and [str.title] are the algorithms of the Python runtime:
      character by character, through the full case mappings of the Unicode
      character database, with the rule for a capital sigma that ends a
      word.  The database itself is a parameter, [Py.ucd]: its tables are
      arbitrary but for what they hold on ASCII.  Every theorem is proved for
      every such database, hence for the one of the Python that runs the
      program.  [Py.unicode] is one of them, the database of Unicode 14.0.0
      that CPython 3.11 carries; the theorems are put to work on it at the
      end.
    - A Python [int] is a [Z].
    - A [dict] is an association list in insertion order ([dict.values] is
      read in that order by [explain_why]).
    - Console effects are explicit: a [world] holds the lines still to be
      read from standard input and the trace of calls made to [print],
      [speak], [speak_slow] and [input] so far.  [EOFError] and [KeyError]
      are results of type [result]. *)

From Stdlib Require Import List Bool Arith NArith ZArith Lia.
From Stdlib Require Import Strings.Byte.
From Stdlib Require Import Sorting.Sorted.
Import ListNotations.

Local Open Scope list_scope.

(** ** Python strings *)

(** *** Literals: the code points of a UTF-8 text *)

Module PyLiteral.

Definition text : Type := list N.

Fixpoint utf8_decode (fuel : nat) (bs : list N) : list N :=
  match fuel with
  | O => []
  | S fuel =>
      match bs with
      | [] => []
      | b0 :: r0 =>
          if (b0 <? 128)%N then b0 :: utf8_decode fuel r0
          else if (b0 <? 224)%N then
            match r0 with
            | b1 :: r1 =>
                ((b0 - 192) * 64 + (b1 - 128))%N :: utf8_decode fuel r1
            | _ => [b0]
            end
          else if (b0 <? 240)%N then
            match r0 with
            | b1 :: b2 :: r2 =>
                ((b0 - 224) * 4096 + (b1 - 128) * 64 + (b2 - 128))%N
                :: utf8_decode fuel r2
            | _ => [b0]
            end
          else
            match r0 with
            | b1 :: b2 :: b3 :: r3 =>
                ((b0 - 240) * 262144 + (b1 - 128) * 4096 + (b2 - 128) * 64
                 + (b3 - 128))%N
                :: utf8_decode fuel r3
            | _ => [b0]
            end
      end
  end.

Definition utf8_encode_one (c : N) : list N :=
  if (c <? 128)%N then [c]
  else if (c <? 2048)%N then [192 + c / 64; 128 + c mod 64]%N
  else if (c <? 65536)%N then
    [224 + c / 4096; 128 + (c / 64) mod 64; 128 + c mod 64]%N
  else
    [240 + c / 262144; 128 + (c / 4096) mod 64; 128 + (c / 64) mod 64;
     128 + c mod 64]%N.

(** The shape of a literal, for the notation. *)
Inductive literal :=
| lit_nil
| lit_cons (c : N) (r : literal).

Fixpoint to_literal (s : list N) : literal :=
  match s with
  | [] => lit_nil
  | c :: r => lit_cons c (to_literal r)
  end.

Fixpoint of_literal (l : literal) : list N :=
  match l with
  | lit_nil => []
  | lit_cons c r => c :: of_literal r
  end.

Definition parse_literal (bs : list Byte.byte) : literal :=
  to_literal (utf8_decode (List.length bs) (map Byte.to_N bs)).

Fixpoint bytes_of (ns : list N) : option (list Byte.byte) :=
  match ns with
  | [] => Some []
  | n :: r =>
      match Byte.of_N n, bytes_of r with
      | Some b, Some bs => Some (b :: bs)
      | _, _ => None
      end
  end.

Definition print_literal (l : literal) : option (list Byte.byte) :=
  bytes_of (flat_map utf8_encode_one (of_literal l)).

End PyLiteral.

Declare Scope py_scope.
Delimit Scope py_scope with py.
#[warnings="-via-type-mismatch,-via-type-remapping"]
String Notation PyLiteral.text PyLiteral.parse_literal PyLiteral.print_literal
  (via PyLiteral.literal mapping
     [[nil] => PyLiteral.lit_nil, [cons] => PyLiteral.lit_cons])
  : py_scope.
Local Open Scope py_scope.

(** *** The primitives the program uses *)

Module Py.

Definition str : Type := list N.

(** [a == b] on strings. *)
Fixpoint eqb (a b : str) : bool :=
  match a, b with
  | [], [] => true
  | x :: a', y :: b' => N.eqb x y && eqb a' b'
  | _, _ => false
  end.

(** [a <= b] on strings: code point by code point. *)
Fixpoint leb (a b : str) : bool :=
  match a, b with
  | [], _ => true
  | _ :: _, [] => false
  | x :: a', y :: b' =>
      if N.ltb x y then true else if N.ltb y x then false else leb a' b'
  end.

(** The white space of [str.isspace], [str.strip] and of the class [\s] of
    a [str] pattern: [Py_UNICODE_ISSPACE]. *)
Definition is_space (c : N) : bool :=
  (((9 <=? c) && (c <=? 13)) || ((28 <=? c) && (c <=? 32))
   || (c =? 133) || (c =? 160) || (c =? 5760)
   || ((8192 <=? c) && (c <=? 8202))
   || (c =? 8232) || (c =? 8233) || (c =? 8239) || (c =? 8287)
   || (c =? 12288))%N.

Fixpoint lstrip (s : str) : str :=
  match s with
  | [] => []
  | c :: r => if is_space c then lstrip r else s
  end.

Fixpoint rstrip (s : str) : str :=
  match s with
  | [] => []
  | c :: r =>
      match rstrip r with
      | [] => if is_space c then [] else [c]
      | r' => c :: r'
      end
  end.

(** [s.strip()] *)
Definition strip (s : str) : str := rstrip (lstrip s).

(** Truth value of a [str]: non-empty. *)
Definition truthy (s : str) : bool :=
  match s with [] => false | _ :: _ => true end.

Fixpoint starts_with (p s : str) : bool :=
  match p, s with
  | [], _ => true
  | a :: p', b :: s' => N.eqb a b && starts_with p' s'
  | _ :: _, [] => false
  end.

(** [needle in hay] on strings: substring test. *)
Fixpoint in_str (needle hay : str) : bool :=
  starts_with needle hay
  || match hay with
     | [] => false
     | _ :: r => in_str needle r
     end.

(** [xs.append(x)] *)
Definition append {A} (xs : list A) (x : A) : list A := xs ++ [x].

(** [x in xs] on a list of strings: membership by equality. *)
Definition in_list (x : str) (xs : list str) : bool :=
  existsb (eqb x) xs.

(** [sep.join(xs)] *)
Fixpoint join (sep : str) (xs : list str) : str :=
  match xs with
  | [] => []
  | x :: r =>
      match r with
      | [] => x
      | _ :: _ => x ++ sep ++ join sep r
      end
  end.

(** [sorted(xs)] on strings, as the insertion of each element in turn.
    Python's sort is another algorithm; on a list without repetition,
    which is all the program sorts, a total order has one sorted
    arrangement. *)
Fixpoint insert_sorted (x : str) (xs : list str) : list str :=
  match xs with
  | [] => [x]
  | y :: ys => if leb x y then x :: xs else y :: insert_sorted x ys
  end.

Definition sorted (xs : list str) : list str :=
  fold_right insert_sorted [] xs.

(** [set(xs)]: the elements of [xs], each once.  The iteration order of a
    Python set is unspecified; the program only ever sorts it. *)
Fixpoint set_of (xs : list str) : list str :=
  match xs with
  | [] => []
  | x :: r => if in_list x r then set_of r else x :: set_of r
  end.

(** *** Letter case *)

Definition ascii_upper_letter (c : N) : bool := ((65 <=? c) && (c <=? 90))%N.
Definition ascii_lower_letter (c : N) : bool := ((97 <=? c) && (c <=? 122))%N.
Definition ascii_letter (c : N) : bool :=
  ascii_upper_letter c || ascii_lower_letter c.
Definition ascii_lower (c : N) : N :=
  if ascii_upper_letter c then (c + 32)%N else c.
Definition ascii_upper (c : N) : N :=
  if ascii_lower_letter c then (c - 32)%N else c.

(** The code points of Basic Latin. *)
Definition basic_latin_block : list N := map N.of_nat (seq 0 128).

(** Case tables that are, on Basic Latin, those of the ASCII letters. *)
Definition ascii_tables (lower title : N -> list N) (cased : N -> bool) : bool :=
  forallb (fun c => eqb (lower c) [ascii_lower c]
                    && eqb (title c) [ascii_upper c]
                    && Bool.eqb (cased c) (ascii_letter c))
          basic_latin_block.

(** The tables of the Unicode character database that [str.lower] and
    [str.title] read: [_PyUnicode_ToLowerFull], [_PyUnicode_ToTitleFull],
    [_PyUnicode_IsCased] and [_PyUnicode_IsCaseIgnorable].  The database
    grows from one version of Python to the next; what holds of every
    version, and is all the facts below rely on, is its content on Basic
    Latin. *)
Record ucd := mk_ucd {
  to_lower_full : N -> list N;
  to_title_full : N -> list N;
  is_cased : N -> bool;
  is_case_ignorable : N -> bool;
  on_basic_latin : ascii_tables to_lower_full to_title_full is_cased = true
}.

Section CaseMapping.

Context (U : ucd).

(** The first loop of either direction in [handle_capital_sigma]: skip the
    case-ignorable characters. *)
Fixpoint skip_ignorable (s : str) : str :=
  match s with
  | [] => []
  | c :: r => if is_case_ignorable U c then skip_ignorable r else s
  end.

(** [handle_capital_sigma]: the lower case of U+03A3 given the characters
    before it, nearest first, and those after it.  It is the final sigma
    when a cased character comes before it, case-ignorable ones apart, and
    none comes after it. *)
Definition handle_capital_sigma (before after : str) : N :=
  let final_sigma :=
    match skip_ignorable before with
    | c :: _ => is_cased U c
    | [] => false
    end in
  let final_sigma :=
    if final_sigma then
      match skip_ignorable after with
      | [] => true
      | c :: _ => negb (is_cased U c)
      end
    else false in
  if final_sigma then 962%N else 963%N.

(** [lower_ucs4] *)
Definition lower_ucs4 (before : str) (c : N) (after : str) : list N :=
  if (c =? 931)%N then [handle_capital_sigma before after]
  else to_lower_full U c.

(** The lower case of the characters of [s], which stand between [before]
    (nearest first) and [after]. *)
Fixpoint lower_in (before s after : str) : str :=
  match s with
  | [] => []
  | c :: r => lower_ucs4 before c (r ++ after) ++ lower_in (c :: before) r after
  end.

(** [s.lower()] *)
Definition lower (s : str) : str := lower_in [] s [].

(** [do_title]: a character is title-cased when the character before it is
    not cased, and lower-cased when it is. *)
Fixpoint title_in (previous_is_cased : bool) (before s : str) : str :=
  match s with
  | [] => []
  | c :: r =>
      (if previous_is_cased then lower_ucs4 before c r else to_title_full U c)
      ++ title_in (is_cased U c) (c :: before) r
  end.

(** [s.title()] *)
Definition title (s : str) : str := title_in false [] s.

End CaseMapping.

(** *** The database of Unicode 14.0.0

    The tables of CPython 3.11, for running the program on a text.  A run
    [(first, last, step, target)] maps the code points [first],
    [first + step], ... up to [last] onto [target], [target + step], ...;
    the special entries are the mappings to more than one code point; a
    code point in neither table is its own lower or title case. *)

Definition lower_runs : list (N * N * N * N) :=
  [
  (65, 90, 1, 97); (192, 214, 1, 224); (216, 222, 1, 248); (256, 302, 2, 257);
  (306, 310, 2, 307); (313, 327, 2, 314); (330, 374, 2, 331); (376, 376, 1, 255);
  (377, 381, 2, 378); (385, 385, 1, 595); (386, 388, 2, 387); (390, 390, 1, 596);
  (391, 391, 1, 392); (393, 394, 1, 598); (395, 395, 1, 396); (398, 398, 1, 477);
  (399, 399, 1, 601); (400, 400, 1, 603); (401, 401, 1, 402); (403, 403, 1, 608);
  (404, 404, 1, 611); (406, 406, 1, 617); (407, 407, 1, 616); (408, 408, 1, 409);
  (412, 412, 1, 623); (413, 413, 1, 626); (415, 415, 1, 629); (416, 420, 2, 417);
  (422, 422, 1, 640); (423, 423, 1, 424); (425, 425, 1, 643); (428, 428, 1, 429);
  (430, 430, 1, 648); (431, 431, 1, 432); (433, 434, 1, 650); (435, 437, 2, 436);
  (439, 439, 1, 658); (440, 440, 1, 441); (444, 444, 1, 445); (452, 452, 1, 454);
  (453, 453, 1, 454); (455, 455, 1, 457); (456, 456, 1, 457); (458, 458, 1, 460);
  (459, 475, 2, 460); (478, 494, 2, 479); (497, 497, 1, 499); (498, 500, 2, 499);
  (502, 502, 1, 405); (503, 503, 1, 447); (504, 542, 2, 505); (544, 544, 1, 414);
  (546, 562, 2, 547); (570, 570, 1, 11365); (571, 571, 1, 572); (573, 573, 1, 410);
  (574, 574, 1, 11366); (577, 577, 1, 578); (579, 579, 1, 384); (580, 580, 1, 649);
  (581, 581, 1, 652); (582, 590, 2, 583); (880, 882, 2, 881); (886, 886, 1, 887);
  (895, 895, 1, 1011); (902, 902, 1, 940); (904, 906, 1, 941); (908, 908, 1, 972);
  (910, 911, 1, 973); (913, 929, 1, 945); (931, 939, 1, 963); (975, 975, 1, 983);
  (984, 1006, 2, 985); (1012, 1012, 1, 952); (1015, 1015, 1, 1016); (1017, 1017, 1, 1010);
  (1018, 1018, 1, 1019); (1021, 1023, 1, 891); (1024, 1039, 1, 1104); (1040, 1071, 1, 1072);
  (1120, 1152, 2, 1121); (1162, 1214, 2, 1163); (1216, 1216, 1, 1231); (1217, 1229, 2, 1218);
  (1232, 1326, 2, 1233); (1329, 1366, 1, 1377); (4256, 4293, 1, 11520); (4295, 4295, 1, 11559);
  (4301, 4301, 1, 11565); (5024, 5103, 1, 43888); (5104, 5109, 1, 5112); (7312, 7354, 1, 4304);
  (7357, 7359, 1, 4349); (7680, 7828, 2, 7681); (7838, 7838, 1, 223); (7840, 7934, 2, 7841);
  (7944, 7951, 1, 7936); (7960, 7965, 1, 7952); (7976, 7983, 1, 7968); (7992, 7999, 1, 7984);
  (8008, 8013, 1, 8000); (8025, 8031, 2, 8017); (8040, 8047, 1, 8032); (8072, 8079, 1, 8064);
  (8088, 8095, 1, 8080); (8104, 8111, 1, 8096); (8120, 8121, 1, 8112); (8122, 8123, 1, 8048);
  (8124, 8124, 1, 8115); (8136, 8139, 1, 8050); (8140, 8140, 1, 8131); (8152, 8153, 1, 8144);
  (8154, 8155, 1, 8054); (8168, 8169, 1, 8160); (8170, 8171, 1, 8058); (8172, 8172, 1, 8165);
  (8184, 8185, 1, 8056); (8186, 8187, 1, 8060); (8188, 8188, 1, 8179); (8486, 8486, 1, 969);
  (8490, 8490, 1, 107); (8491, 8491, 1, 229); (8498, 8498, 1, 8526); (8544, 8559, 1, 8560);
  (8579, 8579, 1, 8580); (9398, 9423, 1, 9424); (11264, 11311, 1, 11312); (11360, 11360, 1, 11361);
  (11362, 11362, 1, 619); (11363, 11363, 1, 7549); (11364, 11364, 1, 637); (11367, 11371, 2, 11368);
  (11373, 11373, 1, 593); (11374, 11374, 1, 625); (11375, 11375, 1, 592); (11376, 11376, 1, 594);
  (11378, 11378, 1, 11379); (11381, 11381, 1, 11382); (11390, 11391, 1, 575); (11392, 11490, 2, 11393);
  (11499, 11501, 2, 11500); (11506, 11506, 1, 11507); (42560, 42604, 2, 42561); (42624, 42650, 2, 42625);
  (42786, 42798, 2, 42787); (42802, 42862, 2, 42803); (42873, 42875, 2, 42874); (42877, 42877, 1, 7545);
  (42878, 42886, 2, 42879); (42891, 42891, 1, 42892); (42893, 42893, 1, 613); (42896, 42898, 2, 42897);
  (42902, 42920, 2, 42903); (42922, 42922, 1, 614); (42923, 42923, 1, 604); (42924, 42924, 1, 609);
  (42925, 42925, 1, 620); (42926, 42926, 1, 618); (42928, 42928, 1, 670); (42929, 42929, 1, 647);
  (42930, 42930, 1, 669); (42931, 42931, 1, 43859); (42932, 42946, 2, 42933); (42948, 42948, 1, 42900);
  (42949, 42949, 1, 642); (42950, 42950, 1, 7566); (42951, 42953, 2, 42952); (42960, 42960, 1, 42961);
  (42966, 42968, 2, 42967); (42997, 42997, 1, 42998); (65313, 65338, 1, 65345); (66560, 66599, 1, 66600);
  (66736, 66771, 1, 66776); (66928, 66938, 1, 66967); (66940, 66954, 1, 66979); (66956, 66962, 1, 66995);
  (66964, 66965, 1, 67003); (68736, 68786, 1, 68800); (71840, 71871, 1, 71872); (93760, 93791, 1, 93792);
  (125184, 125217, 1, 125218)
  ]%N.

Definition lower_special : list (N * list N) :=
  [
  (304, [105; 775])
  ]%N.

Definition title_runs : list (N * N * N * N) :=
  [
  (97, 122, 1, 65); (181, 181, 1, 924); (224, 246, 1, 192); (248, 254, 1, 216);
  (255, 255, 1, 376); (257, 303, 2, 256); (305, 305, 1, 73); (307, 311, 2, 306);
  (314, 328, 2, 313); (331, 375, 2, 330); (378, 382, 2, 377); (383, 383, 1, 83);
  (384, 384, 1, 579); (387, 389, 2, 386); (392, 392, 1, 391); (396, 396, 1, 395);
  (402, 402, 1, 401); (405, 405, 1, 502); (409, 409, 1, 408); (410, 410, 1, 573);
  (414, 414, 1, 544); (417, 421, 2, 416); (424, 424, 1, 423); (429, 429, 1, 428);
  (432, 432, 1, 431); (436, 438, 2, 435); (441, 441, 1, 440); (445, 445, 1, 444);
  (447, 447, 1, 503); (452, 452, 1, 453); (454, 454, 1, 453); (455, 455, 1, 456);
  (457, 457, 1, 456); (458, 458, 1, 459); (460, 476, 2, 459); (477, 477, 1, 398);
  (479, 495, 2, 478); (497, 497, 1, 498); (499, 501, 2, 498); (505, 543, 2, 504);
  (547, 563, 2, 546); (572, 572, 1, 571); (575, 576, 1, 11390); (578, 578, 1, 577);
  (583, 591, 2, 582); (592, 592, 1, 11375); (593, 593, 1, 11373); (594, 594, 1, 11376);
  (595, 595, 1, 385); (596, 596, 1, 390); (598, 599, 1, 393); (601, 601, 1, 399);
  (603, 603, 1, 400); (604, 604, 1, 42923); (608, 608, 1, 403); (609, 609, 1, 42924);
  (611, 611, 1, 404); (613, 613, 1, 42893); (614, 614, 1, 42922); (616, 616, 1, 407);
  (617, 617, 1, 406); (618, 618, 1, 42926); (619, 619, 1, 11362); (620, 620, 1, 42925);
  (623, 623, 1, 412); (625, 625, 1, 11374); (626, 626, 1, 413); (629, 629, 1, 415);
  (637, 637, 1, 11364); (640, 640, 1, 422); (642, 642, 1, 42949); (643, 643, 1, 425);
  (647, 647, 1, 42929); (648, 648, 1, 430); (649, 649, 1, 580); (650, 651, 1, 433);
  (652, 652, 1, 581); (658, 658, 1, 439); (669, 669, 1, 42930); (670, 670, 1, 42928);
  (837, 837, 1, 921); (881, 883, 2, 880); (887, 887, 1, 886); (891, 893, 1, 1021);
  (940, 940, 1, 902); (941, 943, 1, 904); (945, 961, 1, 913); (962, 962, 1, 931);
  (963, 971, 1, 931); (972, 972, 1, 908); (973, 974, 1, 910); (976, 976, 1, 914);
  (977, 977, 1, 920); (981, 981, 1, 934); (982, 982, 1, 928); (983, 983, 1, 975);
  (985, 1007, 2, 984); (1008, 1008, 1, 922); (1009, 1009, 1, 929); (1010, 1010, 1, 1017);
  (1011, 1011, 1, 895); (1013, 1013, 1, 917); (1016, 1016, 1, 1015); (1019, 1019, 1, 1018);
  (1072, 1103, 1, 1040); (1104, 1119, 1, 1024); (1121, 1153, 2, 1120); (1163, 1215, 2, 1162);
  (1218, 1230, 2, 1217); (1231, 1231, 1, 1216); (1233, 1327, 2, 1232); (1377, 1414, 1, 1329);
  (5112, 5117, 1, 5104); (7296, 7296, 1, 1042); (7297, 7297, 1, 1044); (7298, 7298, 1, 1054);
  (7299, 7300, 1, 1057); (7301, 7301, 1, 1058); (7302, 7302, 1, 1066); (7303, 7303, 1, 1122);
  (7304, 7304, 1, 42570); (7545, 7545, 1, 42877); (7549, 7549, 1, 11363); (7566, 7566, 1, 42950);
  (7681, 7829, 2, 7680); (7835, 7835, 1, 7776); (7841, 7935, 2, 7840); (7936, 7943, 1, 7944);
  (7952, 7957, 1, 7960); (7968, 7975, 1, 7976); (7984, 7991, 1, 7992); (8000, 8005, 1, 8008);
  (8017, 8023, 2, 8025); (8032, 8039, 1, 8040); (8048, 8049, 1, 8122); (8050, 8053, 1, 8136);
  (8054, 8055, 1, 8154); (8056, 8057, 1, 8184); (8058, 8059, 1, 8170); (8060, 8061, 1, 8186);
  (8064, 8071, 1, 8072); (8080, 8087, 1, 8088); (8096, 8103, 1, 8104); (8112, 8113, 1, 8120);
  (8115, 8115, 1, 8124); (8126, 8126, 1, 921); (8131, 8131, 1, 8140); (8144, 8145, 1, 8152);
  (8160, 8161, 1, 8168); (8165, 8165, 1, 8172); (8179, 8179, 1, 8188); (8526, 8526, 1, 8498);
  (8560, 8575, 1, 8544); (8580, 8580, 1, 8579); (9424, 9449, 1, 9398); (11312, 11359, 1, 11264);
  (11361, 11361, 1, 11360); (11365, 11365, 1, 570); (11366, 11366, 1, 574); (11368, 11372, 2, 11367);
  (11379, 11379, 1, 11378); (11382, 11382, 1, 11381); (11393, 11491, 2, 11392); (11500, 11502, 2, 11499);
  (11507, 11507, 1, 11506); (11520, 11557, 1, 4256); (11559, 11559, 1, 4295); (11565, 11565, 1, 4301);
  (42561, 42605, 2, 42560); (42625, 42651, 2, 42624); (42787, 42799, 2, 42786); (42803, 42863, 2, 42802);
  (42874, 42876, 2, 42873); (42879, 42887, 2, 42878); (42892, 42892, 1, 42891); (42897, 42899, 2, 42896);
  (42900, 42900, 1, 42948); (42903, 42921, 2, 42902); (42933, 42947, 2, 42932); (42952, 42954, 2, 42951);
  (42961, 42961, 1, 42960); (42967, 42969, 2, 42966); (42998, 42998, 1, 42997); (43859, 43859, 1, 42931);
  (43888, 43967, 1, 5024); (65345, 65370, 1, 65313); (66600, 66639, 1, 66560); (66776, 66811, 1, 66736);
  (66967, 66977, 1, 66928); (66979, 66993, 1, 66940); (66995, 67001, 1, 66956); (67003, 67004, 1, 66964);
  (68800, 68850, 1, 68736); (71872, 71903, 1, 71840); (93792, 93823, 1, 93760); (125218, 125251, 1, 125184)
  ]%N.

Definition title_special : list (N * list N) :=
  [
  (223, [83; 115]); (329, [700; 78]); (496, [74; 780]);
  (912, [921; 776; 769]); (944, [933; 776; 769]); (1415, [1333; 1410]);
  (7830, [72; 817]); (7831, [84; 776]); (7832, [87; 778]);
  (7833, [89; 778]); (7834, [65; 702]); (8016, [933; 787]);
  (8018, [933; 787; 768]); (8020, [933; 787; 769]); (8022, [933; 787; 834]);
  (8114, [8122; 837]); (8116, [902; 837]); (8118, [913; 834]);
  (8119, [913; 834; 837]); (8130, [8138; 837]); (8132, [905; 837]);
  (8134, [919; 834]); (8135, [919; 834; 837]); (8146, [921; 776; 768]);
  (8147, [921; 776; 769]); (8150, [921; 834]); (8151, [921; 776; 834]);
  (8162, [933; 776; 768]); (8163, [933; 776; 769]); (8164, [929; 787]);
  (8166, [933; 834]); (8167, [933; 776; 834]); (8178, [8186; 837]);
  (8180, [911; 837]); (8182, [937; 834]); (8183, [937; 834; 837]);
  (64256, [70; 102]); (64257, [70; 105]); (64258, [70; 108]);
  (64259, [70; 102; 105]); (64260, [70; 102; 108]); (64261, [83; 116]);
  (64262, [83; 116]); (64275, [1348; 1398]); (64276, [1348; 1381]);
  (64277, [1348; 1387]); (64278, [1358; 1398]); (64279, [1348; 1389])
  ]%N.

Definition cased_ranges : list (N * N) :=
  [
  (65, 90); (97, 122); (170, 170); (181, 181); (186, 186); (192, 214);
  (216, 246); (248, 442); (444, 447); (452, 659); (661, 696); (704, 705);
  (736, 740); (837, 837); (880, 883); (886, 887); (890, 893); (895, 895);
  (902, 902); (904, 906); (908, 908); (910, 929); (931, 1013); (1015, 1153);
  (1162, 1327); (1329, 1366); (1376, 1416); (4256, 4293); (4295, 4295); (4301, 4301);
  (4304, 4346); (4349, 4351); (5024, 5109); (5112, 5117); (7296, 7304); (7312, 7354);
  (7357, 7359); (7424, 7615); (7680, 7957); (7960, 7965); (7968, 8005); (8008, 8013);
  (8016, 8023); (8025, 8025); (8027, 8027); (8029, 8029); (8031, 8061); (8064, 8116);
  (8118, 8124); (8126, 8126); (8130, 8132); (8134, 8140); (8144, 8147); (8150, 8155);
  (8160, 8172); (8178, 8180); (8182, 8188); (8305, 8305); (8319, 8319); (8336, 8348);
  (8450, 8450); (8455, 8455); (8458, 8467); (8469, 8469); (8473, 8477); (8484, 8484);
  (8486, 8486); (8488, 8488); (8490, 8493); (8495, 8500); (8505, 8505); (8508, 8511);
  (8517, 8521); (8526, 8526); (8544, 8575); (8579, 8580); (9398, 9449); (11264, 11492);
  (11499, 11502); (11506, 11507); (11520, 11557); (11559, 11559); (11565, 11565); (42560, 42605);
  (42624, 42653); (42786, 42887); (42891, 42894); (42896, 42954); (42960, 42961); (42963, 42963);
  (42965, 42969); (42997, 42998); (43000, 43002); (43824, 43866); (43868, 43880); (43888, 43967);
  (64256, 64262); (64275, 64279); (65313, 65338); (65345, 65370); (66560, 66639); (66736, 66771);
  (66776, 66811); (66928, 66938); (66940, 66954); (66956, 66962); (66964, 66965); (66967, 66977);
  (66979, 66993); (66995, 67001); (67003, 67004); (67456, 67456); (67459, 67461); (67463, 67504);
  (67506, 67514); (68736, 68786); (68800, 68850); (71840, 71903); (93760, 93823); (119808, 119892);
  (119894, 119964); (119966, 119967); (119970, 119970); (119973, 119974); (119977, 119980); (119982, 119993);
  (119995, 119995); (119997, 120003); (120005, 120069); (120071, 120074); (120077, 120084); (120086, 120092);
  (120094, 120121); (120123, 120126); (120128, 120132); (120134, 120134); (120138, 120144); (120146, 120485);
  (120488, 120512); (120514, 120538); (120540, 120570); (120572, 120596); (120598, 120628); (120630, 120654);
  (120656, 120686); (120688, 120712); (120714, 120744); (120746, 120770); (120772, 120779); (122624, 122633);
  (122635, 122654); (125184, 125251); (127280, 127305); (127312, 127337); (127344, 127369)
  ]%N.

Definition case_ignorable_ranges : list (N * N) :=
  [
  (39, 39); (46, 46); (58, 58); (94, 94); (96, 96); (168, 168);
  (173, 173); (175, 175); (180, 180); (183, 184); (688, 879); (884, 885);
  (890, 890); (900, 901); (903, 903); (1155, 1161); (1369, 1369); (1375, 1375);
  (1425, 1469); (1471, 1471); (1473, 1474); (1476, 1477); (1479, 1479); (1524, 1524);
  (1536, 1541); (1552, 1562); (1564, 1564); (1600, 1600); (1611, 1631); (1648, 1648);
  (1750, 1757); (1759, 1768); (1770, 1773); (1807, 1807); (1809, 1809); (1840, 1866);
  (1958, 1968); (2027, 2037); (2042, 2042); (2045, 2045); (2070, 2093); (2137, 2139);
  (2184, 2184); (2192, 2193); (2200, 2207); (2249, 2306); (2362, 2362); (2364, 2364);
  (2369, 2376); (2381, 2381); (2385, 2391); (2402, 2403); (2417, 2417); (2433, 2433);
  (2492, 2492); (2497, 2500); (2509, 2509); (2530, 2531); (2558, 2558); (2561, 2562);
  (2620, 2620); (2625, 2626); (2631, 2632); (2635, 2637); (2641, 2641); (2672, 2673);
  (2677, 2677); (2689, 2690); (2748, 2748); (2753, 2757); (2759, 2760); (2765, 2765);
  (2786, 2787); (2810, 2815); (2817, 2817); (2876, 2876); (2879, 2879); (2881, 2884);
  (2893, 2893); (2901, 2902); (2914, 2915); (2946, 2946); (3008, 3008); (3021, 3021);
  (3072, 3072); (3076, 3076); (3132, 3132); (3134, 3136); (3142, 3144); (3146, 3149);
  (3157, 3158); (3170, 3171); (3201, 3201); (3260, 3260); (3263, 3263); (3270, 3270);
  (3276, 3277); (3298, 3299); (3328, 3329); (3387, 3388); (3393, 3396); (3405, 3405);
  (3426, 3427); (3457, 3457); (3530, 3530); (3538, 3540); (3542, 3542); (3633, 3633);
  (3636, 3642); (3654, 3662); (3761, 3761); (3764, 3772); (3782, 3782); (3784, 3789);
  (3864, 3865); (3893, 3893); (3895, 3895); (3897, 3897); (3953, 3966); (3968, 3972);
  (3974, 3975); (3981, 3991); (3993, 4028); (4038, 4038); (4141, 4144); (4146, 4151);
  (4153, 4154); (4157, 4158); (4184, 4185); (4190, 4192); (4209, 4212); (4226, 4226);
  (4229, 4230); (4237, 4237); (4253, 4253); (4348, 4348); (4957, 4959); (5906, 5908);
  (5938, 5939); (5970, 5971); (6002, 6003); (6068, 6069); (6071, 6077); (6086, 6086);
  (6089, 6099); (6103, 6103); (6109, 6109); (6155, 6159); (6211, 6211); (6277, 6278);
  (6313, 6313); (6432, 6434); (6439, 6440); (6450, 6450); (6457, 6459); (6679, 6680);
  (6683, 6683); (6742, 6742); (6744, 6750); (6752, 6752); (6754, 6754); (6757, 6764);
  (6771, 6780); (6783, 6783); (6823, 6823); (6832, 6862); (6912, 6915); (6964, 6964);
  (6966, 6970); (6972, 6972); (6978, 6978); (7019, 7027); (7040, 7041); (7074, 7077);
  (7080, 7081); (7083, 7085); (7142, 7142); (7144, 7145); (7149, 7149); (7151, 7153);
  (7212, 7219); (7222, 7223); (7288, 7293); (7376, 7378); (7380, 7392); (7394, 7400);
  (7405, 7405); (7412, 7412); (7416, 7417); (7468, 7530); (7544, 7544); (7579, 7679);
  (8125, 8125); (8127, 8129); (8141, 8143); (8157, 8159); (8173, 8175); (8189, 8190);
  (8203, 8207); (8216, 8217); (8228, 8228); (8231, 8231); (8234, 8238); (8288, 8292);
  (8294, 8303); (8305, 8305); (8319, 8319); (8336, 8348); (8400, 8432); (11388, 11389);
  (11503, 11505); (11631, 11631); (11647, 11647); (11744, 11775); (11823, 11823); (12293, 12293);
  (12330, 12333); (12337, 12341); (12347, 12347); (12441, 12446); (12540, 12542); (40981, 40981);
  (42232, 42237); (42508, 42508); (42607, 42610); (42612, 42621); (42623, 42623); (42652, 42655);
  (42736, 42737); (42752, 42785); (42864, 42864); (42888, 42890); (42994, 42996); (43000, 43001);
  (43010, 43010); (43014, 43014); (43019, 43019); (43045, 43046); (43052, 43052); (43204, 43205);
  (43232, 43249); (43263, 43263); (43302, 43309); (43335, 43345); (43392, 43394); (43443, 43443);
  (43446, 43449); (43452, 43453); (43471, 43471); (43493, 43494); (43561, 43566); (43569, 43570);
  (43573, 43574); (43587, 43587); (43596, 43596); (43632, 43632); (43644, 43644); (43696, 43696);
  (43698, 43700); (43703, 43704); (43710, 43711); (43713, 43713); (43741, 43741); (43756, 43757);
  (43763, 43764); (43766, 43766); (43867, 43871); (43881, 43883); (44005, 44005); (44008, 44008);
  (44013, 44013); (64286, 64286); (64434, 64450); (65024, 65039); (65043, 65043); (65056, 65071);
  (65106, 65106); (65109, 65109); (65279, 65279); (65287, 65287); (65294, 65294); (65306, 65306);
  (65342, 65342); (65344, 65344); (65392, 65392); (65438, 65439); (65507, 65507); (65529, 65531);
  (66045, 66045); (66272, 66272); (66422, 66426); (67456, 67461); (67463, 67504); (67506, 67514);
  (68097, 68099); (68101, 68102); (68108, 68111); (68152, 68154); (68159, 68159); (68325, 68326);
  (68900, 68903); (69291, 69292); (69446, 69456); (69506, 69509); (69633, 69633); (69688, 69702);
  (69744, 69744); (69747, 69748); (69759, 69761); (69811, 69814); (69817, 69818); (69821, 69821);
  (69826, 69826); (69837, 69837); (69888, 69890); (69927, 69931); (69933, 69940); (70003, 70003);
  (70016, 70017); (70070, 70078); (70089, 70092); (70095, 70095); (70191, 70193); (70196, 70196);
  (70198, 70199); (70206, 70206); (70367, 70367); (70371, 70378); (70400, 70401); (70459, 70460);
  (70464, 70464); (70502, 70508); (70512, 70516); (70712, 70719); (70722, 70724); (70726, 70726);
  (70750, 70750); (70835, 70840); (70842, 70842); (70847, 70848); (70850, 70851); (71090, 71093);
  (71100, 71101); (71103, 71104); (71132, 71133); (71219, 71226); (71229, 71229); (71231, 71232);
  (71339, 71339); (71341, 71341); (71344, 71349); (71351, 71351); (71453, 71455); (71458, 71461);
  (71463, 71467); (71727, 71735); (71737, 71738); (71995, 71996); (71998, 71998); (72003, 72003);
  (72148, 72151); (72154, 72155); (72160, 72160); (72193, 72202); (72243, 72248); (72251, 72254);
  (72263, 72263); (72273, 72278); (72281, 72283); (72330, 72342); (72344, 72345); (72752, 72758);
  (72760, 72765); (72767, 72767); (72850, 72871); (72874, 72880); (72882, 72883); (72885, 72886);
  (73009, 73014); (73018, 73018); (73020, 73021); (73023, 73029); (73031, 73031); (73104, 73105);
  (73109, 73109); (73111, 73111); (73459, 73460); (78896, 78904); (92912, 92916); (92976, 92982);
  (92992, 92995); (94031, 94031); (94095, 94111); (94176, 94177); (94179, 94180); (110576, 110579);
  (110581, 110587); (110589, 110590); (113821, 113822); (113824, 113827); (118528, 118573); (118576, 118598);
  (119143, 119145); (119155, 119170); (119173, 119179); (119210, 119213); (119362, 119364); (121344, 121398);
  (121403, 121452); (121461, 121461); (121476, 121476); (121499, 121503); (121505, 121519); (122880, 122886);
  (122888, 122904); (122907, 122913); (122915, 122916); (122918, 122922); (123184, 123197); (123566, 123566);
  (123628, 123631); (125136, 125142); (125252, 125259); (127995, 127999); (917505, 917505); (917536, 917631);
  (917760, 917999)
  ]%N.

Fixpoint find_run (runs : list (N * N * N * N)) (c : N) : option N :=
  match runs with
  | [] => None
  | (first, last, step, target) :: r =>
      if ((first <=? c) && (c <=? last) && ((c - first) mod step =? 0))%N
      then Some (target + (c - first))%N
      else find_run r c
  end.

Fixpoint find_special (entries : list (N * list N)) (c : N) : option (list N) :=
  match entries with
  | [] => None
  | (c', mapped) :: r => if (c =? c')%N then Some mapped else find_special r c
  end.

Definition full_mapping (special : list (N * list N))
    (runs : list (N * N * N * N)) (c : N) : list N :=
  match find_special special c with
  | Some mapped => mapped
  | None =>
      match find_run runs c with
      | Some d => [d]
      | None => [c]
      end
  end.

Definition in_ranges (ranges : list (N * N)) (c : N) : bool :=
  existsb (fun r => ((fst r <=? c) && (c <=? snd r))%N) ranges.

Definition unicode : ucd :=
  mk_ucd (full_mapping lower_special lower_runs)
         (full_mapping title_special title_runs)
         (in_ranges cased_ranges)
         (in_ranges case_ignorable_ranges)
         (eq_refl true
          <: ascii_tables (full_mapping lower_special lower_runs)
                          (full_mapping title_special title_runs)
                          (in_ranges cased_ranges) = true).

(** *** Dictionaries in insertion order *)

Definition dict (V : Type) := list (str * V).

Fixpoint lookup {V} (d : dict V) (k : str) : option V :=
  match d with
  | [] => None
  | (k', v) :: r => if eqb k k' then Some v else lookup r k
  end.

(** [d.get(k, default)] *)
Definition get {V} (d : dict V) (k : str) (default : V) : V :=
  match lookup d k with Some v => v | None => default end.

(** [d[k] = v]: a present key keeps its place, a new one goes last. *)
Fixpoint set {V} (d : dict V) (k : str) (v : V) : dict V :=
  match d with
  | [] => [(k, v)]
  | (k', v') :: r =>
      if eqb k k' then (k', v) :: r else (k', v') :: set r k v
  end.

Definition keys {V} (d : dict V) : list str := map fst d.
Definition values {V} (d : dict V) : list V := map snd d.

End Py.

(** * The program *)

Section Program.

(** The Unicode character database of the Python that runs the program. *)
Context (U : Py.ucd).

(** ** Knowledge base *)

Definition CRISIS_KEYWORDS : list Py.str :=
  [ "suicide"; "kill myself"; "end my life"; "can't go on"; "hopeless";
    "self-harm"; "hurting myself"; "overdose"; "jump"; "cut"; "die";
    "ending it"; "give up" ].

(** A value of [STRATEGIES]: the dict with keys [desc] and [themes]. *)
Record strategy := mk_strategy {
  s_desc : Py.str;
  s_themes : list Py.str
}.

Definition STRATEGIES : Py.dict strategy :=
  [ ("mindfulness",
     mk_strategy
       "Practice being present: try mindful breathing, or notice sensations around you."
       ["anxiety"; "stress"; "overthinking"; "panic"]);
    ("journaling",
     mk_strategy
       "Write down your thoughts and feelings for 5-10 minutes."
       ["rumination"; "sadness"; "confusion"]);
    ("reach out",
     mk_strategy
       "Connect with a friend, family member, or helpline."
       ["loneliness"; "hopelessness"; "crisis"]);
    ("movement",
     mk_strategy
       "Move your body gently—stretch, walk, or dance for a few minutes."
       ["low energy"; "tension"; "restlessness"]);
    ("self-compassion",
     mk_strategy
       "Speak kindly to yourself as you would to a friend."
       ["self-criticism"; "shame"; "guilt"]);
    ("grounding",
     mk_strategy
       "Try the 5-4-3-2-1 technique: notice 5 things you see, 4 you feel, 3 you hear, 2 you smell, 1 you taste."
       ["panic"; "dissociation"; "anxiety"]) ].

(** ** Crisis detector *)

Definition contains_crisis (text : Py.str) : bool :=
  let t_lower := Py.lower U text in
  existsb (fun kw => Py.in_str kw t_lower) CRISIS_KEYWORDS.

(** ** Check-in questions and scoring *)

Definition CHECKIN_QUESTIONS : list (Py.str * Py.str) :=
  [ ("How are you feeling emotionally right now?", "emotion");
    ("Are you experiencing any stress or anxiety? (none/mild/moderate/severe)", "stress");
    ("How is your energy level? (low/ok/high)", "energy");
    ("Are you having any thoughts that are hard to manage?", "thoughts");
    ("Is there anything making things especially difficult today?", "difficulties") ].

Definition score_checkin (answers : Py.dict Py.str) : Z :=
  let score := 0%Z in
  let score :=
    if Py.in_str "severe" (Py.lower U (Py.get answers "stress" "")) then (score + 2)%Z
    else if Py.in_str "moderate" (Py.lower U (Py.get answers "stress" "")) then (score + 1)%Z
    else score in
  let score :=
    if Py.in_str "low" (Py.lower U (Py.get answers "energy" "")) then (score + 1)%Z
    else score in
  let score :=
    if existsb (fun kw => Py.in_str kw (Py.lower U (Py.get answers "thoughts" "")))
               CRISIS_KEYWORDS
    then (score + 3)%Z else score in
  let score :=
    if Py.truthy (Py.strip (Py.get answers "difficulties" "")) then (score + 1)%Z
    else score in
  score.

(** ** Recommendation functions *)

Definition rank_themes (answers : Py.dict Py.str) : list Py.str :=
  let themes := [] in
  let themes :=
    if Py.in_str "anx" (Py.lower U (Py.get answers "stress" ""))
    then Py.append themes "anxiety" else themes in
  let themes :=
    if Py.in_str "low" (Py.lower U (Py.get answers "energy" ""))
    then Py.append themes "low energy" else themes in
  let themes :=
    if Py.in_str "overthink" (Py.lower U (Py.get answers "thoughts" ""))
    then Py.append themes "overthinking" else themes in
  let themes :=
    if Py.in_str "hopeless" (Py.lower U (Py.get answers "emotion" ""))
    then Py.append themes "hopelessness" else themes in
  let themes :=
    if Py.in_str "panic" (Py.lower U (Py.get answers "emotion" ""))
    then Py.append themes "panic" else themes in
  let themes :=
    if Py.in_str "lonely" (Py.lower U (Py.get answers "emotion" ""))
    then Py.append themes "loneliness" else themes in
  let themes :=
    if Py.in_str "self-crit" (Py.lower U (Py.get answers "thoughts" ""))
    then Py.append themes "self-criticism" else themes in
  themes.

(** The loop of [choose_strategies] over [STRATEGIES.items()]. *)
Definition choose_loop (themes : list Py.str) (items : Py.dict strategy)
    (recs : list Py.str) : list Py.str :=
  fold_left
    (fun recs kv =>
       let '(k, v) := kv in
       if existsb (fun t => Py.in_list t (s_themes v)) themes
       then Py.append recs k else recs)
    items recs.

Definition choose_strategies (themes : list Py.str) : list Py.str :=
  let recs := choose_loop themes STRATEGIES [] in
  match recs with
  | [] => ["mindfulness"; "reach out"]
  | _ :: _ => recs
  end.

(** ** Cues per theme *)

(** A value of [THEME_CUES]: the dict with keys [present] and
    [missing_examples]. *)
Record cues := mk_cues {
  present : list Py.str;
  missing_examples : list Py.str
}.

Definition THEME_CUES : Py.dict cues :=
  [ ("anxiety",
     mk_cues ["anx"; "worry"; "on edge"; "keyed-up"; "keyed up"; "panic"]
             ["muscle tension"; "racing thoughts"; "restlessness"]);
    ("low energy",
     mk_cues ["low energy"; "exhausted"; "tired"]
             ["refreshing sleep"; "regular meals"; "light activity"]);
    ("overthinking",
     mk_cues ["overthink"; "ruminat"]
             ["time-boxed worry"; "journaling"]);
    ("hopelessness",
     mk_cues ["hopeless"]
             ["recent positive moments"; "supportive contact"]);
    ("panic",
     mk_cues ["panic"]
             ["grounding technique used"; "breathing exercise tried"]);
    ("loneliness",
     mk_cues ["lonely"; "alone"]
             ["recent check-in with someone"]);
    ("self-criticism",
     mk_cues ["self-crit"; "guilt"; "shame"]
             ["self‑compassion practice"]) ].

(** ** Console effects *)

(** One call at the console boundary.  Text layout and speech synthesis are
    not modelled: an event records the call and its argument. *)
Inductive event :=
| Print (s : Py.str)            (* print(s) *)
| PrintFill (s : Py.str)        (* print(textwrap.fill(s, width=80)) *)
| PrintFillBlock (s : Py.str)   (* print(LF + textwrap.fill(s, 80) + LF) *)
| Speak (s : Py.str)            (* speak(s) *)
| SpeakStripped (s : Py.str)    (* speak(strip_parentheticals(s)) *)
| SpeakSlow (s : Py.str)        (* speak_slow(s) *)
| Input (prompt : Py.str) (line : option Py.str).
                                (* input(prompt): the line read, None at end of input *)

Record world := mk_world {
  stdin : list Py.str;
  trace : list event
}.

Inductive exn :=
| EOFError
| KeyError (k : Py.str).

Inductive result (A : Type) :=
| Ok (a : A)
| Raise (e : exn).

#[global] Arguments Ok {A} a.
#[global] Arguments Raise {A} e.

Definition M (A : Type) : Type := world -> result A * world.

Definition ret {A} (a : A) : M A := fun w => (Ok a, w).

Definition bind {A B} (m : M A) (k : A -> M B) : M B :=
  fun w =>
    match m w with
    | (Ok a, w') => k a w'
    | (Raise e, w') => (Raise e, w')
    end.

Notation "x <- m ;; k" := (bind m (fun x => k))
  (at level 61, m at next level, right associativity).
Notation "m ;; k" := (bind m (fun _ => k))
  (at level 61, right associativity).

Definition emit (e : event) : M unit :=
  fun w => (Ok tt, mk_world (stdin w) (trace w ++ [e])%list).

Definition print (s : Py.str) : M unit := emit (Print s).
Definition speak (s : Py.str) : M unit := emit (Speak s).
Definition speak_slow (s : Py.str) : M unit := emit (SpeakSlow s).

(** [input(prompt)] *)
Definition input (prompt : Py.str) : M Py.str :=
  fun w =>
    match stdin w with
    | [] => (Raise EOFError, mk_world [] (trace w ++ [Input prompt None])%list)
    | line :: rest => (Ok line, mk_world rest (trace w ++ [Input prompt (Some line)])%list)
    end.

(** [d[k]] *)
Definition getitem {V} (d : Py.dict V) (k : Py.str) : M V :=
  fun w =>
    match Py.lookup d k with
    | Some v => (Ok v, w)
    | None => (Raise (KeyError k), w)
    end.

(** [for x in xs: body(x)] *)
Fixpoint for_each {A} (xs : list A) (body : A -> M unit) : M unit :=
  match xs with
  | [] => ret tt
  | x :: r => body x ;; for_each r body
  end.

(** The line feed character as a string. *)
Definition LF : Py.str := [10%N].

(** ** Utility helpers *)

Definition ask (prompt : Py.str) : M Py.str :=
  emit (PrintFill prompt) ;;
  emit (SpeakStripped prompt) ;;
  line <- input "> " ;;
  ret (Py.strip line).

(** The inner [for c in choices] of [ask_choice]: the first choice equal
    to the answer up to letter case. *)
Fixpoint find_choice (answer : Py.str) (choices : list Py.str) : option Py.str :=
  match choices with
  | [] => None
  | c :: r =>
      if Py.eqb (Py.lower U answer) (Py.lower U c) then Some c
      else find_choice answer r
  end.

(** The [while True] of [ask_choice].  Every turn reads one line or ends in
    [EOFError], so the loop is a recursion on the lines left to read; the
    body is the one of [ask] followed by the search among the choices
    (lemma [ask_choice_loop_ask] below). *)
Fixpoint ask_choice_loop (prompt options : Py.str) (choices : list Py.str)
    (lines : list Py.str) (tr : list event) : result Py.str * world :=
  let q := prompt ++ " (" ++ options ++ ")" in
  match lines with
  | [] =>
      (Raise EOFError,
       mk_world [] (tr ++ [PrintFill q] ++ [SpeakStripped q] ++ [Input "> " None])%list)
  | line :: rest =>
      let tr := (tr ++ [PrintFill q] ++ [SpeakStripped q] ++ [Input "> " (Some line)])%list in
      match find_choice (Py.strip line) choices with
      | Some c => (Ok c, mk_world rest tr)
      | None =>
          ask_choice_loop prompt options choices rest
            (tr ++ [Print ("Please choose one of: " ++ options)])%list
      end
  end.

Definition ask_choice (prompt : Py.str) (choices : list Py.str) : M Py.str :=
  let options := Py.join "/" choices in
  emit (SpeakStripped prompt) ;;
  fun w => ask_choice_loop prompt options choices (stdin w) (trace w).

Definition reflect_summary (user_inputs : list Py.str) : Py.str :=
  let summary := "It sounds like: " ++ Py.join "; " user_inputs in
  summary.

Definition crisis_resources : M unit :=
  let msg :=
    "It sounds like you might be in a lot of pain. "
    ++ "If you are thinking about harming yourself, please reach out for support. "
    ++ "You can call the Suicide & Crisis Lifeline at 988 (in the US), or visit https://988lifeline.org/. "
    ++ "You are not alone, always remember that." in
  emit (PrintFillBlock msg) ;;
  speak "If you’re in immediate danger, please call your local emergency number." ;;
  speak "Here are some resources you can reach out to right now.".

(** ** Decision-tree follow-ups *)

Definition follow_up (answers : Py.dict Py.str) : M (list Py.str) :=
  let follow_ups := [] in
  follow_ups <-
    (if Py.in_str "severe" (Py.lower U (Py.get answers "stress" "")) then
       let txt := "I'm sorry to hear your stress feels severe. Would you like to share more about what's causing it?" in
       r <- ask txt ;; ret (Py.append follow_ups r)
     else ret follow_ups) ;;
  follow_ups <-
    (if Py.in_str "low" (Py.lower U (Py.get answers "energy" "")) then
       let txt := "Low energy can be tough. Have you been able to rest or take care of yourself lately?" in
       r <- ask txt ;; ret (Py.append follow_ups r)
     else ret follow_ups) ;;
  follow_ups <-
    (if Py.truthy (Py.strip (Py.get answers "difficulties" "")) then
       let txt := "Thank you for sharing what's difficult. Is there any support you wish you had right now?" in
       r <- ask txt ;; ret (Py.append follow_ups r)
     else ret follow_ups) ;;
  ret follow_ups.

(** ** Presenting recommendations *)

Definition print_recommendations (strategies : list Py.str) : M unit :=
  print (LF ++ "Here are some things you might try to support yourself:" ++ LF) ;;
  for_each strategies (fun k =>
    s <- getitem STRATEGIES k ;;
    print ("- " ++ Py.title U k ++ ": " ++ s_desc s) ;;
    speak (Py.title U k ++ ": " ++ s_desc s)) ;;
  print "".

(** The body of the [for theme in themes[:3]] loop of [explain_why]. *)
Definition explain_theme (combined : Py.str) (theme : Py.str) : M unit :=
  let cues := Py.get THEME_CUES theme (mk_cues [] []) in
  let heard := filter (fun k => Py.in_str k combined) (present cues) in
  let missing :=
    filter (fun m => negb (Py.in_str (Py.lower U m) combined)) (missing_examples cues) in
  let line := "  • " ++ Py.title U theme ++ ": " in
  let line :=
    match heard with
    | _ :: _ => line ++ "signals heard → " ++ Py.join ", " (Py.sorted (Py.set_of heard))
    | [] => line ++ "signals heard → general check‑in responses"
    end in
  let line :=
    match missing with
    | _ :: _ => line ++ "; signals not heard → " ++ Py.join ", " (firstn 2 missing)
    | [] => line
    end in
  print line ;;
  let spoken_line := Py.title U theme ++ ". " in
  let spoken_line :=
    match heard with
    | _ :: _ =>
        spoken_line ++ "I noticed signals like "
        ++ Py.join ", " (Py.sorted (Py.set_of heard)) ++ ". "
    | [] => spoken_line ++ "I mainly relied on your general responses. "
    end in
  let spoken_line :=
    match missing with
    | _ :: _ =>
        spoken_line ++ "I did not hear mentions of "
        ++ Py.join ", " (firstn 2 missing) ++ "."
    | [] => spoken_line
    end in
  speak_slow spoken_line.

Definition explain_why (strategies themes : list Py.str)
    (answers : Py.dict Py.str) : M unit :=
  let combined := Py.lower U (Py.join " " (Py.values answers)) in
  match themes with
  | [] =>
      print "These are generally helpful strategies for well-being." ;;
      speak "These are generally helpful strategies for well-being."
  | _ :: _ =>
      let reason :=
        "I suggested these because you mentioned: " ++ Py.join ", " themes ++ "." in
      print reason ;;
      speak_slow "Here is why I suggested those." ;;
      for_each (firstn 3 themes) (explain_theme combined) ;;
      print ""
  end.

(** ** Main conversational loop *)

(** Where [run_bot] returns. *)
Inductive exit_point :=
| CrisisExit          (* the return after the check-in *)
| CrisisRecheckExit   (* the return after the follow-up re-check *)
| Closing.            (* the end of the function *)

(** The local variables of [run_bot] when it returns; a variable that was
    never assigned is [None]. *)
Record session := mk_session {
  answers : Py.dict Py.str;
  crisis_flag : bool;
  user_inputs : list Py.str;
  followup_resps : option (list Py.str);
  score : option Z;
  themes : option (list Py.str);
  strategies : option (list Py.str);
  exit : exit_point
}.

(** The [for q, key in CHECKIN_QUESTIONS] loop, on the three variables it
    updates. *)
Fixpoint checkin_loop (questions : list (Py.str * Py.str))
    (answers : Py.dict Py.str) (crisis_flag : bool) (user_inputs : list Py.str)
    : M (Py.dict Py.str * bool * list Py.str) :=
  match questions with
  | [] => ret (answers, crisis_flag, user_inputs)
  | (q, key) :: rest =>
      resp <- ask q ;;
      let answers := Py.set answers key resp in
      let user_inputs := Py.append user_inputs resp in
      let crisis_flag := if contains_crisis resp then true else crisis_flag in
      checkin_loop rest answers crisis_flag user_inputs
  end.

Definition run_bot : M session :=
  print "Hello, I'm here to support your mental wellness today." ;;
  speak "Hello, I'm here to support your mental wellness today." ;;
  print "Let's do a quick check-in. You can type as much or as little as you like." ;;
  speak "Let's do a quick check-in. You can type as much or as little as you like." ;;
  let answers := [] in
  let crisis_flag := false in
  let user_inputs := [] in
  st <- checkin_loop CHECKIN_QUESTIONS answers crisis_flag user_inputs ;;
  let '(answers, crisis_flag, user_inputs) := st in
  if crisis_flag then
    crisis_resources ;;
    ret (mk_session answers crisis_flag user_inputs None None None None CrisisExit)
  else
    let summary := reflect_summary user_inputs in
    print (LF ++ summary) ;;
    speak "Thanks for sharing. I’ll tailor suggestions based on that." ;;
    print (LF ++ "I’ll ask a couple of quick follow-up questions to tailor things.") ;;
    speak "I’ll ask a couple of quick follow-up questions to tailor things." ;;
    followup_resps <- follow_up answers ;;
    (match followup_resps with
     | _ :: _ =>
         print (LF ++ "Thank you for sharing more.") ;;
         speak "Thank you for sharing more."
     | [] => ret tt
     end) ;;
    let score := score_checkin answers in
    let themes := rank_themes answers in
    let strategies := choose_strategies themes in
    print (LF ++ "Based on what you shared, here are some personalized suggestions:") ;;
    speak "Based on what you shared, here are some personalized suggestions." ;;
    print_recommendations strategies ;;
    print (LF ++ "Here’s why I suggested those strategies:") ;;
    speak_slow "Here’s why I suggested those strategies." ;;
    explain_why strategies themes answers ;;
    let final := mk_session answers crisis_flag user_inputs (Some followup_resps)
                            (Some score) (Some themes) (Some strategies) in
    if existsb contains_crisis followup_resps then
      crisis_resources ;;
      ret (final CrisisRecheckExit)
    else
      print (LF ++ "If you’d like, we can try one strategy together now.") ;;
      speak "If you’d like, we can try one strategy together now." ;;
      choice <- ask_choice "Would you like to try one of these strategies now?"
                           ["yes"; "no"] ;;
      (if Py.eqb (Py.lower U choice) "yes" then
         chosen <- ask_choice "Which would you like to try?"
                              (map (Py.title U) strategies) ;;
         let chosen_key := Py.lower U chosen in
         print ("Great! Here are some steps for " ++ Py.title U chosen_key ++ ":") ;;
         speak ("Here are some steps for " ++ Py.title U chosen_key ++ ".") ;;
         s <- getitem STRATEGIES chosen_key ;;
         print (s_desc s) ;;
         s <- getitem STRATEGIES chosen_key ;;
         speak (s_desc s)
       else ret tt) ;;
      print (LF ++ "Before we wrap up, just a quick reminder:") ;;
      speak "Before we wrap up, just a quick reminder." ;;
      print (LF ++ "Thank you for checking in today. Remember, you're not alone.") ;;
      speak "Thank you for checking in today. Remember, you're not alone." ;;
      print "If things feel hard, reaching out to a professional or a trusted person can help." ;;
      speak "If things feel hard, reaching out to a professional or a trusted person can help." ;;
      ret (final Closing).

(** A session started on the given lines of standard input. *)
Definition run_session (lines : list Py.str) : result session * world :=
  run_bot (mk_world lines []).

(** ** The specification's vocabulary

    The definitions below follow the words of the specification, not the
    code; the theorems compare them with the functions above. *)

(** [needle] occurs in [hay] as a substring. *)
Definition occurs (needle hay : Py.str) : Prop :=
  exists before after, hay = before ++ needle ++ after.

(** [s] is made of ASCII characters. *)
Definition is_ascii (s : Py.str) : bool := forallb (fun c => (c <? 128)%N) s.

(** [phrase] occurs in [text] in some letter case: a text occurs in it
    whose lower case is the phrase. *)
Definition occurs_any_case (phrase text : Py.str) : Prop :=
  exists variant, Py.lower U variant = phrase /\ occurs variant text.

(** Case-insensitive containment, as a test. *)
Definition contains_ci (needle text : Py.str) : bool :=
  Py.in_str needle (Py.lower U text).

(** The additive rule set of the scorer. *)
Definition score_rules (stress energy thoughts difficulties : Py.str) : Z :=
  ((if contains_ci "severe" stress then 2
    else if contains_ci "moderate" stress then 1 else 0)
   + (if contains_ci "low" energy then 1 else 0)
   + (if contains_crisis thoughts then 3 else 0)
   + (if Py.eqb (Py.strip difficulties) "" then 0 else 1))%Z.

(** The declared rules of the theme extractor: trigger, answer field,
    theme, in declaration order. *)
Definition THEME_RULES : list (Py.str * Py.str * Py.str) :=
  [ ("anx", "stress", "anxiety");
    ("low", "energy", "low energy");
    ("overthink", "thoughts", "overthinking");
    ("hopeless", "emotion", "hopelessness");
    ("panic", "emotion", "panic");
    ("lonely", "emotion", "loneliness");
    ("self-crit", "thoughts", "self-criticism") ].

Definition rule_theme (rule : Py.str * Py.str * Py.str) : Py.str := snd rule.

Definition rule_fires (answers : Py.dict Py.str)
    (rule : Py.str * Py.str * Py.str) : bool :=
  let '(trigger, field, _) := rule in
  contains_ci trigger (Py.get answers field "").

(** A strategy's associated themes meet the theme list. *)
Definition overlaps (themes : list Py.str) (v : strategy) : Prop :=
  exists t, In t themes /\ In t (s_themes v).

Definition overlapsb (themes : list Py.str) (kv : Py.str * strategy) : bool :=
  existsb (fun t => Py.in_list t themes) (s_themes (snd kv)).

(** The strategies selected for a theme list, before the fallback. *)
Definition selected (themes : list Py.str) : list Py.str :=
  map fst (filter (overlapsb themes) STRATEGIES).

(** The evidence shown for one theme: the rendered line of [explain_why],
    from the cue words shown as heard and the examples shown as not
    heard. *)
Definition evidence_line (theme : Py.str) (heard_shown missing_shown : list Py.str)
    : Py.str :=
  "  • " ++ Py.title U theme ++ ": "
  ++ match heard_shown with
     | [] => "signals heard → general check‑in responses"
     | _ :: _ => "signals heard → " ++ Py.join ", " heard_shown
     end
  ++ match missing_shown with
     | [] => ""
     | _ :: _ => "; signals not heard → " ++ Py.join ", " missing_shown
     end.

Definition spoken_evidence (theme : Py.str) (heard_shown missing_shown : list Py.str)
    : Py.str :=
  Py.title U theme ++ ". "
  ++ match heard_shown with
     | [] => "I mainly relied on your general responses. "
     | _ :: _ => "I noticed signals like " ++ Py.join ", " heard_shown ++ ". "
     end
  ++ match missing_shown with
     | [] => ""
     | _ :: _ => "I did not hear mentions of " ++ Py.join ", " missing_shown ++ "."
     end.

(** The cue words of a theme found in the corpus, and its examples whose
    lower-case form is not found there. *)
Definition heard_cues (combined theme : Py.str) : list Py.str :=
  filter (fun k => Py.in_str k combined)
         (present (Py.get THEME_CUES theme (mk_cues [] []))).

Definition missing_cues (combined theme : Py.str) : list Py.str :=
  filter (fun m => negb (Py.in_str (Py.lower U m) combined))
         (missing_examples (Py.get THEME_CUES theme (mk_cues [] []))).

(** The events of a check-in question answered by [line]. *)
Definition asked (q line : Py.str) : list event :=
  [PrintFill q; SpeakStripped q; Input "> " (Some line)].

Definition greeting_events : list event :=
  [ Print "Hello, I'm here to support your mental wellness today.";
    Speak "Hello, I'm here to support your mental wellness today.";
    Print "Let's do a quick check-in. You can type as much or as little as you like.";
    Speak "Let's do a quick check-in. You can type as much or as little as you like." ].

Definition crisis_events : list event :=
  [ PrintFillBlock
      ("It sounds like you might be in a lot of pain. "
       ++ "If you are thinking about harming yourself, please reach out for support. "
       ++ "You can call the Suicide & Crisis Lifeline at 988 (in the US), or visit https://988lifeline.org/. "
       ++ "You are not alone, always remember that.");
    Speak "If you’re in immediate danger, please call your local emergency number.";
    Speak "Here are some resources you can reach out to right now." ].

(** The events of the five check-in questions, each answered by the line
    read for it. *)
Definition checkin_events (lines : list Py.str) : list event :=
  concat (map (fun ql => asked (fst (fst ql)) (snd ql))
              (combine CHECKIN_QUESTIONS lines)).

(** The question at a position of the schedule. *)
Definition question (i : nat) : option Py.str :=
  nth_error (map fst CHECKIN_QUESTIONS) i.

(** What the explainer displays for a theme: the cue words heard, and the
    examples not heard. *)
Definition shown_heard (combined theme : Py.str) : list Py.str :=
  Py.sorted (Py.set_of (heard_cues combined theme)).

Definition shown_missing (combined theme : Py.str) : list Py.str :=
  firstn 2 (missing_cues combined theme).

(** The two events of one rendered theme. *)
Definition theme_events (combined theme : Py.str) : list event :=
  [ Print (evidence_line theme (shown_heard combined theme)
                         (shown_missing combined theme));
    SpeakSlow (spoken_evidence theme (shown_heard combined theme)
                               (shown_missing combined theme)) ].

(** Lexical order on strings, as a relation. *)
Definition lex_le (x y : Py.str) : Prop := Py.leb x y = true.

(** [m] returns [a] after adding the events [evs] to the trace, reading
    nothing. *)
Definition writes {A} (m : M A) (a : A) (evs : list event) : Prop :=
  forall w, m w = (Ok a, mk_world (stdin w) (trace w ++ evs)%list).

(** The events of a question left unanswered at the end of the input. *)
Definition unanswered (q : Py.str) : list event :=
  [PrintFill q; SpeakStripped q; Input "> " None].

(** The answer set the check-in builds from the lines read: each key is
    assigned the stripped line read for its question. *)
Definition checkin_answers (questions : list (Py.str * Py.str))
    (lines : list Py.str) (answers : Py.dict Py.str) : Py.dict Py.str :=
  fold_left (fun d ql => Py.set d (snd (fst ql)) (Py.strip (snd ql)))
            (combine questions lines) answers.

(** The events of questions, each answered by the line read for it. *)
Definition asked_all (questions : list (Py.str * Py.str))
    (lines : list Py.str) : list event :=
  concat (map (fun ql => asked (fst (fst ql)) (snd ql))
              (combine questions lines)).

(** [m] does not end in [KeyError]: it returns, or the input ran out. *)
Definition no_key_error {A} (m : M A) : Prop :=
  forall w, (exists a, fst (m w) = Ok a) \/ fst (m w) = Raise EOFError.

(** Every value [m] returns satisfies [P]. *)
Definition returns {A} (m : M A) (P : A -> Prop) : Prop :=
  forall w a w', m w = (Ok a, w') -> P a.

(** ** Spoken prompts *)

(** The length of the match of the pattern [\s*\([^)]*\)] at the start
    of [s], when there is one: the white space, the opening parenthesis,
    everything up to the first closing parenthesis, and that parenthesis.
    Neither star can give a character back: what follows the white space
    must be the opening parenthesis, and what follows the characters other
    than a closing parenthesis must be the closing one. *)
Fixpoint close_len (s : Py.str) : option nat :=
  match s with
  | [] => None
  | c :: r =>
      if N.eqb c 41 then Some 1%nat else option_map S (close_len r)
  end.

Fixpoint paren_match_len (s : Py.str) : option nat :=
  match s with
  | [] => None
  | c :: r =>
      if Py.is_space c then option_map S (paren_match_len r)
      else if N.eqb c 40 then option_map S (close_len r)
      else None
  end.

(** [re.sub(pattern, EMPTY, text)] for that pattern: from left to right,
    a match is dropped and the scan goes on after it; where there is no
    match the character is kept.  [skip] counts the characters of the
    current match still to drop. *)
Fixpoint remove_parens_from (skip : nat) (s : Py.str) : Py.str :=
  match s with
  | [] => []
  | c :: r =>
      match skip with
      | S k => remove_parens_from k r
      | O =>
          match paren_match_len s with
          | Some (S k) => remove_parens_from k r
          | _ => c :: remove_parens_from 0 r
          end
      end
  end.

Definition remove_parens (s : Py.str) : Py.str := remove_parens_from 0 s.

(** [re.sub(r"\s+", SPACE, text)]: every run of white space becomes one
    space.  [in_run] tells that the previous character was white space. *)
Fixpoint collapse_ws_from (in_run : bool) (s : Py.str) : Py.str :=
  match s with
  | [] => []
  | c :: r =>
      if Py.is_space c then
        if in_run then collapse_ws_from true r
        else 32%N :: collapse_ws_from true r
      else c :: collapse_ws_from false r
  end.

Definition collapse_ws (s : Py.str) : Py.str := collapse_ws_from false s.

Definition strip_parentheticals (text : Py.str) : Py.str :=
  if Py.truthy text then
    let cleaned := remove_parens text in
    let cleaned := Py.strip (collapse_ws cleaned) in
    cleaned
  else [].

(** The text an event hands to the speech back end, if any: [speak] and
    [speak_slow] return at once on a text that is blank. *)
Definition utterance (e : event) : option Py.str :=
  match e with
  | Speak s | SpeakSlow s =>
      if Py.truthy (Py.strip s) then Some s else None
  | SpeakStripped s =>
      let t := strip_parentheticals s in
      if Py.truthy (Py.strip t) then Some t else None
  | _ => None
  end.

(** ** Vocabulary of the session *)

(** The follow-up questions [follow_up] asks for an answer set, in the
    order it asks them. *)
Definition follow_up_questions (answers : Py.dict Py.str) : list Py.str :=
  ((if contains_ci "severe" (Py.get answers "stress" "")
    then ["I'm sorry to hear your stress feels severe. Would you like to share more about what's causing it?"]
    else [])
   ++ (if contains_ci "low" (Py.get answers "energy" "")
       then ["Low energy can be tough. Have you been able to rest or take care of yourself lately?"]
       else [])
   ++ (if Py.eqb (Py.strip (Py.get answers "difficulties" "")) ""
       then []
       else ["Thank you for sharing what's difficult. Is there any support you wish you had right now?"]))%list.

(** The events of a list of questions, each answered by its line. *)
Definition asked_each (questions lines : list Py.str) : list event :=
  concat (map (fun ql => asked (fst ql) (snd ql)) (combine questions lines)).

(** A turn of [ask_choice] on a line that matches no choice: the question,
    the line, and the reminder of the options. *)
Definition reprompted (q options line : Py.str) : list event :=
  (asked q line ++ [Print ("Please choose one of: " ++ options)])%list.

(** The two events [print_recommendations] emits for a strategy. *)
Definition strategy_events (k : Py.str) : list event :=
  match Py.lookup STRATEGIES k with
  | Some s =>
      [ Print ("- " ++ Py.title U k ++ ": " ++ s_desc s);
        Speak (Py.title U k ++ ": " ++ s_desc s) ]
  | None => []
  end.

Definition recommendation_header : event :=
  Print (LF ++ "Here are some things you might try to support yourself:" ++ LF).

(** What holds of the local variables of [run_bot] whenever it returns. *)
Definition session_ok (s : session) : Prop :=
  Py.keys (answers s) = map snd CHECKIN_QUESTIONS
  /\ Py.values (answers s) = user_inputs s
  /\ Forall (fun a => Py.strip a = a) (user_inputs s)
  /\ crisis_flag s = existsb contains_crisis (user_inputs s)
  /\ match exit s with
     | CrisisExit =>
         crisis_flag s = true
         /\ followup_resps s = None /\ score s = None
         /\ themes s = None /\ strategies s = None
     | later =>
         crisis_flag s = false
         /\ score s = Some (score_checkin (answers s))
         /\ themes s = Some (rank_themes (answers s))
         /\ strategies s = Some (choose_strategies (rank_themes (answers s)))
         /\ exists resps,
              followup_resps s = Some resps
              /\ List.length resps = List.length (follow_up_questions (answers s))
              /\ existsb contains_crisis resps
                 = match later with CrisisRecheckExit => true | _ => false end
     end.

(** On the input lines [ins], whatever was traced before, [m] returns [a],
    leaves the lines [ins'] unread and adds the events [evs] to the trace. *)
Definition runs {A} (m : M A) (ins : list Py.str) (a : A)
    (ins' : list Py.str) (evs : list event) : Prop :=
  forall tr, m (mk_world ins tr) = (Ok a, mk_world ins' (tr ++ evs)%list).

(** The events of [run_bot] between the check-in and the follow-up
    questions. *)
Definition summary_events (user_inputs : list Py.str) : list event :=
  [ Print (LF ++ reflect_summary user_inputs);
    Speak "Thanks for sharing. I’ll tailor suggestions based on that.";
    Print (LF ++ "I’ll ask a couple of quick follow-up questions to tailor things.");
    Speak "I’ll ask a couple of quick follow-up questions to tailor things." ].

(** The events of [explain_why]. *)
Definition explanation_events (themes : list Py.str) (answers : Py.dict Py.str)
    : list event :=
  match themes with
  | [] =>
      [ Print "These are generally helpful strategies for well-being.";
        Speak "These are generally helpful strategies for well-being." ]
  | _ :: _ =>
      ([ Print ("I suggested these because you mentioned: "
                ++ Py.join ", " themes ++ ".");
         SpeakSlow "Here is why I suggested those." ]
       ++ flat_map (theme_events (Py.lower U (Py.join " " (Py.values answers))))
                   (firstn 3 themes)
       ++ [ Print "" ])%list
  end.

(** The events of [run_bot] from the end of the follow-up questions to the
    end of the explanation. *)
Definition suggestion_events (answers : Py.dict Py.str) (resps : list Py.str)
    : list event :=
  (match resps with
   | [] => []
   | _ :: _ =>
       [ Print (LF ++ "Thank you for sharing more.");
         Speak "Thank you for sharing more." ]
   end
   ++ [ Print (LF ++ "Based on what you shared, here are some personalized suggestions:");
        Speak "Based on what you shared, here are some personalized suggestions." ]
   ++ [recommendation_header]
   ++ flat_map strategy_events (choose_strategies (rank_themes answers))
   ++ [ Print "" ]
   ++ [ Print (LF ++ "Here’s why I suggested those strategies:");
        SpeakSlow "Here’s why I suggested those strategies." ]
   ++ explanation_events (rank_themes answers) answers)%list.

Definition offer_events : list event :=
  [ Print (LF ++ "If you’d like, we can try one strategy together now.");
    Speak "If you’d like, we can try one strategy together now." ].

(** The steps printed and spoken for the strategy whose key is [k]. *)
Definition exercise_events (k : Py.str) : list event :=
  match Py.lookup STRATEGIES k with
  | Some s =>
      [ Print ("Great! Here are some steps for " ++ Py.title U k ++ ":");
        Speak ("Here are some steps for " ++ Py.title U k ++ ".");
        Print (s_desc s);
        Speak (s_desc s) ]
  | None => []
  end.

Definition closing_events : list event :=
  [ Print (LF ++ "Before we wrap up, just a quick reminder:");
    Speak "Before we wrap up, just a quick reminder.";
    Print (LF ++ "Thank you for checking in today. Remember, you're not alone.");
    Speak "Thank you for checking in today. Remember, you're not alone.";
    Print "If things feel hard, reaching out to a professional or a trusted person can help.";
    Speak "If things feel hard, reaching out to a professional or a trusted person can help." ].

(** The answer set of a completed check-in. *)
Definition answer_set (a1 a2 a3 a4 a5 : Py.str) : Py.dict Py.str :=
  [ ("emotion", a1); ("stress", a2); ("energy", a3); ("thoughts", a4);
    ("difficulties", a5) ].

(** ** Tests on strings used to state facts about spoken prompts *)

(** The character [x] occurs in [s]. *)
Fixpoint mem_char (x : N) (s : Py.str) : bool :=
  match s with
  | [] => false
  | c :: r => N.eqb c x || mem_char x r
  end.

(** No opening parenthesis of [s] has a closing one after it. *)
Fixpoint no_pair (s : Py.str) : bool :=
  match s with
  | [] => true
  | c :: r => (negb (N.eqb c 40) || negb (mem_char 41 r)) && no_pair r
  end.

(** Every white space character of [s] is a space that does not follow
    white space ([prev] tells whether white space comes just before [s]). *)
Fixpoint spaced_ok (prev : bool) (s : Py.str) : bool :=
  match s with
  | [] => true
  | c :: r =>
      if Py.is_space c then N.eqb c 32 && negb prev && spaced_ok true r
      else spaced_ok false r
  end.

(** [s] is made of white space only. *)
Fixpoint all_space (s : Py.str) : bool :=
  match s with
  | [] => true
  | c :: r => Py.is_space c && all_space r
  end.

(** ** Tests used to state facts about letter case *)

(** The two lower-case sigmas. *)
Definition is_sigma (c : N) : bool := ((c =? 962) || (c =? 963))%N.

Definition sigma_free (s : Py.str) : bool := forallb (fun c => negb (is_sigma c)) s.

(** Two strings are alike when they differ at most in which lower-case
    sigma stands where. *)
Definition alike (x y : Py.str) : Prop :=
  Forall2 (fun a b => a = b \/ (is_sigma a = true /\ is_sigma b = true)) x y.

(** ** Proof automation *)

(** Case analysis on every test a conditional of the goal makes. *)
Ltac split_ifs :=
  repeat match goal with
         | |- context [if ?b then _ else _] => destruct b eqn:?
         end.

(** A concrete list of distinct strings has no repetition. *)
Ltac nodup_concrete :=
  cbn; repeat (constructor; [cbn; intuition discriminate|]); constructor.

(** ** Facts about the string primitives *)

Section StringFacts.

Lemma string_app_nil_r (s : Py.str) : s ++ "" = s.
Proof. apply app_nil_r. Qed.

Lemma string_app_assoc (a b c : Py.str) : (a ++ b) ++ c = a ++ (b ++ c).
Proof. symmetry. apply app_assoc. Qed.

Lemma str_eqb_eq (a b : Py.str) : Py.eqb a b = true <-> a = b.
Proof.
  revert b. induction a as [|x a IH]; intros [|y b]; cbn [Py.eqb];
    try (split; [discriminate | discriminate || reflexivity]);
    try (split; reflexivity).
  rewrite andb_true_iff, N.eqb_eq, IH. split.
  - now intros [-> ->].
  - intros [= -> ->]. now split.
Qed.

Lemma str_eqb_spec (a b : Py.str) : reflect (a = b) (Py.eqb a b).
Proof. apply iff_reflect. symmetry. apply str_eqb_eq. Qed.

Lemma str_eqb_refl (a : Py.str) : Py.eqb a a = true.
Proof. now apply str_eqb_eq. Qed.

Lemma str_eqb_neq (a b : Py.str) : Py.eqb a b = false <-> a <> b.
Proof. destruct (str_eqb_spec a b); split; congruence. Qed.

Lemma str_leb_total (a b : Py.str) : Py.leb a b = true \/ Py.leb b a = true.
Proof.
  revert b. induction a as [|x a IH]; intros [|y b]; cbn; auto.
  destruct (N.ltb_spec x y), (N.ltb_spec y x); auto; lia.
Qed.

Lemma starts_with_spec (p s : Py.str) :
  Py.starts_with p s = true <-> exists r, s = p ++ r.
Proof.
  revert s. induction p as [|a p IH]; intros s; cbn.
  - split; [intros _; now exists s | reflexivity].
  - destruct s as [|b s].
    + split; [discriminate | intros [r H]; discriminate].
    + rewrite andb_true_iff, N.eqb_eq, IH. split.
      * intros [-> [r ->]]. now exists r.
      * intros [r H]. injection H as -> ->. split; [reflexivity | now exists r].
Qed.

Lemma in_str_spec (needle hay : Py.str) :
  Py.in_str needle hay = true <-> occurs needle hay.
Proof.
  unfold occurs. induction hay as [|c hay IH].
  - cbn [Py.in_str]. rewrite orb_false_r, starts_with_spec. split.
    + intros [r H]. now exists [], r.
    + intros (p & r & H). destruct p; [now exists r | discriminate].
  - cbn [Py.in_str]. rewrite orb_true_iff, starts_with_spec, IH. split.
    + intros [[r H] | (p & r & H)].
      * now exists [], r.
      * exists (c :: p), r. cbn. now rewrite H.
    + intros (p & r & H). destruct p as [|x p].
      * left. now exists r.
      * right. injection H as _ H. now exists p, r.
Qed.

Lemma occurs_refl (x : Py.str) : occurs x x.
Proof. exists [], []. cbn. now rewrite app_nil_r. Qed.

Lemma occurs_app_r (x y z : Py.str) : occurs x z -> occurs x (y ++ z).
Proof.
  intros (a & b & ->). exists (y ++ a), b. now rewrite string_app_assoc.
Qed.

Lemma occurs_app_l (x y z : Py.str) : occurs x y -> occurs x (y ++ z).
Proof.
  intros (a & b & ->). exists a, (b ++ z). now rewrite !string_app_assoc.
Qed.

Lemma occurs_trans (x y z : Py.str) : occurs x y -> occurs y z -> occurs x z.
Proof.
  intros (a & b & ->) (c & d & ->).
  exists (c ++ a), (b ++ d). now rewrite !string_app_assoc.
Qed.

End StringFacts.

(** ** Facts about letter case *)

Section CaseFacts.

Lemma basic_latin_In (c : N) : (c < 128)%N -> In c Py.basic_latin_block.
Proof.
  intros H. unfold Py.basic_latin_block.
  rewrite <- (N2Nat.id c). apply in_map, in_seq. lia.
Qed.

(** The content of every database on Basic Latin. *)
Lemma tables_on_ascii (V : Py.ucd) (c : N) :
  (c < 128)%N ->
  Py.to_lower_full V c = [Py.ascii_lower c]
  /\ Py.to_title_full V c = [Py.ascii_upper c]
  /\ Py.is_cased V c = Py.ascii_letter c.
Proof.
  intros H. apply basic_latin_In in H.
  pose proof (Py.on_basic_latin V) as Hall. unfold Py.ascii_tables in Hall.
  rewrite forallb_forall in Hall. specialize (Hall c H).
  apply andb_true_iff in Hall as [Hall Hc].
  apply andb_true_iff in Hall as [Hl Ht].
  apply str_eqb_eq in Hl, Ht. apply Bool.eqb_prop in Hc. auto.
Qed.

Lemma lower_on_ascii (V : Py.ucd) (c : N) :
  (c < 128)%N -> Py.to_lower_full V c = [Py.ascii_lower c].
Proof. intros H. apply (tables_on_ascii V c H). Qed.

Lemma title_on_ascii (V : Py.ucd) (c : N) :
  (c < 128)%N -> Py.to_title_full V c = [Py.ascii_upper c].
Proof. intros H. apply (tables_on_ascii V c H). Qed.

Lemma cased_on_ascii (V : Py.ucd) (c : N) :
  (c < 128)%N -> Py.is_cased V c = Py.ascii_letter c.
Proof. intros H. apply (tables_on_ascii V c H). Qed.

(** On ASCII text every database lower-cases alike: letter by letter,
    whatever surrounds the text. *)
Lemma lower_in_ascii (s before after : Py.str) :
  is_ascii s = true -> Py.lower_in U before s after = map Py.ascii_lower s.
Proof.
  revert before. induction s as [|c s IH]; intros before; [reflexivity|].
  cbn [is_ascii forallb]. rewrite andb_true_iff. intros [Hc Hs].
  apply N.ltb_lt in Hc.
  cbn [Py.lower_in map]. rewrite (IH _ Hs). unfold Py.lower_ucs4.
  destruct (N.eqb_spec c 931) as [E | _]; [lia|].
  now rewrite (lower_on_ascii U c Hc).
Qed.

Lemma lower_ascii (s : Py.str) :
  is_ascii s = true -> Py.lower U s = map Py.ascii_lower s.
Proof. apply lower_in_ascii. Qed.

Lemma title_in_ascii (s before : Py.str) (b : bool) :
  is_ascii s = true ->
  Py.title_in U b before s = Py.title_in Py.unicode b before s.
Proof.
  revert b before. induction s as [|c s IH]; intros b before; [reflexivity|].
  cbn [is_ascii forallb]. rewrite andb_true_iff. intros [Hc Hs].
  apply N.ltb_lt in Hc.
  cbn [Py.title_in].
  rewrite (cased_on_ascii U c Hc), (cased_on_ascii Py.unicode c Hc), (IH _ _ Hs).
  f_equal. unfold Py.lower_ucs4.
  destruct (N.eqb_spec c 931) as [E | _]; [lia|].
  now rewrite (lower_on_ascii U c Hc), (title_on_ascii U c Hc),
    (lower_on_ascii Py.unicode c Hc), (title_on_ascii Py.unicode c Hc).
Qed.

(** The title case of an ASCII text is the same in every database. *)
Lemma title_ascii (s : Py.str) :
  is_ascii s = true -> Py.title U s = Py.title Py.unicode s.
Proof. apply title_in_ascii. Qed.

Lemma lower_in_app (x y before after : Py.str) :
  Py.lower_in U before (x ++ y) after
  = Py.lower_in U before x (y ++ after) ++ Py.lower_in U (rev x ++ before) y after.
Proof.
  revert before. induction x as [|c x IH]; intros before; [reflexivity|].
  cbn [app Py.lower_in rev]. rewrite IH, <- !app_assoc. reflexivity.
Qed.

Lemma alike_refl (x : Py.str) : alike x x.
Proof. induction x; constructor; auto. Qed.

(** The surroundings of a text bear on its lower case only through the
    choice between the two sigmas. *)
Lemma lower_ucs4_alike (c : N) (b a b' a' : Py.str) :
  alike (Py.lower_ucs4 U b c a) (Py.lower_ucs4 U b' c a').
Proof.
  unfold Py.lower_ucs4. destruct (N.eqb c 931); [|apply alike_refl].
  constructor; [|constructor]. right. unfold Py.handle_capital_sigma.
  split; split_ifs; reflexivity.
Qed.

Lemma lower_in_alike (s b a b' a' : Py.str) :
  alike (Py.lower_in U b s a) (Py.lower_in U b' s a').
Proof.
  revert b b'. induction s as [|c s IH]; intros b b'; [constructor|].
  cbn [Py.lower_in]. apply Forall2_app; [apply lower_ucs4_alike | apply IH].
Qed.

Lemma alike_sigma_free (k k' : Py.str) :
  sigma_free k = true -> alike k k' -> k' = k.
Proof.
  intros Hk H. induction H as [|a b k k' Hab _ IH]; [reflexivity|].
  cbn in Hk. apply andb_true_iff in Hk as [Ha Hk]. rewrite (IH Hk).
  destruct Hab as [-> | [Hs _]]; [reflexivity|]. now rewrite Hs in Ha.
Qed.

Lemma alike_occurs (kw x y : Py.str) :
  sigma_free kw = true -> alike x y -> occurs kw x -> occurs kw y.
Proof.
  intros Hk Hxy (p & r & ->). unfold alike in Hxy.
  apply Forall2_app_inv_l in Hxy as (p' & t & _ & Ht & ->).
  apply Forall2_app_inv_l in Ht as (k' & r' & Hk' & _ & ->).
  rewrite (alike_sigma_free _ _ Hk Hk'). now exists p', r'.
Qed.

(** A phrase without sigma found in the lower case of a text is found in
    the lower case of any text that contains it. *)
Lemma lower_occurs (kw s t : Py.str) :
  sigma_free kw = true -> occurs s t ->
  occurs kw (Py.lower U s) -> occurs kw (Py.lower U t).
Proof.
  intros Hk (p & r & ->) H. unfold Py.lower.
  rewrite lower_in_app, lower_in_app.
  apply occurs_app_r, occurs_app_l.
  exact (alike_occurs _ _ _ Hk (lower_in_alike _ _ _ _ _) H).
Qed.

Lemma ascii_sigma_free (s : Py.str) : is_ascii s = true -> sigma_free s = true.
Proof.
  induction s as [|c s IH]; [reflexivity|]. cbn.
  rewrite !andb_true_iff. intros [Hc Hs]. split; [|now apply IH].
  apply N.ltb_lt in Hc. unfold is_sigma.
  destruct (N.eqb_spec c 962), (N.eqb_spec c 963); first [lia | reflexivity].
Qed.

Lemma ascii_lower_ascii (s : Py.str) :
  is_ascii s = true -> is_ascii (map Py.ascii_lower s) = true.
Proof.
  induction s as [|c s IH]; [reflexivity|]. cbn.
  rewrite !andb_true_iff. intros [Hc Hs]. split; [|now apply IH].
  apply N.ltb_lt in Hc. apply N.ltb_lt. unfold Py.ascii_lower, Py.ascii_upper_letter.
  destruct (N.leb_spec 65 c), (N.leb_spec c 90); cbn; lia.
Qed.

Lemma contains_ci_occurs (phrase text : Py.str) :
  contains_ci phrase text = true <-> occurs phrase (Py.lower U text).
Proof. unfold contains_ci. apply in_str_spec. Qed.

(** A phrase in some letter case in a text is found in the lower case of
    the text. *)
Lemma any_case_found (phrase text : Py.str) :
  sigma_free phrase = true ->
  occurs_any_case phrase text -> contains_ci phrase text = true.
Proof.
  intros Hs (v & <- & Hocc). apply contains_ci_occurs.
  apply (lower_occurs _ v text); [assumption | assumption | apply occurs_refl].
Qed.

Lemma crisis_keywords_sigma_free (kw : Py.str) :
  In kw CRISIS_KEYWORDS -> sigma_free kw = true.
Proof.
  cbn. intros H.
  repeat (destruct H as [<- | H]; [reflexivity|]). contradiction.
Qed.

Lemma contains_crisis_occurs (text : Py.str) :
  contains_crisis text = true <->
  exists kw, In kw CRISIS_KEYWORDS /\ occurs kw (Py.lower U text).
Proof.
  unfold contains_crisis. cbv zeta. rewrite existsb_exists.
  split; intros (kw & Hin & H); exists kw; split; auto; now apply in_str_spec.
Qed.

End CaseFacts.

(** Evaluation of a closed goal: the lower and title case of the ASCII
    texts in it are those of any database. *)
Ltac ascii_eval :=
  cbv zeta;
  repeat first [ rewrite title_ascii by reflexivity
               | rewrite lower_ascii by reflexivity ];
  vm_compute; try reflexivity.

(** ** Crisis detector *)

(** C3. [contains_crisis text] is true exactly when the lower-cased text
    contains one of the crisis phrases as a substring.  In particular it is
    true for a text that contains a crisis phrase in any letter case, and
    false for a text whose lower case contains none of them. *)
Theorem contains_crisis_iff (text : Py.str) :
  (contains_crisis text = true <->
     exists kw, In kw CRISIS_KEYWORDS /\ occurs kw (Py.lower U text))
  /\ ((exists kw, In kw CRISIS_KEYWORDS /\ occurs_any_case kw text) ->
      contains_crisis text = true)
  /\ ((forall kw, In kw CRISIS_KEYWORDS -> ~ occurs kw (Py.lower U text)) ->
      contains_crisis text = false)
  /\ contains_crisis "I want to end my life" = true
  /\ contains_crisis "I WANT TO END MY LIFE" = true
  /\ contains_crisis "I feel okay today" = false.
Proof.
  split; [apply contains_crisis_occurs|].
  split; [|split; [|repeat split; unfold contains_crisis; ascii_eval]].
  - intros (kw & Hin & Hocc). apply contains_crisis_occurs.
    exists kw. split; [assumption|].
    apply contains_ci_occurs.
    apply any_case_found; [now apply crisis_keywords_sigma_free | assumption].
  - intros Hnone. destruct (contains_crisis text) eqn:E; [|reflexivity].
    apply contains_crisis_occurs in E as (kw & Hin & Hocc).
    exfalso. exact (Hnone kw Hin Hocc).
Qed.
(** ** Scorer *)

Lemma truthy_nonempty (s : Py.str) : Py.truthy s = negb (Py.eqb s "").
Proof. destruct s; reflexivity. Qed.

(** The score in terms of the four tests the code makes. *)
Lemma score_checkin_rules (answers : Py.dict Py.str) :
  score_checkin answers =
  score_rules (Py.get answers "stress" "") (Py.get answers "energy" "")
              (Py.get answers "thoughts" "") (Py.get answers "difficulties" "").
Proof.
  unfold score_checkin, score_rules, contains_ci, contains_crisis.
  cbv zeta. rewrite truthy_nonempty.
  destruct (Py.eqb (Py.strip (Py.get answers "difficulties" "")) "");
    cbn [negb]; split_ifs; reflexivity.
Qed.

(** C4. For every answer set the score is the sum of: 2 when the stress
    answer contains "severe" in any letter case, else 1 when it contains
    "moderate"; 1 when the energy answer contains "low"; 3 when the thoughts
    answer contains a crisis keyword; 1 when the difficulties answer is not
    empty once stripped.  On stress "severe", energy "low", empty thoughts
    and difficulties "rent" the score is 4. *)
Theorem score_checkin_sum (answers : Py.dict Py.str) :
  score_checkin answers =
    ((if contains_ci "severe" (Py.get answers "stress" "") then 2
      else if contains_ci "moderate" (Py.get answers "stress" "") then 1 else 0)
     + (if contains_ci "low" (Py.get answers "energy" "") then 1 else 0)
     + (if contains_crisis (Py.get answers "thoughts" "") then 3 else 0)
     + (if Py.eqb (Py.strip (Py.get answers "difficulties" "")) "" then 0 else 1))%Z
  /\ score_checkin
       [("stress", "severe"); ("energy", "low"); ("thoughts", "");
        ("difficulties", "rent")] = 4%Z.
Proof.
  split; [apply score_checkin_rules | unfold score_checkin; ascii_eval].
Qed.

(** C8. The score lies between 0 and 7, and it is 7 as soon as the stress
    answer contains "severe", the energy answer contains "low", the thoughts
    answer contains a crisis keyword and the difficulties answer is not
    blank. *)
Theorem score_checkin_bounds (answers : Py.dict Py.str) :
  (0 <= score_checkin answers <= 7)%Z
  /\ (contains_ci "severe" (Py.get answers "stress" "") = true ->
      contains_ci "low" (Py.get answers "energy" "") = true ->
      contains_crisis (Py.get answers "thoughts" "") = true ->
      Py.strip (Py.get answers "difficulties" "") <> "" ->
      score_checkin answers = 7%Z).
Proof.
  rewrite score_checkin_rules. unfold score_rules. split.
  - split_ifs; lia.
  - intros -> -> -> Hd. apply str_eqb_neq in Hd. now rewrite Hd.
Qed.

(** ** Theme extractor *)

Lemma NoDup_map_filter {Rule Name} (name : Rule -> Name) (fires : Rule -> bool)
    (rules : list Rule) (distinct : NoDup (map name rules)) :
  NoDup (map name (filter fires rules)).
Proof.
  induction rules as [|r rules IH]; simpl in *; [constructor|].
  inversion distinct as [|? ? Hr Hrest]; subst.
  destruct (fires r); simpl; [constructor|]; auto.
  intros Hin. apply Hr. apply in_map_iff in Hin as (y & <- & Hy).
  apply filter_In in Hy as [Hy _]. now apply in_map.
Qed.

(** The successive appends of [rank_themes] are the declared rules that
    fire, in declaration order. *)
Lemma rank_themes_filter (answers : Py.dict Py.str) :
  rank_themes answers = map rule_theme (filter (rule_fires answers) THEME_RULES).
Proof.
  unfold rank_themes, THEME_RULES, rule_fires, contains_ci. cbv zeta. cbn [filter].
  split_ifs; reflexivity.
Qed.

Lemma rank_themes_In (answers : Py.dict Py.str) (theme : Py.str) :
  In theme (rank_themes answers) <->
  exists trigger field,
    In (trigger, field, theme) THEME_RULES
    /\ contains_ci trigger (Py.get answers field "") = true.
Proof.
  rewrite rank_themes_filter, in_map_iff. split.
  - intros ([[trigger field] th] & Heq & Hin). cbn in Heq. subst th.
    apply filter_In in Hin as [Hin Hf]. now exists trigger, field.
  - intros (trigger & field & Hin & Hf).
    exists (trigger, field, theme). split; [reflexivity|].
    apply filter_In. now split.
Qed.

(** C5. The themes are those of the declared rules that fire, each rule
    reading its own answer field, in declaration order: a theme is returned
    exactly when its rule fires (anxiety exactly when the stress answer
    contains "anx", whatever the other fields hold), no theme is returned
    twice, and the emotion "I feel hopeless and panicky" with the other
    answers empty gives hopelessness, then panic.  An "anxious" emotion with
    a "moderate" stress answer does not give anxiety. *)
Theorem rank_themes_rules (answers : Py.dict Py.str) :
  rank_themes answers = map rule_theme (filter (rule_fires answers) THEME_RULES)
  /\ (forall theme,
        In theme (rank_themes answers) <->
        exists trigger field,
          In (trigger, field, theme) THEME_RULES
          /\ contains_ci trigger (Py.get answers field "") = true)
  /\ (In "anxiety" (rank_themes answers) <->
      contains_ci "anx" (Py.get answers "stress" "") = true)
  /\ NoDup (rank_themes answers)
  /\ rank_themes
       [("emotion", "I feel hopeless and panicky"); ("stress", "");
        ("energy", ""); ("thoughts", ""); ("difficulties", "")]
     = ["hopelessness"; "panic"]
  /\ rank_themes
       [("emotion", "anxious and overwhelmed"); ("stress", "moderate");
        ("energy", "low"); ("thoughts", "racing thoughts");
        ("difficulties", "work deadline")]
     = ["low energy"].
Proof.
  split; [apply rank_themes_filter|].
  split; [apply rank_themes_In|].
  split; [|split; [|split; unfold rank_themes; ascii_eval]].
  - rewrite rank_themes_In. split.
    + intros (trigger & field & Hin & Hf).
      cbn in Hin.
      repeat (destruct Hin as [Hin | Hin]; [inversion Hin; subst; exact Hf|]).
      contradiction.
    + intros Hf. exists "anx", "stress". split; [now left | exact Hf].
  - rewrite rank_themes_filter. apply NoDup_map_filter.
    nodup_concrete.
Qed.

(** C9. Every theme [rank_themes] returns is a key of [THEME_CUES]: the
    explainer's lookup finds its cue lists and the default given to
    [THEME_CUES.get] is not used. *)
Theorem rank_themes_have_cues (answers : Py.dict Py.str) (theme : Py.str) :
  In theme (rank_themes answers) ->
  exists c, Py.lookup THEME_CUES theme = Some c
            /\ forall default, Py.get THEME_CUES theme default = c.
Proof.
  intros Hin. apply rank_themes_In in Hin as (trigger & field & Hin & _).
  cbn in Hin.
  repeat (destruct Hin as [Hin | Hin];
          [inversion Hin; subst; eexists; split; [reflexivity | intros; reflexivity]|]).
  contradiction.
Qed.


(** ** Strategy selector *)

Lemma existsb_in_list_comm (xs ys : list Py.str) :
  existsb (fun t => Py.in_list t ys) xs = existsb (fun t => Py.in_list t xs) ys.
Proof.
  apply eq_true_iff_eq. unfold Py.in_list. rewrite !existsb_exists. split.
  - intros (t & Ht & H). apply existsb_exists in H as (u & Hu & E).
    apply str_eqb_eq in E. subst u. exists t. split; [assumption|].
    apply existsb_exists. exists t. split; [assumption | apply str_eqb_refl].
  - intros (t & Ht & H). apply existsb_exists in H as (u & Hu & E).
    apply str_eqb_eq in E. subst u. exists t. split; [assumption|].
    apply existsb_exists. exists t. split; [assumption | apply str_eqb_refl].
Qed.

Lemma overlapsb_spec (themes : list Py.str) (kv : Py.str * strategy) :
  overlapsb themes kv = true <-> overlaps themes (snd kv).
Proof.
  unfold overlapsb, overlaps, Py.in_list. rewrite existsb_exists. split.
  - intros (t & Ht & H). apply existsb_exists in H as (u & Hu & E).
    apply str_eqb_eq in E. subst u. now exists t.
  - intros (t & Ht & Hs). exists t. split; [assumption|].
    apply existsb_exists. exists t. split; [assumption | apply str_eqb_refl].
Qed.

(** The loop appends, in the order of the items, the keys whose themes
    overlap the theme list. *)
Lemma choose_loop_filter (themes : list Py.str) (items : Py.dict strategy)
    (recs : list Py.str) :
  choose_loop themes items recs =
  (recs ++ map fst (filter (overlapsb themes) items))%list.
Proof.
  unfold choose_loop. revert recs.
  induction items as [|[k v] items IH]; intros recs; simpl.
  - now rewrite app_nil_r.
  - rewrite IH. unfold overlapsb at 2. cbn [snd].
    rewrite (existsb_in_list_comm themes (s_themes v)).
    destruct (existsb _ (s_themes v)); [|reflexivity].
    unfold Py.append. now rewrite <- app_assoc.
Qed.

Lemma choose_strategies_selected (themes : list Py.str) :
  choose_strategies themes =
  match selected themes with
  | [] => ["mindfulness"; "reach out"]
  | _ :: _ => selected themes
  end.
Proof.
  unfold choose_strategies, selected. cbv zeta.
  rewrite choose_loop_filter. reflexivity.
Qed.

Lemma selected_In (themes : list Py.str) (k : Py.str) :
  In k (selected themes) <->
  exists v, In (k, v) STRATEGIES /\ overlaps themes v.
Proof.
  unfold selected. rewrite in_map_iff. split.
  - intros ([k' v] & Hk & Hin). cbn in Hk. subst k'.
    apply filter_In in Hin as [Hin Ho]. exists v. split; [assumption|].
    now apply overlapsb_spec in Ho.
  - intros (v & Hin & Ho). exists (k, v). split; [reflexivity|].
    apply filter_In. split; [assumption | now apply overlapsb_spec].
Qed.

Lemma choose_strategies_keys (themes : list Py.str) (k : Py.str) :
  In k (choose_strategies themes) -> In k (Py.keys STRATEGIES).
Proof.
  rewrite choose_strategies_selected.
  destruct (selected themes) as [|k0 sel] eqn:E.
  - cbn. intuition (subst; auto 10).
  - rewrite <- E. unfold selected, Py.keys. intros Hin.
    apply in_map_iff in Hin as (kv & <- & Hin).
    apply filter_In in Hin as [Hin _]. now apply in_map.
Qed.

(** C6. [choose_strategies] returns the strategies whose themes overlap
    the theme list, in the order of the lexicon and each once, and the pair
    mindfulness, reach out when there is none.  On the empty list it returns
    the fallback; on panic alone it returns mindfulness and grounding and no
    strategy whose themes lack panic. *)
Theorem choose_strategies_selection (themes : list Py.str) :
  choose_strategies themes =
    match selected themes with
    | [] => ["mindfulness"; "reach out"]
    | _ :: _ => selected themes
    end
  /\ selected themes = map fst (filter (overlapsb themes) STRATEGIES)
  /\ (forall k, In k (selected themes) <->
                exists v, In (k, v) STRATEGIES /\ overlaps themes v)
  /\ NoDup (choose_strategies themes)
  /\ choose_strategies [] = ["mindfulness"; "reach out"]
  /\ In "mindfulness" (choose_strategies ["panic"])
  /\ In "grounding" (choose_strategies ["panic"])
  /\ (forall k v, In (k, v) STRATEGIES -> ~ In "panic" (s_themes v) ->
                  ~ In k (choose_strategies ["panic"])).
Proof.
  split; [apply choose_strategies_selected|].
  split; [reflexivity|].
  split; [apply selected_In|].
  split; [|split; [reflexivity|split; [|split]]].
  - rewrite choose_strategies_selected.
    destruct (selected themes) eqn:E.
    + nodup_concrete.
    + rewrite <- E. unfold selected. apply NoDup_map_filter.
      nodup_concrete.
  - cbn. auto.
  - cbn. auto.
  - intros k v Hin Hno Hk.
    change (choose_strategies ["panic"]) with ["mindfulness"; "grounding"] in Hk.
    cbn in Hin.
    repeat (destruct Hin as [Hin | Hin];
            [inversion Hin; subst; clear Hin;
             first [ apply Hno; cbn; tauto | cbn in Hk; intuition discriminate ]|]).
    contradiction.
Qed.


(** ** Sorting and deduplication *)

Section SortFacts.

Lemma insert_sorted_In (x y : Py.str) (l : list Py.str) :
  In y (Py.insert_sorted x l) <-> y = x \/ In y l.
Proof.
  induction l as [|z l IH]; simpl.
  - intuition.
  - destruct (Py.leb x z); simpl; [intuition | rewrite IH; intuition].
Qed.

Lemma sorted_In (y : Py.str) (l : list Py.str) :
  In y (Py.sorted l) <-> In y l.
Proof.
  induction l as [|x l IH]; simpl; [reflexivity|].
  rewrite insert_sorted_In, IH. intuition.
Qed.

Lemma leb_false_le (x y : Py.str) : Py.leb x y = false -> lex_le y x.
Proof.
  intros H. destruct (str_leb_total x y) as [E | E]; [congruence | exact E].
Qed.

Lemma insert_sorted_HdRel (x y : Py.str) (l : list Py.str) :
  lex_le y x -> HdRel lex_le y l -> HdRel lex_le y (Py.insert_sorted x l).
Proof.
  intros Hyx Hl. destruct l as [|z l]; simpl.
  - now constructor.
  - destruct (Py.leb x z); constructor; [assumption|].
    now inversion Hl.
Qed.

Lemma insert_sorted_Sorted (x : Py.str) (l : list Py.str) :
  Sorted lex_le l -> Sorted lex_le (Py.insert_sorted x l).
Proof.
  induction 1 as [|z l Hs IH Hd]; simpl.
  - repeat constructor.
  - destruct (Py.leb x z) eqn:E.
    + constructor; [now constructor | now constructor].
    + constructor; [assumption|].
      apply insert_sorted_HdRel; [now apply leb_false_le | assumption].
Qed.

Lemma sorted_Sorted (l : list Py.str) : Sorted lex_le (Py.sorted l).
Proof.
  induction l as [|x l IH]; simpl; [constructor | now apply insert_sorted_Sorted].
Qed.

Lemma insert_sorted_NoDup (x : Py.str) (l : list Py.str) :
  ~ In x l -> NoDup l -> NoDup (Py.insert_sorted x l).
Proof.
  induction l as [|z l IH]; simpl; intros Hx Hl.
  - constructor; [intros [] | constructor].
  - destruct (Py.leb x z).
    + constructor; [simpl; exact Hx | exact Hl].
    + inversion Hl as [|? ? Hz Hl']; subst. constructor.
      * rewrite insert_sorted_In. intros [-> | Hin]; [apply Hx; now left | auto].
      * apply IH; [intros Hin; apply Hx; now right | assumption].
Qed.

Lemma sorted_NoDup (l : list Py.str) : NoDup l -> NoDup (Py.sorted l).
Proof.
  induction 1 as [|x l Hx Hl IH]; simpl; [constructor|].
  apply insert_sorted_NoDup; [now rewrite sorted_In | assumption].
Qed.

Lemma in_list_In (x : Py.str) (l : list Py.str) :
  Py.in_list x l = true <-> In x l.
Proof.
  unfold Py.in_list. rewrite existsb_exists. split.
  - intros (y & Hy & E). apply str_eqb_eq in E. now subst.
  - intros H. exists x. split; [assumption | apply str_eqb_refl].
Qed.

Lemma set_of_In (y : Py.str) (l : list Py.str) :
  In y (Py.set_of l) <-> In y l.
Proof.
  induction l as [|x l IH]; simpl; [reflexivity|].
  destruct (Py.in_list x l) eqn:E; simpl; rewrite IH; [|reflexivity].
  apply in_list_In in E. split; [auto | intros [<- | H]; auto].
Qed.

Lemma set_of_NoDup (l : list Py.str) : NoDup (Py.set_of l).
Proof.
  induction l as [|x l IH]; simpl; [constructor|].
  destruct (Py.in_list x l) eqn:E; [assumption|].
  constructor; [|assumption].
  rewrite set_of_In. intros H. apply in_list_In in H. congruence.
Qed.

Lemma sorted_set_nil (l : list Py.str) :
  Py.sorted (Py.set_of l) = [] <-> l = [].
Proof.
  split; [|now intros ->].
  intros H. destruct l as [|x l]; [reflexivity|].
  assert (Hin : In x (Py.sorted (Py.set_of (x :: l)))).
  { rewrite sorted_In, set_of_In. now left. }
  rewrite H in Hin. destruct Hin.
Qed.

End SortFacts.

(** ** Running the console programs *)

Section Runs.

Lemma writes_ret {A} (a : A) : writes (ret a) a [].
Proof. intros [i t]. unfold ret. cbn. now rewrite app_nil_r. Qed.

Lemma writes_emit (e : event) : writes (emit e) tt [e].
Proof. intros w. reflexivity. Qed.

Lemma writes_bind {A B} (m : M A) (k : A -> M B) a b e1 e2 :
  writes m a e1 -> writes (k a) b e2 -> writes (bind m k) b (e1 ++ e2)%list.
Proof.
  intros Hm Hk w. unfold bind. rewrite Hm, Hk. cbn. now rewrite <- app_assoc.
Qed.

Lemma writes_for_each {A} (xs : list A) (body : A -> M unit)
    (f : A -> list event) :
  (forall x, writes (body x) tt (f x)) ->
  writes (for_each xs body) tt (flat_map f xs).
Proof.
  intros Hb. induction xs as [|x xs IH]; simpl.
  - apply writes_ret.
  - apply (writes_bind _ _ tt); [apply Hb | exact IH].
Qed.

End Runs.

(** ** Explainer *)

(** One turn of the loop prints the evidence line of the theme and speaks
    its spoken form. *)
Lemma explain_theme_writes (combined theme : Py.str) :
  writes (explain_theme combined theme) tt (theme_events combined theme).
Proof.
  intros w. unfold explain_theme, theme_events, evidence_line, spoken_evidence,
    shown_heard, shown_missing, print, speak_slow, bind, emit.
  cbv zeta. fold (heard_cues combined theme). fold (missing_cues combined theme).
  cbn [stdin trace].
  destruct (heard_cues combined theme) as [|h hs] eqn:Eh;
    destruct (missing_cues combined theme) as [|m ms] eqn:Em.
  - cbn [Py.set_of Py.sorted fold_right firstn].
    rewrite <- ?app_assoc, ?app_nil_r. reflexivity.
  - cbn [Py.set_of Py.sorted fold_right firstn].
    rewrite <- ?app_assoc, ?app_nil_r. reflexivity.
  - destruct (Py.sorted (Py.set_of (h :: hs))) as [|s ss] eqn:Es.
    { apply (proj1 (sorted_set_nil _)) in Es. discriminate Es. }
    cbn [firstn]. rewrite <- ?app_assoc, ?app_nil_r. reflexivity.
  - destruct (Py.sorted (Py.set_of (h :: hs))) as [|s ss] eqn:Es.
    { apply (proj1 (sorted_set_nil _)) in Es. discriminate Es. }
    cbn [firstn]. rewrite <- ?app_assoc, ?app_nil_r. reflexivity.
Qed.

Lemma explain_why_writes (strategies themes : list Py.str)
    (answers : Py.dict Py.str) :
  let combined := Py.lower U (Py.join " " (Py.values answers)) in
  writes (explain_why strategies themes answers) tt
    match themes with
    | [] =>
        [ Print "These are generally helpful strategies for well-being.";
          Speak "These are generally helpful strategies for well-being." ]
    | _ :: _ =>
        ([ Print ("I suggested these because you mentioned: "
                  ++ Py.join ", " themes ++ ".");
           SpeakSlow "Here is why I suggested those." ]
         ++ flat_map (theme_events combined) (firstn 3 themes)
         ++ [ Print "" ])%list
    end.
Proof.
  intros combined. unfold explain_why. fold combined.
  destruct themes as [|t ts].
  - apply (writes_bind _ _ tt _ [_]); apply writes_emit.
  - unfold print, speak_slow.
    apply (writes_bind _ _ tt _ [_]); [apply writes_emit|].
    apply (writes_bind _ _ tt _ [_]); [apply writes_emit|].
    apply (writes_bind _ _ tt); [|apply writes_emit].
    apply writes_for_each. intros x. apply explain_theme_writes.
Qed.

Lemma firstn_prefix {A} (n : nat) (l : list A) :
  exists rest, l = (firstn n l ++ rest)%list.
Proof. exists (skipn n l). now rewrite firstn_skipn. Qed.

(** C7. [explain_why] prints and speaks evidence for the first three
    themes of its list and no other (two events per rendered theme, hence
    three rendered themes for a list of five); a rendered theme shows the
    first two of its examples not heard, and its cue words heard without
    repetition and in lexical order; on the empty theme list the generic
    message is all that is printed and spoken. *)
Theorem explain_why_bounds (strategies themes : list Py.str)
    (answers : Py.dict Py.str) :
  let combined := Py.lower U (Py.join " " (Py.values answers)) in
  writes (explain_why strategies themes answers) tt
    match themes with
    | [] =>
        [ Print "These are generally helpful strategies for well-being.";
          Speak "These are generally helpful strategies for well-being." ]
    | _ :: _ =>
        ([ Print ("I suggested these because you mentioned: "
                  ++ Py.join ", " themes ++ ".");
           SpeakSlow "Here is why I suggested those." ]
         ++ flat_map (theme_events combined) (firstn 3 themes)
         ++ [ Print "" ])%list
    end
  /\ List.length (flat_map (theme_events combined) (firstn 3 themes))
     = (2 * Nat.min 3 (List.length themes))%nat
  /\ (forall t1 t2 t3 t4 t5,
        flat_map (theme_events combined) (firstn 3 [t1; t2; t3; t4; t5])
        = (theme_events combined t1 ++ theme_events combined t2
           ++ theme_events combined t3)%list)
  /\ (forall theme,
        (List.length (shown_missing combined theme) <= 2)%nat
        /\ (exists rest,
              missing_cues combined theme
              = (shown_missing combined theme ++ rest)%list)
        /\ Sorted lex_le (shown_heard combined theme)
        /\ NoDup (shown_heard combined theme)
        /\ (forall k,
              In k (shown_heard combined theme) <->
              In k (present (Py.get THEME_CUES theme (mk_cues [] [])))
              /\ occurs k combined)).
Proof.
  intros combined.
  split; [apply explain_why_writes|].
  split; [|split].
  - rewrite (flat_map_constant_length (c := 2)); [|reflexivity].
    rewrite length_firstn. lia.
  - intros. cbn [firstn flat_map]. now rewrite app_nil_r.
  - intros theme. unfold shown_missing, shown_heard.
    split; [apply firstn_le_length|].
    split; [apply firstn_prefix|].
    split; [apply sorted_Sorted|].
    split; [apply sorted_NoDup, set_of_NoDup|].
    intros k. rewrite sorted_In, set_of_In. unfold heard_cues.
    rewrite filter_In, in_str_spec. reflexivity.
Qed.

(** ** The check-in *)

Section Checkin.

Lemma ask_line (q line : Py.str) (rest : list Py.str) (tr : list event) :
  ask q (mk_world (line :: rest) tr)
  = (Ok (Py.strip line), mk_world rest (tr ++ asked q line)%list).
Proof.
  unfold ask, bind, emit, input, ret, asked. cbn [stdin trace].
  now rewrite <- !app_assoc.
Qed.

Lemma ask_eof (q : Py.str) (tr : list event) :
  ask q (mk_world [] tr) = (Raise EOFError, mk_world [] (tr ++ unanswered q)%list).
Proof.
  unfold ask, bind, emit, input, ret, unanswered. cbn [stdin trace].
  now rewrite <- !app_assoc.
Qed.

(** With a line for every question the loop reads them all, whatever they
    say, and the flag records whether one of them trips the detector. *)
Lemma checkin_loop_run (questions : list (Py.str * Py.str)) :
  forall (lines rest : list Py.str) (answers : Py.dict Py.str) (flag : bool)
         (inputs : list Py.str) (tr : list event),
    List.length lines = List.length questions ->
    checkin_loop questions answers flag inputs (mk_world (lines ++ rest)%list tr)
    = (Ok (checkin_answers questions lines answers,
           flag || existsb contains_crisis (map Py.strip lines),
           (inputs ++ map Py.strip lines)%list),
       mk_world rest (tr ++ asked_all questions lines)%list).
Proof.
  induction questions as [|[q key] questions IH];
    intros lines rest answers flag inputs tr Hlen.
  - destruct lines; [|discriminate]. cbn.
    now rewrite orb_false_r, !app_nil_r.
  - destruct lines as [|line lines]; [discriminate|].
    injection Hlen as Hlen.
    cbn [checkin_loop app]. unfold bind at 1. rewrite ask_line.
    rewrite (IH lines rest _ _ _ _ Hlen).
    unfold checkin_answers, asked_all, Py.append.
    cbn [combine fold_left map concat existsb fst snd].
    rewrite <- !app_assoc. cbn [app].
    destruct (contains_crisis (Py.strip line)), flag; reflexivity.
Qed.

(** With fewer lines than questions the loop ends in [EOFError] at the
    first question that has no line. *)
Lemma checkin_loop_eof (questions : list (Py.str * Py.str)) :
  forall (lines : list Py.str) (answers : Py.dict Py.str) (flag : bool)
         (inputs : list Py.str) (tr : list event),
    (List.length lines < List.length questions)%nat ->
    exists q,
      nth_error (map fst questions) (List.length lines) = Some q
      /\ checkin_loop questions answers flag inputs (mk_world lines tr)
         = (Raise EOFError,
            mk_world [] (tr ++ asked_all questions lines ++ unanswered q)%list).
Proof.
  induction questions as [|[q key] questions IH];
    intros lines answers flag inputs tr Hlen.
  - cbn in Hlen. lia.
  - destruct lines as [|line lines].
    + exists q. split; [reflexivity|].
      cbn [checkin_loop]. unfold bind. now rewrite ask_eof.
    + cbn in Hlen. apply PeanoNat.lt_S_n in Hlen.
      cbn [checkin_loop]. unfold bind at 1. rewrite ask_line.
      destruct (IH lines (Py.set answers key (Py.strip line))
                   (if contains_crisis (Py.strip line) then true else flag)
                   (Py.append inputs (Py.strip line))
                   (tr ++ asked q line)%list Hlen) as (q' & Hq & Hrun).
      exists q'. split; [exact Hq|].
      rewrite Hrun. unfold asked_all. cbn [combine map concat fst snd].
      now rewrite <- !app_assoc.
Qed.

(** A session whose five check-in answers include crisis language: the
    whole of what [run_bot] does. *)
Lemma run_session_crisis (lines : list Py.str) :
  (5 <= List.length lines)%nat ->
  existsb contains_crisis (map Py.strip (firstn 5 lines)) = true ->
  run_session lines
  = (Ok (mk_session (checkin_answers CHECKIN_QUESTIONS (firstn 5 lines) [])
                    true (map Py.strip (firstn 5 lines))
                    None None None None CrisisExit),
     mk_world (skipn 5 lines)
              (greeting_events ++ checkin_events (firstn 5 lines)
               ++ crisis_events)%list).
Proof.
  intros Hlen Hcrisis.
  unfold run_session, run_bot, print, speak. cbv zeta.
  unfold bind at 1 2 3 4. unfold emit at 1 2 3 4. cbn [stdin trace app].
  rewrite <- (firstn_skipn 5 lines) at 1.
  unfold bind at 1.
  rewrite checkin_loop_run
    by (rewrite length_firstn; change (List.length CHECKIN_QUESTIONS) with 5%nat; lia).
  rewrite Hcrisis. cbn [orb app].
  unfold crisis_resources, speak, bind, emit, ret. cbn [stdin trace].
  unfold greeting_events, checkin_events, asked_all, crisis_events.
  now rewrite <- !app_assoc.
Qed.

Lemma run_session_eof (lines : list Py.str) :
  (List.length lines < 5)%nat ->
  exists q,
    question (List.length lines) = Some q
    /\ run_session lines
       = (Raise EOFError,
          mk_world [] (greeting_events ++ checkin_events lines ++ unanswered q)%list).
Proof.
  intros Hlen.
  destruct (checkin_loop_eof CHECKIN_QUESTIONS lines [] false [] greeting_events Hlen)
    as (q & Hq & Hrun).
  exists q. split; [exact Hq|].
  unfold run_session, run_bot, print, speak. cbv zeta.
  unfold bind at 1 2 3 4. unfold emit at 1 2 3 4. cbn [stdin trace app].
  unfold bind at 1. fold greeting_events. now rewrite Hrun.
Qed.

End Checkin.

(** ** Crisis short-circuit *)

(** C1. When one of the five check-in answers satisfies [contains_crisis],
    [run_bot] goes from the check-in straight to the crisis resources and
    returns: the trace holds the greeting, the five questions with the lines
    read, and the crisis resources, nothing else, so no recommendation, score
    or explanation is printed or spoken; and the variables [score], [themes],
    [strategies] and [followup_resps] are never assigned, so [score_checkin],
    [rank_themes], [choose_strategies], [explain_why] and [follow_up] were not
    called.  (With fewer than five lines to read the session ends in
    [EOFError] inside the check-in.) *)
Theorem crisis_short_circuit (lines : list Py.str) :
  existsb contains_crisis (map Py.strip (firstn 5 lines)) = true ->
  ((5 <= List.length lines)%nat ->
   exists s,
     run_session lines
     = (Ok s, mk_world (skipn 5 lines)
                       (greeting_events ++ checkin_events (firstn 5 lines)
                        ++ crisis_events)%list)
     /\ exit s = CrisisExit
     /\ crisis_flag s = true
     /\ followup_resps s = None
     /\ score s = None
     /\ themes s = None
     /\ strategies s = None)
  /\ ((List.length lines < 5)%nat ->
      exists q,
        question (List.length lines) = Some q
        /\ run_session lines
           = (Raise EOFError,
              mk_world [] (greeting_events ++ checkin_events lines
                           ++ unanswered q)%list)).
Proof.
  intros Hcrisis. split.
  - intros Hlen. eexists. split.
    + apply run_session_crisis; assumption.
    + repeat split.
  - apply run_session_eof.
Qed.


(** C2. The code does not handle the crisis at the answer that shows it.
    On the input whose first answer is the only one to satisfy
    [contains_crisis], the loop of lines 405 to 413 sets [crisis_flag] and
    goes on: the questions 2 to 5 are presented all the same and their lines
    are read, and the crisis resources come only after the fifth answer.  The
    module's docstring (line 11) promises immediate resource guidance. *)
Theorem checkin_continues_after_crisis :
  contains_crisis (Py.strip "I want to die") = true
  /\ existsb contains_crisis (map Py.strip ["mild"; "ok"; "none"; "nothing"]) = false
  /\ run_session ["I want to die"; "mild"; "ok"; "none"; "nothing"]
     = (Ok (mk_session
              [("emotion", "I want to die"); ("stress", "mild"); ("energy", "ok");
               ("thoughts", "none"); ("difficulties", "nothing")]
              true ["I want to die"; "mild"; "ok"; "none"; "nothing"]
              None None None None CrisisExit),
        mk_world []
          (greeting_events
           ++ asked "How are you feeling emotionally right now?" "I want to die"
           ++ asked "Are you experiencing any stress or anxiety? (none/mild/moderate/severe)" "mild"
           ++ asked "How is your energy level? (low/ok/high)" "ok"
           ++ asked "Are you having any thoughts that are hard to manage?" "none"
           ++ asked "Is there anything making things especially difficult today?" "nothing"
           ++ crisis_events)).
Proof.
  assert (H1 : contains_crisis (Py.strip "I want to die") = true)
    by (unfold contains_crisis, contains_ci; ascii_eval).
  assert (H2 : existsb contains_crisis
                 (map Py.strip ["mild"; "ok"; "none"; "nothing"]) = false)
    by (unfold contains_crisis, contains_ci; cbn [map existsb]; ascii_eval).
  split; [exact H1|]. split; [exact H2|].
  rewrite run_session_crisis.
  - reflexivity.
  - cbn. lia.
  - cbn [firstn map existsb] in *. rewrite H1. reflexivity.
Qed.

(** ** The guided exercise and dictionary look-ups *)

Section Lookups.

Lemma no_key_error_ret {A} (a : A) : no_key_error (ret a).
Proof. intros w. left. now exists a. Qed.

Lemma no_key_error_emit (e : event) : no_key_error (emit e).
Proof. intros w. left. now exists tt. Qed.

Lemma no_key_error_writes {A} (m : M A) (a : A) (evs : list event) :
  writes m a evs -> no_key_error m.
Proof. intros H w. left. exists a. now rewrite H. Qed.

(** Sequencing: the continuation is only run on values the first part
    returns. *)
Lemma no_key_error_bind {A B} (m : M A) (k : A -> M B) (P : A -> Prop) :
  no_key_error m -> returns m P ->
  (forall a, P a -> no_key_error (k a)) ->
  no_key_error (bind m k).
Proof.
  intros Hm HP Hk w. unfold bind.
  destruct (m w) as [[a | e] w'] eqn:E.
  - apply Hk. now apply (HP w a w').
  - destruct (Hm w) as [[a Ha] | He]; rewrite E in *; cbn in *.
    + discriminate.
    + injection He as ->. now right.
Qed.

Lemma returns_any {A} (m : M A) : returns m (fun _ => True).
Proof. intros w a w' _. exact I. Qed.

Lemma no_key_error_seq {A B} (m : M A) (k : A -> M B) :
  no_key_error m -> (forall a, no_key_error (k a)) -> no_key_error (bind m k).
Proof.
  intros Hm Hk. apply (no_key_error_bind m k (fun _ => True)); auto.
  apply returns_any.
Qed.

Lemma no_key_error_input (prompt : Py.str) : no_key_error (input prompt).
Proof.
  intros [[|line rest] tr]; cbn; [now right | left; now eexists].
Qed.

Lemma no_key_error_ask (q : Py.str) : no_key_error (ask q).
Proof.
  unfold ask.
  repeat (apply no_key_error_seq; [try apply no_key_error_emit | intros]).
  - apply no_key_error_input.
  - apply no_key_error_ret.
Qed.

Lemma no_key_error_getitem {V} (d : Py.dict V) (k : Py.str) (v : V) :
  Py.lookup d k = Some v -> no_key_error (getitem d k).
Proof. intros H w. left. exists v. unfold getitem. now rewrite H. Qed.

Lemma no_key_error_for_each {A} (xs : list A) (body : A -> M unit) :
  (forall x, In x xs -> no_key_error (body x)) ->
  no_key_error (for_each xs body).
Proof.
  induction xs as [|x xs IH]; intros Hb; cbn [for_each].
  - apply no_key_error_ret.
  - apply no_key_error_seq; [apply Hb; now left|].
    intros _. apply IH. intros y Hy. apply Hb. now right.
Qed.

Lemma find_choice_In (answer : Py.str) (choices : list Py.str) (c : Py.str) :
  find_choice answer choices = Some c -> In c choices.
Proof.
  induction choices as [|x choices IH]; cbn; [discriminate|].
  destruct (Py.eqb _ _); [intros [= ->]; now left | auto].
Qed.

(** One turn of the [while True] of [ask_choice] is a call of [ask]
    followed by the search among the choices. *)
Lemma ask_choice_loop_ask (prompt options : Py.str) (choices : list Py.str)
    (w : world) :
  ask_choice_loop prompt options choices (stdin w) (trace w)
  = match ask (prompt ++ " (" ++ options ++ ")") w with
    | (Ok answer, w') =>
        match find_choice answer choices with
        | Some c => (Ok c, w')
        | None =>
            ask_choice_loop prompt options choices (stdin w')
              (trace w' ++ [Print ("Please choose one of: " ++ options)])%list
        end
    | (Raise e, w') => (Raise e, w')
    end.
Proof.
  destruct w as [[|line rest] tr]; cbn [stdin trace].
  - now rewrite ask_eof.
  - rewrite ask_line. reflexivity.
Qed.

(** The loop returns one of the choices, or the input runs out. *)
Lemma ask_choice_loop_result (prompt options : Py.str) (choices lines : list Py.str) :
  forall tr,
    (exists c w', ask_choice_loop prompt options choices lines tr = (Ok c, w')
                  /\ In c choices)
    \/ (exists w', ask_choice_loop prompt options choices lines tr
                   = (Raise EOFError, w')).
Proof.
  induction lines as [|line lines IH]; intros tr; cbn [ask_choice_loop].
  - right. now eexists.
  - destruct (find_choice (Py.strip line) choices) as [c|] eqn:E.
    + left. exists c. eexists. split; [reflexivity|].
      now apply find_choice_In in E.
    + apply IH.
Qed.

Lemma returns_ask_choice (prompt : Py.str) (choices : list Py.str) :
  returns (ask_choice prompt choices) (fun c => In c choices).
Proof.
  intros w c w'. unfold ask_choice, bind, emit. cbn [stdin trace].
  destruct (ask_choice_loop_result prompt (Py.join "/" choices) choices
              (stdin w) (trace w ++ [SpeakStripped prompt])%list)
    as [(c' & w'' & -> & Hin) | (w'' & ->)].
  - now intros [= <- _].
  - discriminate.
Qed.

Lemma no_key_error_ask_choice (prompt : Py.str) (choices : list Py.str) :
  no_key_error (ask_choice prompt choices).
Proof.
  intros w. unfold ask_choice, bind, emit. cbn [stdin trace].
  destruct (ask_choice_loop_result prompt (Py.join "/" choices) choices
              (stdin w) (trace w ++ [SpeakStripped prompt])%list)
    as [(c' & w'' & -> & Hin) | (w'' & ->)].
  - left. now exists c'.
  - now right.
Qed.

(** Lower-casing the title-cased form of a key of [STRATEGIES] gives the
    key back. *)
Lemma lower_title_key (k : Py.str) :
  In k (Py.keys STRATEGIES) -> Py.lower U (Py.title U k) = k.
Proof.
  cbn. intros H.
  repeat (destruct H as [<- | H]; [ascii_eval|]). contradiction.
Qed.

Lemma key_lookup (k : Py.str) :
  In k (Py.keys STRATEGIES) -> exists s, Py.lookup STRATEGIES k = Some s.
Proof.
  cbn. intros H.
  repeat (destruct H as [<- | H]; [eexists; reflexivity|]). contradiction.
Qed.

(** A title among those offered for the chosen strategies names a key. *)
Lemma chosen_is_key (themes : list Py.str) (chosen : Py.str) :
  In chosen (map (Py.title U) (choose_strategies themes)) ->
  In (Py.lower U chosen) (Py.keys STRATEGIES).
Proof.
  intros H. apply in_map_iff in H as (k & <- & Hk).
  apply choose_strategies_keys in Hk.
  now rewrite lower_title_key.
Qed.

Lemma no_key_error_print_recommendations (themes : list Py.str) :
  no_key_error (print_recommendations (choose_strategies themes)).
Proof.
  unfold print_recommendations, print, speak.
  apply no_key_error_seq; [apply no_key_error_emit | intros _].
  apply no_key_error_seq; [|intros _; apply no_key_error_emit].
  apply no_key_error_for_each. intros k Hk.
  destruct (key_lookup _ (choose_strategies_keys _ _ Hk)) as [s Hs].
  apply no_key_error_seq; [now apply (no_key_error_getitem _ _ s) | intros s'].
  apply no_key_error_seq; [apply no_key_error_emit | intros _].
  apply no_key_error_emit.
Qed.

Lemma no_key_error_follow_up (answers : Py.dict Py.str) :
  no_key_error (follow_up answers).
Proof.
  unfold follow_up. cbv zeta.
  repeat (apply no_key_error_seq;
          [ match goal with
            | |- no_key_error (if ?b then _ else _) =>
                destruct b;
                [ apply no_key_error_seq;
                  [apply no_key_error_ask | intros; apply no_key_error_ret]
                | apply no_key_error_ret ]
            end
          | intros ]).
  apply no_key_error_ret.
Qed.

Lemma no_key_error_checkin_loop (questions : list (Py.str * Py.str)) :
  forall answers flag inputs,
    no_key_error (checkin_loop questions answers flag inputs).
Proof.
  induction questions as [|[q key] questions IH]; intros; cbn [checkin_loop].
  - apply no_key_error_ret.
  - apply no_key_error_seq; [apply no_key_error_ask | intros; apply IH].
Qed.

Lemma no_key_error_crisis_resources : no_key_error crisis_resources.
Proof.
  unfold crisis_resources, speak. cbv zeta.
  repeat (apply no_key_error_seq; [apply no_key_error_emit | intros]).
  apply no_key_error_emit.
Qed.

(** [run_bot] never ends in [KeyError]. *)
Lemma no_key_error_run_bot : no_key_error run_bot.
Proof.
  unfold run_bot, print, speak, speak_slow. cbv zeta.
  do 4 (apply no_key_error_seq; [apply no_key_error_emit | intros _]).
  apply no_key_error_seq; [apply no_key_error_checkin_loop|].
  intros [[answers flag] inputs]. destruct flag.
  { apply no_key_error_seq; [apply no_key_error_crisis_resources | intros _].
    apply no_key_error_ret. }
  do 4 (apply no_key_error_seq; [apply no_key_error_emit | intros _]).
  apply no_key_error_seq; [apply no_key_error_follow_up | intros followups].
  apply no_key_error_seq.
  { destruct followups; [apply no_key_error_ret|].
    apply no_key_error_seq; [apply no_key_error_emit | intros _].
    apply no_key_error_emit. }
  intros _.
  do 2 (apply no_key_error_seq; [apply no_key_error_emit | intros _]).
  apply no_key_error_seq; [apply no_key_error_print_recommendations | intros _].
  do 2 (apply no_key_error_seq; [apply no_key_error_emit | intros _]).
  apply no_key_error_seq.
  { eapply no_key_error_writes. apply explain_why_writes. }
  intros _. destruct (existsb contains_crisis followups).
  { apply no_key_error_seq; [apply no_key_error_crisis_resources | intros _].
    apply no_key_error_ret. }
  do 2 (apply no_key_error_seq; [apply no_key_error_emit | intros _]).
  apply no_key_error_seq; [apply no_key_error_ask_choice | intros choice].
  apply no_key_error_seq.
  { destruct (Py.eqb (Py.lower U choice) "yes"); [|apply no_key_error_ret].
    eapply no_key_error_bind;
      [apply no_key_error_ask_choice | apply returns_ask_choice |].
    intros chosen Hchosen. cbv beta in Hchosen.
    destruct (key_lookup _ (chosen_is_key _ _ Hchosen)) as [s Hs].
    do 2 (apply no_key_error_seq; [apply no_key_error_emit | intros _]).
    apply no_key_error_seq; [now apply (no_key_error_getitem _ _ s) | intros s1].
    apply no_key_error_seq; [apply no_key_error_emit | intros _].
    apply no_key_error_seq; [now apply (no_key_error_getitem _ _ s) | intros s2].
    apply no_key_error_emit. }
  intros _.
  do 6 (apply no_key_error_seq; [apply no_key_error_emit | intros _]).
  apply no_key_error_ret.
Qed.

End Lookups.

(** C10. For every key of [STRATEGIES], lower-casing its title-cased form
    gives the key back (reach out becomes Reach Out, self-compassion becomes
    Self-Compassion, and both come back).  So in the guided exercise the
    strategy [ask_choice] returns, one of the title-cased recommendations,
    lower-cases to a key of [STRATEGIES] whose description is found, and no
    session ends in [KeyError]. *)
Theorem title_lower_roundtrip :
  (forall k, In k (Py.keys STRATEGIES) -> Py.lower U (Py.title U k) = k)
  /\ Py.title U "reach out" = "Reach Out"
  /\ Py.title U "self-compassion" = "Self-Compassion"
  /\ (forall prompt choices,
        returns (ask_choice prompt choices) (fun c => In c choices))
  /\ (forall themes chosen,
        In chosen (map (Py.title U) (choose_strategies themes)) ->
        In (Py.lower U chosen) (Py.keys STRATEGIES)
        /\ exists s, Py.lookup STRATEGIES (Py.lower U chosen) = Some s)
  /\ (forall lines,
        (exists s, fst (run_session lines) = Ok s)
        \/ fst (run_session lines) = Raise EOFError).
Proof.
  split; [exact lower_title_key|].
  split; [ascii_eval|]. split; [ascii_eval|].
  split; [exact returns_ask_choice|].
  split.
  - intros themes chosen H. apply chosen_is_key in H.
    split; [assumption | now apply key_lookup].
  - intros lines. apply no_key_error_run_bot.
Qed.


(** * Further properties of the code *)

(** ** White space and letter case *)

Section StripFacts.

Lemma lstrip_head (s : Py.str) (c : N) (r : Py.str) :
  Py.lstrip s = c :: r -> Py.is_space c = false.
Proof.
  induction s as [|x s IH]; cbn; [discriminate|].
  destruct (Py.is_space x) eqn:E; [exact IH|].
  intros [= <- _]. exact E.
Qed.

Lemma rstrip_head (s : Py.str) (c : N) (r : Py.str) :
  Py.rstrip s = c :: r -> exists r0, s = c :: r0.
Proof.
  destruct s as [|x s]; cbn; [discriminate|].
  destruct (Py.rstrip s); [destruct (Py.is_space x); [discriminate|]|];
    intros [= <- _]; now eexists.
Qed.


Lemma rstrip_cons (x : N) (s : Py.str) :
  Py.rstrip (x :: s)
  = match Py.rstrip s with
    | [] => if Py.is_space x then [] else [x]
    | y :: t => x :: y :: t
    end.
Proof. reflexivity. Qed.

Lemma rstrip_idem (s : Py.str) : Py.rstrip (Py.rstrip s) = Py.rstrip s.
Proof.
  induction s as [|x s IH]; [reflexivity|].
  rewrite rstrip_cons. destruct (Py.rstrip s) as [|y t] eqn:E.
  - destruct (Py.is_space x) eqn:Ex; [reflexivity|].
    rewrite rstrip_cons. cbn [Py.rstrip]. now rewrite Ex.
  - rewrite rstrip_cons, IH. reflexivity.
Qed.

Lemma lstrip_fixed (s : Py.str) :
  (forall c r, s = c :: r -> Py.is_space c = false) -> Py.lstrip s = s.
Proof.
  destruct s as [|c r]; cbn; [reflexivity|].
  intros H. now rewrite (H c r eq_refl).
Qed.

Lemma strip_head (s : Py.str) (c : N) (r : Py.str) :
  Py.strip s = c :: r -> Py.is_space c = false.
Proof.
  unfold Py.strip. intros H.
  destruct (rstrip_head _ _ _ H) as [r0 H0].
  now apply lstrip_head in H0.
Qed.

Lemma strip_idem (s : Py.str) : Py.strip (Py.strip s) = Py.strip s.
Proof.
  unfold Py.strip at 1.
  rewrite (lstrip_fixed (Py.strip s)) by (intros c r; apply strip_head).
  unfold Py.strip. apply rstrip_idem.
Qed.

(** Two texts that differ only in the case of ASCII letters. *)
Lemma lower_in_same_letters (s s' : Py.str) :
  map Py.ascii_lower s' = map Py.ascii_lower s ->
  forall b a b' a', alike (Py.lower_in U b s a) (Py.lower_in U b' s' a').
Proof.
  revert s'. induction s as [|c s IH]; intros [|c' s'] H; try discriminate H.
  - constructor.
  - injection H as Hc Hs. intros b a b' a'.
    cbn [Py.lower_in]. apply Forall2_app; [|now apply IH].
    destruct (N.eqb_spec c c') as [<- | Hneq].
    + apply lower_ucs4_alike.
    + assert (Hlt : (c < 128 /\ c' < 128)%N).
      { revert Hc. unfold Py.ascii_lower, Py.ascii_upper_letter.
        destruct (N.leb_spec 65 c), (N.leb_spec c 90),
                 (N.leb_spec 65 c'), (N.leb_spec c' 90); cbn; lia. }
      destruct Hlt as [Hl Hl']. unfold Py.lower_ucs4.
      destruct (N.eqb_spec c 931); [lia|]. destruct (N.eqb_spec c' 931); [lia|].
      rewrite (lower_on_ascii U c Hl), (lower_on_ascii U c' Hl'), Hc.
      apply alike_refl.
Qed.

Lemma contains_crisis_same_letters (s s' : Py.str) :
  map Py.ascii_lower s' = map Py.ascii_lower s ->
  contains_crisis s = true -> contains_crisis s' = true.
Proof.
  intros H Hs. apply contains_crisis_occurs in Hs as (kw & Hin & Hocc).
  apply contains_crisis_occurs. exists kw. split; [assumption|].
  apply (alike_occurs kw (Py.lower U s));
    [now apply crisis_keywords_sigma_free | | assumption].
  now apply lower_in_same_letters.
Qed.

End StripFacts.


(** X2. Crisis detection does not depend on the case of the ASCII letters
    of the text, and text added around a flagged text never clears the flag:
    whatever contains a flagged text is flagged. *)
Theorem contains_crisis_stable (text : Py.str) :
  (forall text',
     map Py.ascii_lower text' = map Py.ascii_lower text ->
     contains_crisis text' = contains_crisis text)
  /\ (forall before after,
        contains_crisis text = true ->
        contains_crisis (before ++ text ++ after) = true).
Proof.
  split.
  - intros text' H. apply eq_true_iff_eq. split.
    + now apply contains_crisis_same_letters.
    + now apply contains_crisis_same_letters.
  - intros before after H.
    apply contains_crisis_occurs in H as (kw & Hin & Hocc).
    apply contains_crisis_occurs. exists kw. split; [assumption|].
    apply (lower_occurs kw text);
      [now apply crisis_keywords_sigma_free | now exists before, after | assumption].
Qed.

(** ** Recommendations from answers *)

Section Selection.

Lemma in_list_ext (xs ys : list Py.str) (t : Py.str) :
  (forall x, In x xs <-> In x ys) -> Py.in_list t xs = Py.in_list t ys.
Proof.
  intros H. apply eq_true_iff_eq. rewrite !in_list_In. apply H.
Qed.

Lemma existsb_same {T} (f g : T -> bool) (l : list T) :
  (forall x, f x = g x) -> existsb f l = existsb g l.
Proof.
  intros H. induction l as [|x l IH]; cbn; [reflexivity | now rewrite H, IH].
Qed.

Lemma selected_ext (xs ys : list Py.str) :
  (forall x, In x xs <-> In x ys) -> selected xs = selected ys.
Proof.
  intros H. unfold selected. f_equal. apply filter_ext. intros [k v].
  unfold overlapsb. apply existsb_same. intros t. now apply in_list_ext.
Qed.

Lemma selected_keys (themes : list Py.str) :
  incl (selected themes) (Py.keys STRATEGIES).
Proof.
  intros k Hk. unfold selected in Hk. apply in_map_iff in Hk as (kv & <- & Hin).
  apply filter_In in Hin as [Hin _]. unfold Py.keys. now apply in_map.
Qed.

Lemma selected_NoDup (themes : list Py.str) : NoDup (selected themes).
Proof. unfold selected. apply NoDup_map_filter. nodup_concrete. Qed.

End Selection.

(** X3. Whatever the theme list, [choose_strategies] returns at least one
    strategy, at most six, and only keys of [STRATEGIES]; and the result
    depends only on which themes occur in the list, not on their order or
    repetition. *)
Theorem choose_strategies_wellformed (themes : list Py.str) :
  choose_strategies themes <> []
  /\ (List.length (choose_strategies themes) <= 6)%nat
  /\ incl (choose_strategies themes) (Py.keys STRATEGIES)
  /\ (forall themes',
        (forall t, In t themes <-> In t themes') ->
        choose_strategies themes' = choose_strategies themes).
Proof.
  assert (Hincl : incl (choose_strategies themes) (Py.keys STRATEGIES)).
  { intros k. apply choose_strategies_keys. }
  assert (Hnd : NoDup (choose_strategies themes)).
  { rewrite choose_strategies_selected.
    destruct (selected themes) eqn:E; [nodup_concrete|].
    rewrite <- E. apply selected_NoDup. }
  split; [|split; [|split]].
  - rewrite choose_strategies_selected. destruct (selected themes); discriminate.
  - apply (NoDup_incl_length Hnd) in Hincl. exact Hincl.
  - exact Hincl.
  - intros themes' H. rewrite !choose_strategies_selected.
    now rewrite (selected_ext themes themes').
Qed.


(** X4. From check-in answers, journaling is never recommended (no rule of
    [rank_themes] gives one of its themes), grounding is only recommended
    together with mindfulness, and mindfulness comes first whenever it is
    recommended. *)
Theorem recommendations_reachable (answers : Py.dict Py.str) :
  ~ In "journaling" (choose_strategies (rank_themes answers))
  /\ (In "grounding" (choose_strategies (rank_themes answers)) ->
      In "mindfulness" (choose_strategies (rank_themes answers)))
  /\ (In "mindfulness" (choose_strategies (rank_themes answers)) ->
      exists others, choose_strategies (rank_themes answers) = "mindfulness" :: others).
Proof.
  unfold rank_themes. cbv zeta. split_ifs; vm_compute;
    (split; [intuition discriminate|]);
    (split; [intuition discriminate|]);
    intros H; first [ eexists; reflexivity | exfalso; intuition discriminate ].
Qed.


(** ** The evidence corpus *)

Section Corpus.

(** A joined list contains each of its elements. *)
Lemma join_occurs (sep x : Py.str) (xs : list Py.str) :
  In x xs -> occurs x (Py.join sep xs).
Proof.
  induction xs as [|y ys IH]; [intros []|].
  intros Hin. cbn [Py.join]. destruct ys as [|z zs].
  - destruct Hin as [<- | []]. apply occurs_refl.
  - destruct Hin as [<- | Hin].
    + apply occurs_app_l, occurs_refl.
    + now apply occurs_app_r, occurs_app_r, IH.
Qed.

Lemma lookup_values {V} (d : Py.dict V) (k : Py.str) (v : V) :
  Py.lookup d k = Some v -> In v (Py.values d).
Proof.
  induction d as [|[k' v'] d IH]; cbn; [discriminate|].
  destruct (Py.eqb k k'); [intros [= ->]; now left | auto].
Qed.

(** A trigger found in an answer field is found in the corpus of
    [explain_why]. *)
Lemma trigger_in_corpus (answers : Py.dict Py.str) (trigger field : Py.str) :
  sigma_free trigger = true ->
  contains_ci trigger "" = false ->
  contains_ci trigger (Py.get answers field "") = true ->
  Py.in_str trigger (Py.lower U (Py.join " " (Py.values answers))) = true.
Proof.
  unfold Py.get. intros Hs Hne H.
  destruct (Py.lookup answers field) as [v|] eqn:E; [|congruence].
  apply in_str_spec. apply in_str_spec in H.
  apply (lower_occurs trigger v); [assumption | | assumption].
  apply join_occurs. now apply lookup_values in E.
Qed.

Lemma filter_nonempty {T} (f : T -> bool) (x : T) (l : list T) :
  In x l -> f x = true -> filter f l <> [].
Proof.
  intros Hin Hf E.
  assert (H : In x (filter f l)) by (apply filter_In; now split).
  rewrite E in H. destruct H.
Qed.

End Corpus.

(** X5. The reflective summary opens with its fixed phrase and quotes
    every answer it is given. *)
Theorem reflect_summary_quotes (user_inputs : list Py.str) :
  (exists rest, reflect_summary user_inputs = "It sounds like: " ++ rest)
  /\ (forall x, In x user_inputs -> occurs x (reflect_summary user_inputs)).
Proof.
  unfold reflect_summary. cbv zeta. split.
  - now eexists.
  - intros x Hin. apply occurs_app_r. now apply join_occurs.
Qed.

(** X6. For a theme [rank_themes] found in the answers, other than low
    energy, the explainer hears at least one cue word in those answers (the
    trigger of the rule is one of the theme's cues), so its evidence line
    never falls back to the general wording.  Low energy is the exception,
    its trigger not being among its cues: on the energy answer "low" the
    theme is returned and no cue is heard. *)
Theorem detected_theme_is_heard :
  (forall (answers : Py.dict Py.str) (theme : Py.str),
     In theme (rank_themes answers) ->
     theme <> "low energy" ->
     shown_heard (Py.lower U (Py.join " " (Py.values answers))) theme <> [])
  /\ (rank_themes [("energy", "low")] = ["low energy"]
      /\ shown_heard (Py.lower U (Py.join " " (Py.values [("energy", "low")])))
                     "low energy" = []).
Proof.
  split; [|split; [unfold rank_themes | unfold shown_heard, heard_cues]; ascii_eval].
  intros answers theme Hin Hne.
  apply rank_themes_In in Hin as (trigger & field & Hrule & Hf).
  unfold shown_heard. intros E. apply (proj1 (sorted_set_nil _)) in E. revert E.
  unfold heard_cues. cbn in Hrule.
  repeat (destruct Hrule as [Hrule | Hrule];
          [inversion Hrule; subst; clear Hrule;
           first [ congruence
                 | eapply filter_nonempty;
                   [ cbn; left; reflexivity
                   | eapply trigger_in_corpus; [reflexivity | reflexivity | exact Hf] ] ]|]).
  contradiction.
Qed.


(** X7. For a theme that has no entry in [THEME_CUES] the explainer uses
    empty cue lists: the line names the theme with the general wording and
    mentions nothing as not heard. *)
Theorem explain_unknown_theme (combined theme : Py.str) :
  Py.lookup THEME_CUES theme = None ->
  writes (explain_theme combined theme) tt
    [ Print ("  • " ++ Py.title U theme
             ++ ": signals heard → general check‑in responses");
      SpeakSlow (Py.title U theme ++ ". I mainly relied on your general responses. ") ].
Proof.
  intros Hnone w. rewrite explain_theme_writes.
  unfold theme_events, shown_heard, shown_missing, heard_cues, missing_cues, Py.get.
  rewrite Hnone. cbn [present missing_examples filter Py.set_of Py.sorted
                      fold_right firstn].
  unfold evidence_line, spoken_evidence. now rewrite ?string_app_nil_r.
Qed.


(** ** Choice prompts *)

Section Choices.

Lemma find_choice_none (answer : Py.str) (choices : list Py.str) :
  find_choice answer choices = None <->
  forall c, In c choices -> Py.lower U answer <> Py.lower U c.
Proof.
  induction choices as [|x choices IH]; cbn.
  - split; [intros _ c [] | reflexivity].
  - destruct (str_eqb_spec (Py.lower U answer) (Py.lower U x)) as [E | E].
    + split; [discriminate | intros H; exfalso; apply (H x); auto].
    + rewrite IH. split.
      * intros H c [<- | Hc]; auto.
      * intros H c Hc. apply H. now right.
Qed.

(** The choice found is the first one equal to the answer up to letter
    case. *)
Lemma find_choice_first (answer : Py.str) (choices : list Py.str) (c : Py.str) :
  find_choice answer choices = Some c ->
  exists before after,
    choices = (before ++ c :: after)%list
    /\ Py.lower U answer = Py.lower U c
    /\ forall x, In x before -> Py.lower U answer <> Py.lower U x.
Proof.
  induction choices as [|x choices IH]; cbn; [discriminate|].
  destruct (str_eqb_spec (Py.lower U answer) (Py.lower U x)) as [E | E].
  - intros [= <-]. exists [], choices. repeat split; [assumption | intros ? []].
  - intros H. destruct (IH H) as (before & after & -> & Hc & Hb).
    exists (x :: before), after. repeat split; [assumption|].
    intros y [<- | Hy]; auto.
Qed.

(** Conversely, the first choice equal to the answer up to letter case is
    the one found. *)
Lemma find_choice_at (answer : Py.str) (earlier later : list Py.str) (c : Py.str) :
  Py.lower U answer = Py.lower U c ->
  (forall x, In x earlier -> Py.lower U answer <> Py.lower U x) ->
  find_choice answer (earlier ++ c :: later) = Some c.
Proof.
  intros Hc. induction earlier as [|x earlier IH]; intros Hx; cbn.
  - now rewrite Hc, str_eqb_refl.
  - destruct (str_eqb_spec (Py.lower U answer) (Py.lower U x)) as [E | _].
    + exfalso. apply (Hx x); [now left | exact E].
    + apply IH. intros y Hy. apply Hx. now right.
Qed.

(** Lines that match no choice are each answered by the reminder, and the
    loop goes on with the next line. *)
Lemma ask_choice_loop_skips (prompt options : Py.str) (choices bad : list Py.str) :
  (forall line, In line bad -> find_choice (Py.strip line) choices = None) ->
  forall (tail : list Py.str) (tr : list event),
    ask_choice_loop prompt options choices (bad ++ tail)%list tr
    = ask_choice_loop prompt options choices tail
        (tr ++ flat_map (reprompted (prompt ++ " (" ++ options ++ ")") options) bad)%list.
Proof.
  induction bad as [|line bad IH]; intros Hbad tail tr.
  - cbn. now rewrite app_nil_r.
  - cbn [app ask_choice_loop flat_map].
    rewrite (Hbad line (or_introl eq_refl)).
    rewrite IH by (intros l Hl; apply Hbad; now right).
    f_equal. unfold reprompted, asked. now rewrite <- !app_assoc.
Qed.

Lemma ask_choice_run (prompt : Py.str) (choices bad : list Py.str)
    (good : Py.str) (rest : list Py.str) (c : Py.str) :
  (forall line, In line bad -> find_choice (Py.strip line) choices = None) ->
  find_choice (Py.strip good) choices = Some c ->
  runs (ask_choice prompt choices) (bad ++ good :: rest)%list c rest
    ([SpeakStripped prompt]
     ++ flat_map (reprompted (prompt ++ " (" ++ Py.join "/" choices ++ ")")
                             (Py.join "/" choices)) bad
     ++ asked (prompt ++ " (" ++ Py.join "/" choices ++ ")") good)%list.
Proof.
  intros Hbad Hgood tr.
  unfold ask_choice, bind, emit. cbv zeta. cbn [stdin trace].
  rewrite ask_choice_loop_skips by assumption.
  cbn [ask_choice_loop]. rewrite Hgood.
  unfold asked. now rewrite <- !app_assoc.
Qed.

End Choices.

(** X8. [ask_choice] goes through the lines that match no choice, printing
    the reminder of the options after each, and returns at the first line
    that equals a choice up to letter case and surrounding white space: the
    value returned is the first choice in the list that the line equals in
    this way, as listed and not as typed, whatever choices come later; and
    nothing after that line is read. *)
Theorem ask_choice_accepts (prompt : Py.str) (earlier later bad : list Py.str)
    (good : Py.str) (rest : list Py.str) (c : Py.str) (tr : list event) :
  (forall line, In line bad ->
     forall x, In x (earlier ++ c :: later) ->
       Py.lower U (Py.strip line) <> Py.lower U x) ->
  (forall x, In x earlier -> Py.lower U (Py.strip good) <> Py.lower U x) ->
  Py.lower U (Py.strip good) = Py.lower U c ->
  ask_choice prompt (earlier ++ c :: later)
    (mk_world (bad ++ good :: rest) tr)
  = (Ok c,
     mk_world rest
       (tr ++ [SpeakStripped prompt]
        ++ flat_map (reprompted (prompt ++ " ("
                                 ++ Py.join "/" (earlier ++ c :: later) ++ ")")
                                (Py.join "/" (earlier ++ c :: later))) bad
        ++ asked (prompt ++ " (" ++ Py.join "/" (earlier ++ c :: later) ++ ")")
                 good)).
Proof.
  intros Hbad Hearlier Hgood.
  apply ask_choice_run.
  - intros line Hl. apply find_choice_none. now apply Hbad.
  - now apply find_choice_at.
Qed.

(** X9. When no line left to read equals a choice, [ask_choice] reads them
    all, reminding the options after each, and ends in [EOFError] on the next
    prompt; with an empty list of choices that is what it always does. *)
Theorem ask_choice_exhausts (prompt : Py.str) (choices lines : list Py.str)
    (tr : list event) :
  (forall line, In line lines ->
     forall x, In x choices -> Py.lower U (Py.strip line) <> Py.lower U x) ->
  ask_choice prompt choices (mk_world lines tr)
  = (Raise EOFError,
     mk_world []
       (tr ++ [SpeakStripped prompt]
        ++ flat_map (reprompted (prompt ++ " (" ++ Py.join "/" choices ++ ")")
                                (Py.join "/" choices)) lines
        ++ unanswered (prompt ++ " (" ++ Py.join "/" choices ++ ")"))%list).
Proof.
  intros Hbad.
  unfold ask_choice, bind, emit. cbv zeta. cbn [stdin trace].
  rewrite <- (app_nil_r lines) at 1.
  rewrite ask_choice_loop_skips
    by (intros line Hl; apply find_choice_none; now apply Hbad).
  cbn [ask_choice_loop]. unfold unanswered. now rewrite <- !app_assoc.
Qed.


(** ** Follow-up questions and the printed recommendations *)

Section FollowUps.

Lemma follow_up_run (answers : Py.dict Py.str) (lines rest : list Py.str)
    (tr : list event) :
  List.length lines = List.length (follow_up_questions answers) ->
  follow_up answers (mk_world (lines ++ rest)%list tr)
  = (Ok (map Py.strip lines),
     mk_world rest (tr ++ asked_each (follow_up_questions answers) lines)%list).
Proof.
  unfold follow_up, follow_up_questions, contains_ci, asked_each. cbv zeta.
  rewrite truthy_nonempty.
  destruct (Py.in_str "severe" _), (Py.in_str "low" _), (Py.eqb _ "");
    cbn [negb app List.length]; intros Hlen;
    repeat (destruct lines as [|? lines]; try discriminate Hlen);
    cbn [bind ask emit input ret stdin trace Py.append app map combine concat
         fst snd asked];
    rewrite <- ?app_assoc, ?app_nil_r; reflexivity.
Qed.

Lemma follow_up_short (answers : Py.dict Py.str) (lines : list Py.str)
    (tr : list event) :
  (List.length lines < List.length (follow_up_questions answers))%nat ->
  fst (follow_up answers (mk_world lines tr)) = Raise EOFError.
Proof.
  unfold follow_up, follow_up_questions, contains_ci. cbv zeta.
  rewrite truthy_nonempty.
  destruct (Py.in_str "severe" _), (Py.in_str "low" _), (Py.eqb _ "");
    cbn [negb app List.length]; intros Hlen;
    repeat (destruct lines as [|? lines]; cbn [List.length] in Hlen; try lia);
    reflexivity.
Qed.

Lemma follow_up_questions_score (answers : Py.dict Py.str) :
  (List.length (follow_up_questions answers) <= 3)%nat
  /\ (Z.of_nat (List.length (follow_up_questions answers))
      <= score_checkin answers)%Z.
Proof.
  rewrite score_checkin_rules. unfold follow_up_questions, score_rules.
  split_ifs; cbn [app List.length]; lia.
Qed.

End FollowUps.

(** X10. [follow_up] asks one question for a stress answer containing
    "severe", one for an energy answer containing "low" and one for a
    difficulties answer that is not blank, in that order: it reads exactly
    one line per question and returns the stripped lines; it ends in
    [EOFError] when fewer lines are left.  It asks at most three questions,
    and never more than the distress score. *)
Theorem follow_up_asks (answers : Py.dict Py.str) :
  (List.length (follow_up_questions answers) <= 3)%nat
  /\ (Z.of_nat (List.length (follow_up_questions answers))
      <= score_checkin answers)%Z
  /\ (forall lines rest tr,
        List.length lines = List.length (follow_up_questions answers) ->
        follow_up answers (mk_world (lines ++ rest)%list tr)
        = (Ok (map Py.strip lines),
           mk_world rest
             (tr ++ asked_each (follow_up_questions answers) lines)%list))
  /\ (forall lines tr,
        (List.length lines < List.length (follow_up_questions answers))%nat ->
        fst (follow_up answers (mk_world lines tr)) = Raise EOFError).
Proof.
  split; [apply follow_up_questions_score|].
  split; [apply follow_up_questions_score|].
  split; [apply follow_up_run | apply follow_up_short].
Qed.


Section Recommendations.

Lemma for_each_strategies_run (ks : list Py.str) (w : world) :
  (forall k, In k ks -> In k (Py.keys STRATEGIES)) ->
  for_each ks (fun k =>
    s <- getitem STRATEGIES k ;;
    print ("- " ++ Py.title U k ++ ": " ++ s_desc s) ;;
    speak (Py.title U k ++ ": " ++ s_desc s)) w
  = (Ok tt, mk_world (stdin w) (trace w ++ flat_map strategy_events ks)%list).
Proof.
  revert w. induction ks as [|k ks IH]; intros w Hk.
  - destruct w. cbn. now rewrite app_nil_r.
  - destruct (key_lookup k (Hk k (or_introl eq_refl))) as [s Hs].
    cbn [for_each flat_map]. unfold bind at 1. unfold bind at 1.
    unfold getitem at 1, strategy_events at 1. rewrite Hs.
    unfold bind at 1, print, speak, emit. cbn [stdin trace].
    rewrite IH by (intros x Hx; apply Hk; now right).
    cbn [stdin trace]. now rewrite <- !app_assoc.
Qed.

Lemma print_recommendations_writes (ks : list Py.str) :
  (forall k, In k ks -> In k (Py.keys STRATEGIES)) ->
  writes (print_recommendations ks) tt
    ([recommendation_header] ++ flat_map strategy_events ks ++ [Print ""])%list.
Proof.
  intros Hk w. unfold print_recommendations.
  unfold bind at 1. unfold print at 1, emit at 1.
  unfold bind at 1. rewrite for_each_strategies_run by assumption.
  unfold print, emit, recommendation_header. cbn [stdin trace].
  now rewrite <- !app_assoc.
Qed.

End Recommendations.

(** X11. Given keys of [STRATEGIES], [print_recommendations] prints the
    header, then prints and speaks one line per strategy with its title-cased
    name and description, then prints an empty line.  At the first name that
    is not a key it raises [KeyError] for that name, after the lines of the
    names before it and before any later one. *)
Theorem print_recommendations_lines :
  (forall ks,
     (forall k, In k ks -> In k (Py.keys STRATEGIES)) ->
     writes (print_recommendations ks) tt
       ([recommendation_header] ++ flat_map strategy_events ks ++ [Print ""])%list)
  /\ (forall good bad rest w,
        (forall k, In k good -> In k (Py.keys STRATEGIES)) ->
        Py.lookup STRATEGIES bad = None ->
        print_recommendations (good ++ bad :: rest)%list w
        = (Raise (KeyError bad),
           mk_world (stdin w)
             (trace w ++ [recommendation_header]
              ++ flat_map strategy_events good)%list)).
Proof.
  split; [exact print_recommendations_writes|].
  intros good bad rest w Hgood Hbad. unfold print_recommendations.
  unfold bind at 1. unfold print at 1, emit at 1. unfold bind at 1.
  set (w1 := mk_world (stdin w) (trace w ++ [recommendation_header])%list).
  change (mk_world (stdin w) (trace w ++ [Print (LF ++ "Here are some things you might try to support yourself:" ++ LF)])%list)
    with w1.
  assert (H : forall w0,
             for_each (good ++ bad :: rest)%list (fun k =>
               s <- getitem STRATEGIES k ;;
               print ("- " ++ Py.title U k ++ ": " ++ s_desc s) ;;
               speak (Py.title U k ++ ": " ++ s_desc s)) w0
             = (Raise (KeyError bad),
                mk_world (stdin w0) (trace w0 ++ flat_map strategy_events good)%list)).
  { clear w w1. induction good as [|k good IH]; intros w0.
    - cbn [app for_each flat_map]. unfold bind at 1. unfold bind at 1.
      unfold getitem. rewrite Hbad. destruct w0. cbn. now rewrite app_nil_r.
    - destruct (key_lookup k (Hgood k (or_introl eq_refl))) as [s Hs].
      cbn [app for_each flat_map]. unfold bind at 1. unfold bind at 1.
      unfold getitem at 1, strategy_events at 1. rewrite Hs.
      unfold bind at 1, print, speak, emit. cbn [stdin trace].
      rewrite IH by (intros x Hx; apply Hgood; now right).
      cbn [stdin trace]. now rewrite <- !app_assoc. }
  rewrite H. unfold w1. cbn [stdin trace]. now rewrite <- !app_assoc.
Qed.


(** ** What a session returns *)

Section Sessions.

Lemma returns_ret {A} (a : A) (P : A -> Prop) : P a -> returns (ret a) P.
Proof. intros H w b w' [= <- _]. exact H. Qed.

Lemma returns_bind {A B} (m : M A) (k : A -> M B) (P : A -> Prop)
    (Q : B -> Prop) :
  returns m P -> (forall a, P a -> returns (k a) Q) -> returns (bind m k) Q.
Proof.
  intros Hm Hk w b w' H. unfold bind in H.
  destruct (m w) as [[a | e] w1] eqn:E; [|discriminate].
  exact (Hk a (Hm w a w1 E) w1 b w' H).
Qed.

Lemma returns_seq {A B} (m : M A) (k : A -> M B) (Q : B -> Prop) :
  (forall a, returns (k a) Q) -> returns (bind m k) Q.
Proof.
  intros Hk. apply (returns_bind m k (fun _ => True)); [apply returns_any | auto].
Qed.

(** The check-in returns the five stripped lines, keyed in the order of
    the questions, and the flag says whether one of them trips the
    detector. *)
Lemma returns_checkin :
  returns (checkin_loop CHECKIN_QUESTIONS [] false [])
    (fun st =>
       exists a1 a2 a3 a4 a5,
         st = ([("emotion", a1); ("stress", a2); ("energy", a3);
                ("thoughts", a4); ("difficulties", a5)],
               existsb contains_crisis [a1; a2; a3; a4; a5],
               [a1; a2; a3; a4; a5])
         /\ Forall (fun a => Py.strip a = a) [a1; a2; a3; a4; a5]).
Proof.
  intros [lines tr] st w' H.
  destruct (Nat.le_gt_cases 5 (List.length lines)) as [Hlen | Hlen].
  - destruct lines as [|l1 [|l2 [|l3 [|l4 [|l5 rest]]]]];
      try (cbn in Hlen; lia).
    change (l1 :: l2 :: l3 :: l4 :: l5 :: rest)
      with ([l1; l2; l3; l4; l5] ++ rest)%list in H.
    rewrite checkin_loop_run in H by reflexivity.
    injection H as <- _.
    exists (Py.strip l1), (Py.strip l2), (Py.strip l3), (Py.strip l4), (Py.strip l5).
    split; [reflexivity|].
    repeat constructor; apply strip_idem.
  - destruct (checkin_loop_eof CHECKIN_QUESTIONS lines [] false [] tr Hlen)
      as (q & _ & Hrun).
    rewrite Hrun in H. discriminate.
Qed.

Lemma returns_follow_up (answers : Py.dict Py.str) :
  returns (follow_up answers)
    (fun resps => List.length resps = List.length (follow_up_questions answers)).
Proof.
  intros [lines tr] resps w' H.
  destruct (Nat.le_gt_cases (List.length (follow_up_questions answers))
              (List.length lines)) as [Hlen | Hlen].
  - rewrite <- (firstn_skipn (List.length (follow_up_questions answers)) lines) in H.
    rewrite follow_up_run in H by (rewrite length_firstn; lia).
    injection H as <- _. rewrite length_map, length_firstn. lia.
  - apply (follow_up_short answers lines tr) in Hlen.
    rewrite H in Hlen. discriminate.
Qed.

(** Whenever [run_bot] returns, its local variables are in the state
    [session_ok] describes. *)
Lemma run_bot_returns : returns run_bot session_ok.
Proof.
  unfold run_bot. cbv zeta.
  do 4 (apply returns_seq; intros _).
  eapply returns_bind; [apply returns_checkin|].
  intros st (a1 & a2 & a3 & a4 & a5 & -> & Hstripped).
  cbv beta iota.
  destruct (existsb contains_crisis [a1; a2; a3; a4; a5]) eqn:Hflag.
  { apply returns_seq; intros _. apply returns_ret.
    unfold session_ok. cbn [answers crisis_flag user_inputs followup_resps
                            score themes strategies exit].
    repeat split; try assumption; auto. }
  do 4 (apply returns_seq; intros _).
  eapply returns_bind; [apply returns_follow_up|].
  intros resps Hresps. cbv beta.
  apply returns_seq; intros _.
  do 2 (apply returns_seq; intros _).
  apply returns_seq; intros _.
  do 2 (apply returns_seq; intros _).
  apply returns_seq; intros _.
  destruct (existsb contains_crisis resps) eqn:Hre.
  { apply returns_seq; intros _. apply returns_ret.
    unfold session_ok. cbn [answers crisis_flag user_inputs followup_resps
                            score themes strategies exit].
    repeat split; try assumption; auto.
    exists resps. repeat split; assumption. }
  do 2 (apply returns_seq; intros _).
  apply returns_seq; intros choice.
  apply returns_seq; intros _.
  do 6 (apply returns_seq; intros _).
  apply returns_ret.
  unfold session_ok. cbn [answers crisis_flag user_inputs followup_resps
                          score themes strategies exit].
  repeat split; try assumption; auto.
  exists resps. repeat split; assumption.
Qed.

End Sessions.


(** X12. Whenever [run_bot] returns, [answers] holds the five keys in the
    order of the questions, with the stripped lines read for them, which are
    also [user_inputs]; [crisis_flag] tells whether one of them satisfies
    [contains_crisis], and the return is the crisis exit exactly then, with
    nothing scored or recommended.  Otherwise the score, the themes and the
    strategies are those of [score_checkin], [rank_themes] and
    [choose_strategies] on these answers, one response was read per follow-up
    question, and the return is the re-check exit exactly when a response
    satisfies [contains_crisis]. *)
Theorem run_session_state (lines : list Py.str) (s : session) (w : world) :
  run_session lines = (Ok s, w) ->
  Py.keys (answers s) = ["emotion"; "stress"; "energy"; "thoughts"; "difficulties"]
  /\ Py.values (answers s) = user_inputs s
  /\ Forall (fun a => Py.strip a = a) (user_inputs s)
  /\ crisis_flag s = existsb contains_crisis (user_inputs s)
  /\ (exit s = CrisisExit <-> crisis_flag s = true)
  /\ (crisis_flag s = true ->
      followup_resps s = None /\ score s = None
      /\ themes s = None /\ strategies s = None)
  /\ (crisis_flag s = false ->
      score s = Some (score_checkin (answers s))
      /\ themes s = Some (rank_themes (answers s))
      /\ strategies s = Some (choose_strategies (rank_themes (answers s)))
      /\ exists resps,
           followup_resps s = Some resps
           /\ List.length resps = List.length (follow_up_questions (answers s))
           /\ (exit s = CrisisRecheckExit <-> existsb contains_crisis resps = true)).
Proof.
  intros H. apply run_bot_returns in H.
  destruct H as (Hk & Hv & Hs & Hf & He).
  repeat (split; [assumption|]).
  destruct (exit s).
  - destruct He as (Ht & ? & ? & ? & ?). rewrite Ht.
    split; [tauto|]. split; [tauto | discriminate].
  - destruct He as (Ht & ? & ? & ? & resps & ? & ? & Hr). rewrite Ht.
    split; [split; discriminate|]. split; [discriminate|].
    intros _. repeat (split; [assumption|]).
    exists resps. repeat (split; [assumption|]). tauto.
  - destruct He as (Ht & ? & ? & ? & resps & ? & ? & Hr). rewrite Ht.
    split; [split; discriminate|]. split; [discriminate|].
    intros _. repeat (split; [assumption|]).
    exists resps. repeat (split; [assumption|]). rewrite Hr.
    split; discriminate.
Qed.




(** ** Whole sessions *)

Section WholeRuns.

Lemma runs_ret {A} (a : A) (ins : list Py.str) : runs (ret a) ins a ins [].
Proof. intros tr. unfold ret. now rewrite app_nil_r. Qed.

Lemma runs_emit (e : event) (ins : list Py.str) : runs (emit e) ins tt ins [e].
Proof. intros tr. reflexivity. Qed.

Lemma runs_bind {A B} (m : M A) (k : A -> M B) ins a ins1 e1 b ins2 e2 :
  runs m ins a ins1 e1 -> runs (k a) ins1 b ins2 e2 ->
  runs (bind m k) ins b ins2 (e1 ++ e2)%list.
Proof.
  intros Hm Hk tr. unfold bind. rewrite Hm, Hk. now rewrite <- app_assoc.
Qed.

Lemma runs_events {A} (m : M A) ins a ins' evs evs' :
  runs m ins a ins' evs -> evs = evs' -> runs m ins a ins' evs'.
Proof. now intros H <-. Qed.

Lemma runs_writes {A} (m : M A) (a : A) (evs : list event) (ins : list Py.str) :
  writes m a evs -> runs m ins a ins evs.
Proof. intros H tr. now rewrite H. Qed.

Lemma runs_getitem {V} (d : Py.dict V) (k : Py.str) (v : V) (ins : list Py.str) :
  Py.lookup d k = Some v -> runs (getitem d k) ins v ins [].
Proof. intros H tr. unfold getitem. rewrite H. now rewrite app_nil_r. Qed.

Lemma runs_checkin (l1 l2 l3 l4 l5 : Py.str) (rest : list Py.str) :
  runs (checkin_loop CHECKIN_QUESTIONS [] false [])
       (l1 :: l2 :: l3 :: l4 :: l5 :: rest)
       (answer_set (Py.strip l1) (Py.strip l2) (Py.strip l3) (Py.strip l4)
                   (Py.strip l5),
        existsb contains_crisis (map Py.strip [l1; l2; l3; l4; l5]),
        map Py.strip [l1; l2; l3; l4; l5])
       rest (checkin_events [l1; l2; l3; l4; l5]).
Proof.
  intros tr.
  change (l1 :: l2 :: l3 :: l4 :: l5 :: rest)
    with ([l1; l2; l3; l4; l5] ++ rest)%list.
  now rewrite checkin_loop_run.
Qed.

Lemma runs_returned {A} (m : M A) ins a ins' evs (P : A -> Prop) :
  runs m ins a ins' evs -> returns m P -> P a.
Proof. intros H Hr. exact (Hr _ _ _ (H [])). Qed.

End WholeRuns.

(** One step of a session: an event emitted, then the rest. *)
Ltac run_emit :=
  eapply runs_bind; [apply runs_emit | cbv beta].

(** The steps shared by the sessions that pass the check-in: greeting,
    check-in, summary, follow-up questions, recommendations, explanation. *)
Ltac run_to_recheck Hgate Hfollow :=
  unfold run_bot, print, speak, speak_slow; cbv zeta;
  eapply runs_events;
  [ do 4 run_emit;
    eapply runs_bind; [apply runs_checkin | cbv beta iota];
    rewrite Hgate;
    do 4 run_emit;
    eapply runs_bind; [exact Hfollow | cbv beta];
    eapply runs_bind;
    [ match goal with
      | |- runs (match ?r with [] => _ | _ :: _ => _ end) _ _ _ _ =>
          instantiate (1 := match r with
                            | [] => []
                            | _ :: _ =>
                                [ Print (LF ++ "Thank you for sharing more.");
                                  Speak "Thank you for sharing more." ]
                            end);
          destruct r;
          [ apply runs_ret
          | eapply runs_events;
            [ run_emit; apply runs_emit | reflexivity ] ]
      end
    | cbv beta ];
    do 2 run_emit;
    eapply runs_bind;
    [ apply runs_writes, print_recommendations_writes;
      exact (choose_strategies_keys _)
    | cbv beta ];
    do 2 run_emit;
    eapply runs_bind;
    [ apply runs_writes, explain_why_writes | cbv beta ]
  | ].

Lemma writes_crisis_resources : writes crisis_resources tt crisis_events.
Proof.
  unfold crisis_resources, speak. cbv zeta.
  apply (writes_bind _ _ tt _ [_]); [apply writes_emit|].
  apply (writes_bind _ _ tt _ [_]); apply writes_emit.
Qed.

(** X14. Crisis language in a follow-up response is acted on late: when
    the five check-in answers pass the detector and a follow-up response
    does not, [run_bot] still scores the answers and prints and speaks the
    recommendations and their explanation, and only then gives the crisis
    resources and returns, offering no exercise and reading nothing more. *)
Theorem late_crisis_after_recommendations (l1 l2 l3 l4 l5 : Py.str)
    (rest resps rest1 : list Py.str) (fevs : list event) :
  let ans := answer_set (Py.strip l1) (Py.strip l2) (Py.strip l3)
                        (Py.strip l4) (Py.strip l5) in
  let inputs := map Py.strip [l1; l2; l3; l4; l5] in
  existsb contains_crisis inputs = false ->
  runs (follow_up ans) rest resps rest1 fevs ->
  existsb contains_crisis resps = true ->
  runs run_bot (l1 :: l2 :: l3 :: l4 :: l5 :: rest)
    (mk_session ans false inputs (Some resps)
       (Some (score_checkin ans)) (Some (rank_themes ans))
       (Some (choose_strategies (rank_themes ans))) CrisisRecheckExit)
    rest1
    (greeting_events ++ checkin_events [l1; l2; l3; l4; l5]
     ++ summary_events inputs ++ fevs
     ++ suggestion_events ans resps ++ crisis_events)%list.
Proof.
  intros ans inputs Hgate Hfollow Hlate. subst ans inputs.
  run_to_recheck Hgate Hfollow.
  - rewrite Hlate.
    eapply runs_bind;
      [apply runs_writes, writes_crisis_resources | apply runs_ret].
  - unfold greeting_events, summary_events, suggestion_events, explanation_events.
    rewrite <- ?app_assoc, ?app_nil_r. reflexivity.
Qed.


(** X15. The guided exercise.  When the check-in and the follow-up
    responses pass the detector, the user answers yes to the offer and then
    names one of the recommended strategies by its title, [run_bot] prints and
    speaks the steps of that strategy, its own description, then the closing
    words, and returns at the end of the function.  The title picked is the
    title of a recommended strategy and lower-cases to its key. *)
Theorem guided_exercise (l1 l2 l3 l4 l5 : Py.str)
    (rest resps rest1 rest2 rest3 : list Py.str) (chosen : Py.str)
    (fevs cevs pevs : list event) :
  let ans := answer_set (Py.strip l1) (Py.strip l2) (Py.strip l3)
                        (Py.strip l4) (Py.strip l5) in
  let inputs := map Py.strip [l1; l2; l3; l4; l5] in
  let recs := choose_strategies (rank_themes ans) in
  existsb contains_crisis inputs = false ->
  runs (follow_up ans) rest resps rest1 fevs ->
  existsb contains_crisis resps = false ->
  runs (ask_choice "Would you like to try one of these strategies now?"
                   ["yes"; "no"]) rest1 "yes" rest2 cevs ->
  runs (ask_choice "Which would you like to try?" (map (Py.title U) recs))
       rest2 chosen rest3 pevs ->
  runs run_bot (l1 :: l2 :: l3 :: l4 :: l5 :: rest)
    (mk_session ans false inputs (Some resps)
       (Some (score_checkin ans)) (Some (rank_themes ans)) (Some recs) Closing)
    rest3
    (greeting_events ++ checkin_events [l1; l2; l3; l4; l5]
     ++ summary_events inputs ++ fevs ++ suggestion_events ans resps
     ++ offer_events ++ cevs ++ pevs
     ++ exercise_events (Py.lower U chosen) ++ closing_events)%list
  /\ In (Py.lower U chosen) recs
  /\ Py.title U (Py.lower U chosen) = chosen
  /\ exists s,
       Py.lookup STRATEGIES (Py.lower U chosen) = Some s
       /\ exercise_events (Py.lower U chosen)
          = [ Print ("Great! Here are some steps for " ++ chosen ++ ":");
              Speak ("Here are some steps for " ++ chosen ++ ".");
              Print (s_desc s);
              Speak (s_desc s) ].
Proof.
  intros ans inputs recs Hgate Hfollow Hre Hyes Hpick. subst ans inputs recs.
  set (ans := answer_set (Py.strip l1) (Py.strip l2) (Py.strip l3)
                         (Py.strip l4) (Py.strip l5)) in *.
  assert (Hin : In chosen (map (Py.title U) (choose_strategies (rank_themes ans)))).
  { exact (runs_returned _ _ _ _ _ (fun c => In c _) Hpick
                          (returns_ask_choice _ _)). }
  apply in_map_iff in Hin as (k & Hk & Hrec).
  assert (Hkey : In k (Py.keys STRATEGIES)) by now apply choose_strategies_keys in Hrec.
  assert (Hlow : Py.lower U chosen = k) by (rewrite <- Hk; now apply lower_title_key).
  destruct (key_lookup k Hkey) as [s Hs].
  assert (Hex : exercise_events (Py.lower U chosen)
                = [ Print ("Great! Here are some steps for " ++ chosen ++ ":");
                    Speak ("Here are some steps for " ++ chosen ++ ".");
                    Print (s_desc s);
                    Speak (s_desc s) ]).
  { unfold exercise_events. rewrite Hlow, Hs, Hk. reflexivity. }
  split; [|split; [now rewrite Hlow | split; [now rewrite Hlow | exists s; split;
    [now rewrite Hlow | exact Hex]]]].
  rewrite Hex. subst ans.
  run_to_recheck Hgate Hfollow.
  - rewrite Hre. do 2 run_emit.
    eapply runs_bind; [exact Hyes | cbv beta].
    replace (Py.eqb (Py.lower U "yes") "yes") with true
      by (rewrite lower_ascii by reflexivity; reflexivity).
    cbv iota.
    eapply runs_bind.
    { eapply runs_bind; [exact Hpick | cbv beta zeta].
      rewrite Hlow, Hk.
      do 2 run_emit.
      eapply runs_bind; [apply runs_getitem; exact Hs | cbv beta].
      run_emit.
      eapply runs_bind; [apply runs_getitem; exact Hs | cbv beta].
      apply runs_emit. }
    cbv beta. do 6 run_emit. apply runs_ret.
  - unfold greeting_events, summary_events, suggestion_events, explanation_events,
      offer_events, closing_events.
    rewrite <- ?app_assoc, ?app_nil_r. reflexivity.
Qed.

(** X16. Declining the exercise.  When the check-in and the follow-up
    responses pass the detector and the user answers no to the offer,
    [run_bot] asks for no strategy, prints no steps, says the closing words
    and returns at the end of the function. *)
Theorem exercise_declined (l1 l2 l3 l4 l5 : Py.str)
    (rest resps rest1 rest2 : list Py.str) (fevs cevs : list event) :
  let ans := answer_set (Py.strip l1) (Py.strip l2) (Py.strip l3)
                        (Py.strip l4) (Py.strip l5) in
  let inputs := map Py.strip [l1; l2; l3; l4; l5] in
  existsb contains_crisis inputs = false ->
  runs (follow_up ans) rest resps rest1 fevs ->
  existsb contains_crisis resps = false ->
  runs (ask_choice "Would you like to try one of these strategies now?"
                   ["yes"; "no"]) rest1 "no" rest2 cevs ->
  runs run_bot (l1 :: l2 :: l3 :: l4 :: l5 :: rest)
    (mk_session ans false inputs (Some resps)
       (Some (score_checkin ans)) (Some (rank_themes ans))
       (Some (choose_strategies (rank_themes ans))) Closing)
    rest2
    (greeting_events ++ checkin_events [l1; l2; l3; l4; l5]
     ++ summary_events inputs ++ fevs ++ suggestion_events ans resps
     ++ offer_events ++ cevs ++ closing_events)%list.
Proof.
  intros ans inputs Hgate Hfollow Hre Hno. subst ans inputs.
  run_to_recheck Hgate Hfollow.
  - rewrite Hre. do 2 run_emit.
    eapply runs_bind; [exact Hno | cbv beta].
    replace (Py.eqb (Py.lower U "no") "yes") with false
      by (rewrite lower_ascii by reflexivity; reflexivity).
    cbv iota.
    eapply runs_bind; [apply runs_ret | cbv beta].
    do 6 run_emit. apply runs_ret.
  - unfold greeting_events, summary_events, suggestion_events, explanation_events,
      offer_events, closing_events.
    rewrite <- ?app_assoc, ?app_nil_r. reflexivity.
Qed.



(** ** Spoken prompts *)

Section SpokenPrompts.

Lemma close_len_none (s : Py.str) :
  close_len s = None <-> mem_char 41 s = false.
Proof.
  induction s as [|c s IH]; cbn; [tauto|].
  destruct (N.eqb c 41); cbn; [split; discriminate|].
  rewrite <- IH. destruct (close_len s); cbn; split; congruence.
Qed.

Lemma mem_char_remove (x : N) (s : Py.str) :
  forall k, mem_char x (remove_parens_from k s) = true -> mem_char x s = true.
Proof.
  induction s as [|c s IH]; intros k; cbn [remove_parens_from]; [trivial|].
  cbn [mem_char]. destruct k as [|k].
  - destruct (paren_match_len (c :: s)) as [[|n]|]; cbn [mem_char];
      rewrite !orb_true_iff; intros H; try (destruct H as [H | H]; [now left|]);
      right; now apply IH in H.
  - intros H. rewrite orb_true_iff. right. now apply IH in H.
Qed.

Lemma no_pair_remove (s : Py.str) :
  forall k, no_pair (remove_parens_from k s) = true.
Proof.
  induction s as [|c s IH]; intros k; cbn [remove_parens_from]; [reflexivity|].
  destruct k as [|k]; [|apply IH].
  assert (Hkeep : paren_match_len (c :: s) = None ->
                  no_pair (c :: (remove_parens_from 0 s)) = true).
  { intros Hnone. cbn [no_pair]. rewrite IH, andb_true_r.
    destruct (N.eqb c 40) eqn:Ec; [|reflexivity].
    cbn [negb orb]. apply N.eqb_eq in Ec. subst c.
    cbn in Hnone.
    assert (Hc : close_len s = None) by (destruct (close_len s); [discriminate | reflexivity]).
    apply close_len_none in Hc.
    destruct (mem_char 41 (remove_parens_from 0 s)) eqn:E; [|reflexivity].
    apply mem_char_remove in E. congruence. }
  destruct (paren_match_len (c :: s)) as [[|n]|] eqn:E.
  - exfalso. cbn in E.
    destruct (Py.is_space c); [destruct (paren_match_len s); discriminate|].
    destruct (N.eqb c 40); [destruct (close_len s); discriminate | discriminate].
  - apply IH.
  - now apply Hkeep.
Qed.

Lemma mem_char_collapse (x : N) (s : Py.str) :
  Py.is_space x = false ->
  forall b, mem_char x (collapse_ws_from b s) = true -> mem_char x s = true.
Proof.
  intros Hx. induction s as [|c s IH]; intros b;
    cbn [collapse_ws_from mem_char]; [trivial|].
  destruct (Py.is_space c) eqn:Ec.
  - destruct b; cbn [mem_char]; rewrite ?orb_true_iff; intros H.
    + right. now apply IH in H.
    + destruct H as [H | H]; [|right; now apply IH in H].
      apply N.eqb_eq in H. subst x. discriminate.
  - cbn [mem_char]. rewrite !orb_true_iff.
    intros [H | H]; [now left | right; now apply IH in H].
Qed.

Lemma no_pair_collapse (s : Py.str) :
  forall b, no_pair s = true -> no_pair (collapse_ws_from b s) = true.
Proof.
  induction s as [|c s IH]; intros b; cbn [no_pair collapse_ws_from]; [trivial|].
  rewrite andb_true_iff. intros [Hc Hs].
  destruct (Py.is_space c) eqn:Ec.
  - destruct b; [now apply IH|]. cbn [no_pair]. now rewrite IH.
  - cbn [no_pair]. rewrite IH by assumption. rewrite andb_true_r.
    destruct (N.eqb c 40); [|reflexivity]. cbn [negb orb] in *.
    destruct (mem_char 41 (collapse_ws_from false s)) eqn:E; [|reflexivity].
    apply mem_char_collapse in E; [|reflexivity]. now rewrite E in Hc.
Qed.

Lemma mem_char_rstrip (x : N) (s : Py.str) :
  mem_char x (Py.rstrip s) = true -> mem_char x s = true.
Proof.
  induction s as [|c s IH]; [trivial|]. rewrite rstrip_cons. cbn [mem_char].
  destruct (Py.rstrip s) as [|y t].
  - destruct (Py.is_space c); cbn; [discriminate|].
    rewrite orb_false_r. intros ->. reflexivity.
  - cbn [mem_char] in *. rewrite !orb_true_iff.
    intros [H | H]; [now left | right; apply IH; now rewrite orb_true_iff].
Qed.

Lemma no_pair_lstrip (s : Py.str) : no_pair s = true -> no_pair (Py.lstrip s) = true.
Proof.
  induction s as [|c s IH]; [trivial|]. intros H. cbn [Py.lstrip].
  destruct (Py.is_space c); [|exact H].
  apply IH. cbn in H. now apply andb_true_iff in H as [_ H].
Qed.

Lemma no_pair_rstrip (s : Py.str) : no_pair s = true -> no_pair (Py.rstrip s) = true.
Proof.
  induction s as [|c s IH]; [trivial|]. cbn [no_pair].
  rewrite andb_true_iff. intros [Hc Hs]. rewrite rstrip_cons.
  specialize (IH Hs).
  destruct (Py.rstrip s) as [|y t] eqn:E.
  - destruct (Py.is_space c); [reflexivity|]. cbn. now rewrite orb_true_r.
  - cbn [no_pair]. cbn [no_pair] in IH. rewrite IH, andb_true_r.
    destruct (N.eqb c 40); [|reflexivity]. cbn [negb orb] in *.
    destruct (mem_char 41 (y :: t)) eqn:Em; [|reflexivity].
    rewrite <- E in Em. apply mem_char_rstrip in Em. now rewrite Em in Hc.
Qed.

Lemma no_pair_split (s a b : Py.str) :
  no_pair s = true -> s = a ++ "(" ++ b -> mem_char 41 b = false.
Proof.
  revert s. induction a as [|c a IH]; intros s Hs ->; cbn in Hs.
  - apply andb_true_iff in Hs as [Hs _]. now apply negb_true_iff in Hs.
  - apply andb_true_iff in Hs as [_ Hs]. now apply (IH _ Hs).
Qed.

Lemma mem_char_occurs (x : N) (s : Py.str) :
  mem_char x s = true <-> occurs ([x]) s.
Proof.
  induction s as [|c s IH]; cbn.
  - split; [discriminate | intros (a & b & H); destruct a; discriminate].
  - rewrite orb_true_iff, IH, N.eqb_eq. split.
    + intros [-> | (a & b & ->)]; [now exists "", s | now exists (c :: a), b].
    + intros (a & b & H). destruct a as [|y a]; cbn in H; injection H as -> ->.
      * now left.
      * right. now exists a, b.
Qed.

Lemma no_pair_match (s : Py.str) : no_pair s = true -> paren_match_len s = None.
Proof.
  induction s as [|c s IH]; [trivial|]. cbn [no_pair paren_match_len].
  rewrite andb_true_iff. intros [Hc Hs].
  destruct (Py.is_space c); [now rewrite IH|].
  destruct (N.eqb c 40); [|reflexivity].
  cbn [negb orb] in Hc. apply negb_true_iff in Hc.
  apply close_len_none in Hc. now rewrite Hc.
Qed.

Lemma no_pair_fixed (s : Py.str) : no_pair s = true -> remove_parens s = s.
Proof.
  unfold remove_parens. induction s as [|c s IH]; [trivial|]. intros H.
  cbn [remove_parens_from]. rewrite (no_pair_match _ H).
  cbn in H. apply andb_true_iff in H as [_ H]. now rewrite IH.
Qed.

Lemma spaced_ok_collapse (s : Py.str) :
  forall b, spaced_ok b (collapse_ws_from b s) = true.
Proof.
  induction s as [|c s IH]; intros b; cbn [collapse_ws_from]; [reflexivity|].
  destruct (Py.is_space c) eqn:Ec.
  - destruct b; [apply IH|]. cbn. apply IH.
  - cbn [spaced_ok]. rewrite Ec. apply IH.
Qed.

Lemma spaced_ok_lstrip (s : Py.str) :
  forall b, spaced_ok b s = true -> spaced_ok false (Py.lstrip s) = true.
Proof.
  induction s as [|c s IH]; intros b; [trivial|]. cbn [spaced_ok Py.lstrip].
  destruct (Py.is_space c) eqn:Ec.
  - rewrite !andb_true_iff. intros [_ H]. now apply (IH true).
  - intros H. cbn [spaced_ok]. now rewrite Ec.
Qed.

Lemma spaced_ok_rstrip (s : Py.str) :
  forall b, spaced_ok b s = true -> spaced_ok b (Py.rstrip s) = true.
Proof.
  induction s as [|c s IH]; intros b; [trivial|]. cbn [spaced_ok].
  rewrite rstrip_cons. destruct (Py.is_space c) eqn:Ec.
  - rewrite !andb_true_iff. intros [[H1 H2] H3]. specialize (IH true H3).
    destruct (Py.rstrip s) as [|y t]; [reflexivity|].
    cbn [spaced_ok]. rewrite Ec. cbn [spaced_ok] in IH. now rewrite H1, H2, IH.
  - intros H. specialize (IH false H).
    destruct (Py.rstrip s) as [|y t]; cbn [spaced_ok]; rewrite Ec; [reflexivity|].
    exact IH.
Qed.

Lemma spaced_ok_fixed (s : Py.str) :
  forall b, spaced_ok b s = true -> collapse_ws_from b s = s.
Proof.
  induction s as [|c s IH]; intros b; [trivial|]. cbn [spaced_ok collapse_ws_from].
  destruct (Py.is_space c) eqn:Ec.
  - rewrite !andb_true_iff. intros [[H1 H2] H3].
    apply negb_true_iff in H2. subst b. apply N.eqb_eq in H1. subst c.
    now rewrite IH.
  - intros H. now rewrite IH.
Qed.

End SpokenPrompts.

(** X17. The spoken form of a prompt is in normal form: no opening
    parenthesis in it has a closing one after it, it has no leading or
    trailing white space, and its white space is single spaces; so removing
    parentheticals, collapsing white space or stripping it again leaves it
    unchanged, and [strip_parentheticals] is idempotent. *)
Theorem strip_parentheticals_normal (text : Py.str) :
  (forall a b, strip_parentheticals text = a ++ "(" ++ b -> ~ occurs ")" b)
  /\ Py.strip (strip_parentheticals text) = strip_parentheticals text
  /\ collapse_ws (strip_parentheticals text) = strip_parentheticals text
  /\ remove_parens (strip_parentheticals text) = strip_parentheticals text
  /\ strip_parentheticals (strip_parentheticals text) = strip_parentheticals text.
Proof.
  assert (Hp : no_pair (strip_parentheticals text) = true).
  { unfold strip_parentheticals. destruct (Py.truthy text); [|reflexivity].
    cbv zeta. unfold Py.strip.
    apply no_pair_rstrip, no_pair_lstrip, no_pair_collapse, no_pair_remove. }
  assert (Hs : spaced_ok false (strip_parentheticals text) = true).
  { unfold strip_parentheticals. destruct (Py.truthy text); [|reflexivity].
    cbv zeta. unfold Py.strip.
    apply spaced_ok_rstrip, (spaced_ok_lstrip _ false), spaced_ok_collapse. }
  assert (Ht : Py.strip (strip_parentheticals text) = strip_parentheticals text).
  { unfold strip_parentheticals. destruct (Py.truthy text); [|reflexivity].
    cbv zeta. apply strip_idem. }
  assert (Hc : collapse_ws (strip_parentheticals text) = strip_parentheticals text)
    by now apply spaced_ok_fixed.
  assert (Hr : remove_parens (strip_parentheticals text) = strip_parentheticals text)
    by now apply no_pair_fixed.
  split; [|split; [exact Ht | split; [exact Hc | split; [exact Hr|]]]].
  - intros a b E Hocc. apply mem_char_occurs in Hocc.
    rewrite (no_pair_split _ _ _ Hp E) in Hocc. discriminate.
  - unfold strip_parentheticals at 1.
    destruct (Py.truthy (strip_parentheticals text)) eqn:E.
    + cbv zeta. now rewrite Hr, Hc, Ht.
    + destruct (strip_parentheticals text); [reflexivity | discriminate].
Qed.

Section Hints.

Lemma skip_all (s : Py.str) :
  forall k, (List.length s <= k)%nat -> remove_parens_from k s = "".
Proof.
  induction s as [|c s IH]; intros k Hk; [reflexivity|].
  cbn [List.length] in Hk. destruct k as [|k]; [lia|].
  cbn [remove_parens_from]. apply IH. lia.
Qed.

Lemma drop_whole (s : Py.str) :
  paren_match_len s = Some (List.length s) -> remove_parens_from 0 s = "".
Proof.
  destruct s as [|c s]; [reflexivity|]. intros H.
  cbn [remove_parens_from]. rewrite H. cbn [List.length].
  now apply skip_all.
Qed.

Lemma str_length_app (a b : Py.str) :
  List.length (a ++ b) = (List.length a + List.length b)%nat.
Proof. induction a as [|c a IH]; cbn; [reflexivity | now rewrite IH]. Qed.

Lemma close_len_hint (h : Py.str) :
  mem_char 41 h = false -> close_len (h ++ ")") = Some (List.length (h ++ ")")).
Proof.
  induction h as [|c h IH]; [reflexivity|]. cbn [mem_char].
  rewrite orb_false_iff. intros [Hc Hh].
  cbn [app close_len List.length]. rewrite Hc, (IH Hh). reflexivity.
Qed.

Lemma match_hint (ws h : Py.str) :
  all_space ws = true -> mem_char 41 h = false ->
  paren_match_len (ws ++ "(" ++ h ++ ")")
  = Some (List.length (ws ++ "(" ++ h ++ ")")).
Proof.
  intros Hws Hh. set (tail := "(" ++ h ++ ")"). induction ws as [|c ws IH].
  - unfold tail. cbn [app paren_match_len List.length].
    change (Py.is_space 40) with false. change (N.eqb 40 40) with true.
    cbv iota. now rewrite close_len_hint.
  - cbn [all_space] in Hws. apply andb_true_iff in Hws as [Hc Hws].
    cbn [app paren_match_len List.length]. rewrite Hc, (IH Hws). reflexivity.
Qed.

Lemma all_space_app (a b : Py.str) :
  all_space (a ++ b) = all_space a && all_space b.
Proof.
  induction a as [|c a IH]; cbn; [reflexivity | now rewrite IH, andb_assoc].
Qed.

Lemma no_match_before (p tail : Py.str) :
  mem_char 40 p = false -> all_space p = false ->
  paren_match_len (p ++ tail) = None.
Proof.
  induction p as [|c p IH]; [discriminate|]. cbn [mem_char all_space].
  rewrite orb_false_iff. intros [Hc Hp] Hs.
  cbn [app paren_match_len].
  destruct (Py.is_space c); [|now rewrite Hc].
  cbn [andb] in Hs. now rewrite (IH Hp Hs).
Qed.

Lemma rstrip_all_space (s : Py.str) : Py.rstrip s = "" <-> all_space s = true.
Proof.
  induction s as [|c s IH]; [tauto|]. rewrite rstrip_cons. cbn [all_space].
  rewrite andb_true_iff, <- IH.
  destruct (Py.rstrip s); destruct (Py.is_space c); split;
    try discriminate; try tauto; intros [? ?]; discriminate.
Qed.

Lemma rstrip_keep (c : N) (s : Py.str) :
  all_space (c :: s) = false ->
  Py.rstrip (c :: s) = c :: (Py.rstrip s).
Proof.
  intros H. rewrite rstrip_cons.
  destruct (Py.rstrip s) as [|y t] eqn:E; [|reflexivity].
  apply rstrip_all_space in E. cbn [all_space] in H. rewrite E, andb_true_r in H.
  now rewrite H.
Qed.

(** Removing a closing hint: what is left of the text before it is that
    text without its trailing white space. *)
Lemma remove_closing_hint (p ws h : Py.str) :
  mem_char 40 p = false -> all_space ws = true -> mem_char 41 h = false ->
  remove_parens (p ++ ws ++ "(" ++ h ++ ")") = Py.rstrip p.
Proof.
  intros Hp Hws Hh. unfold remove_parens. induction p as [|c p IH].
  - cbn [app Py.rstrip]. apply drop_whole. now apply match_hint.
  - destruct (all_space (c :: p)) eqn:Es.
    + rewrite (proj2 (rstrip_all_space _) Es).
      apply drop_whole. rewrite <- string_app_assoc.
      apply match_hint; [|assumption].
      now rewrite all_space_app, Es, Hws.
    + rewrite (rstrip_keep _ _ Es).
      cbn [mem_char] in Hp. apply orb_false_iff in Hp as [Hc Hp].
      change ((c :: p) ++ ws ++ "(" ++ h ++ ")")
        with (c :: (p ++ ws ++ "(" ++ h ++ ")")).
      cbn [remove_parens_from].
      change (c :: (p ++ ws ++ "(" ++ h ++ ")"))
        with ((c :: p) ++ (ws ++ "(" ++ h ++ ")")).
      rewrite no_match_before; [| cbn [mem_char]; now rewrite Hc, Hp | exact Es].
      now rewrite (IH Hp).
Qed.

Lemma no_open_no_pair (s : Py.str) : mem_char 40 s = false -> no_pair s = true.
Proof.
  induction s as [|c s IH]; [trivial|]. cbn [mem_char no_pair].
  rewrite orb_false_iff. intros [Hc Hs]. now rewrite Hc, (IH Hs).
Qed.

Lemma collapse_empty (s : Py.str) :
  forall b, collapse_ws_from b s = "" -> all_space s = true.
Proof.
  induction s as [|c s IH]; intros b; [trivial|]. cbn [collapse_ws_from all_space].
  destruct (Py.is_space c); [|discriminate].
  destruct b; [|discriminate]. intros H. now rewrite (IH true H).
Qed.

Lemma collapse_cons (b : bool) (c : N) (s : Py.str) :
  collapse_ws_from b (c :: s)
  = if Py.is_space c then
      if b then collapse_ws_from true s else 32%N :: (collapse_ws_from true s)
    else c :: (collapse_ws_from false s).
Proof. reflexivity. Qed.

Lemma collapse_rstrip (s : Py.str) :
  forall b, Py.rstrip (collapse_ws_from b s) = collapse_ws_from b (Py.rstrip s).
Proof.
  induction s as [|c s IH]; intros b; [reflexivity|].
  rewrite (rstrip_cons c s), (collapse_cons b c s).
  destruct (Py.is_space c) eqn:Ec.
  - destruct b.
    + rewrite IH. destruct (Py.rstrip s) as [|y t]; [reflexivity|].
      now rewrite (collapse_cons true c), Ec.
    + rewrite rstrip_cons, IH.
      destruct (Py.rstrip s) as [|y t] eqn:E; [reflexivity|].
      rewrite (collapse_cons false c), Ec.
      destruct (collapse_ws_from true (y :: t)) as [|z u] eqn:Ez; [|reflexivity].
      apply collapse_empty in Ez. rewrite <- E in Ez.
      apply rstrip_all_space in Ez. rewrite rstrip_idem, E in Ez. discriminate.
  - rewrite rstrip_cons, IH.
    destruct (Py.rstrip s) as [|y t].
    + now rewrite (collapse_cons b c), Ec.
    + rewrite (collapse_cons b c (y :: t)), Ec.
      destruct (collapse_ws_from false (y :: t)); reflexivity.
Qed.

Lemma lstrip_rstrip (s : Py.str) :
  Py.lstrip (Py.rstrip s) = Py.rstrip (Py.lstrip s).
Proof.
  induction s as [|c s IH]; [reflexivity|]. cbn [Py.lstrip].
  destruct (Py.is_space c) eqn:Ec.
  - rewrite rstrip_cons. rewrite Ec.
    destruct (Py.rstrip s) as [|y t] eqn:E.
    + now rewrite <- IH.
    + cbn [Py.lstrip]. rewrite Ec. rewrite <- IH. reflexivity.
  - rewrite rstrip_cons, Ec.
    destruct (Py.rstrip s); cbn [Py.lstrip]; now rewrite Ec.
Qed.

Lemma strip_collapse_rstrip (s : Py.str) :
  Py.strip (collapse_ws (Py.rstrip s)) = Py.strip (collapse_ws s).
Proof.
  unfold Py.strip, collapse_ws.
  now rewrite <- collapse_rstrip, lstrip_rstrip, rstrip_idem.
Qed.

Lemma hint_removed (p ws h : Py.str) :
  mem_char 40 p = false -> all_space ws = true -> mem_char 41 h = false ->
  strip_parentheticals (p ++ ws ++ "(" ++ h ++ ")") = strip_parentheticals p.
Proof.
  intros Hp Hws Hh. unfold strip_parentheticals. cbv zeta.
  rewrite remove_closing_hint by assumption.
  assert (Ht : Py.truthy (p ++ ws ++ "(" ++ h ++ ")") = true).
  { destruct p; [destruct ws|]; reflexivity. }
  rewrite Ht, strip_collapse_rstrip.
  destruct p as [|c p]; [reflexivity|]. cbn [Py.truthy].
  now rewrite (no_pair_fixed _ (no_open_no_pair _ Hp)).
Qed.

Lemma ask_choice_loop_extends (prompt options : Py.str) (choices lines : list Py.str) :
  forall tr, exists evs,
    trace (snd (ask_choice_loop prompt options choices lines tr)) = (tr ++ evs)%list.
Proof.
  induction lines as [|line lines IH]; intros tr; cbn [ask_choice_loop].
  - eexists. reflexivity.
  - destruct (find_choice (Py.strip line) choices).
    + eexists. reflexivity.
    + destruct (IH ((tr ++ [PrintFill (prompt ++ " (" ++ options ++ ")")]
                      ++ [SpeakStripped (prompt ++ " (" ++ options ++ ")")]
                      ++ [Input "> " (Some line)])
                     ++ [Print ("Please choose one of: " ++ options)])%list)
        as [evs Hevs].
      rewrite Hevs. eexists. rewrite <- !app_assoc. reflexivity.
Qed.

End Hints.

(** X18. A parenthesised hint closing a prompt is not spoken: when the
    text before it has no opening parenthesis and the hint no closing one,
    the spoken form of the prompt with the hint, whatever white space
    separates them, is the spoken form of the prompt alone. *)
Theorem closing_hint_not_spoken (p ws h : Py.str) :
  ~ occurs "(" p -> all_space ws = true -> ~ occurs ")" h ->
  strip_parentheticals (p ++ ws ++ "(" ++ h ++ ")") = strip_parentheticals p
  /\ utterance (SpeakStripped (p ++ ws ++ "(" ++ h ++ ")"))
     = utterance (SpeakStripped p).
Proof.
  intros Hp Hws Hh.
  assert (H : strip_parentheticals (p ++ ws ++ "(" ++ h ++ ")")
              = strip_parentheticals p).
  { apply hint_removed; [|assumption|].
    - destruct (mem_char 40 p) eqn:E; [|reflexivity].
      apply mem_char_occurs in E. contradiction.
    - destruct (mem_char 41 h) eqn:E; [|reflexivity].
      apply mem_char_occurs in E. contradiction. }
  split; [exact H|]. unfold utterance. cbv zeta. now rewrite H.
Qed.


(** X19. [ask_choice] says its prompt twice before the first answer: it
    speaks the prompt itself, then [ask] speaks the question made of the
    prompt and the options in parentheses, whose spoken form is again the
    prompt (when the prompt has no opening parenthesis and no choice a
    closing one). *)
Theorem ask_choice_speaks_twice (prompt : Py.str) (choices : list Py.str)
    (line : Py.str) (rest : list Py.str) (tr : list event) :
  ~ occurs "(" prompt ->
  ~ occurs ")" (Py.join "/" choices) ->
  (exists evs,
     trace (snd (ask_choice prompt choices (mk_world (line :: rest) tr)))
     = (tr ++ [ SpeakStripped prompt;
                PrintFill (prompt ++ " (" ++ Py.join "/" choices ++ ")");
                SpeakStripped (prompt ++ " (" ++ Py.join "/" choices ++ ")");
                Input "> " (Some line) ] ++ evs)%list)
  /\ utterance (SpeakStripped (prompt ++ " (" ++ Py.join "/" choices ++ ")"))
     = utterance (SpeakStripped prompt).
Proof.
  intros Hp Hc. split.
  - unfold ask_choice, bind, emit. cbv zeta. cbn [stdin trace ask_choice_loop].
    destruct (find_choice (Py.strip line) choices).
    + exists []. cbn [snd trace]. now rewrite <- !app_assoc.
    + destruct (ask_choice_loop_extends prompt (Py.join "/" choices) choices rest
                  (((tr ++ [SpeakStripped prompt])
                    ++ [PrintFill (prompt ++ " (" ++ Py.join "/" choices ++ ")")]
                    ++ [SpeakStripped (prompt ++ " (" ++ Py.join "/" choices ++ ")")]
                    ++ [Input "> " (Some line)])
                   ++ [Print ("Please choose one of: " ++ Py.join "/" choices)])%list)
        as [evs Hevs].
      rewrite Hevs. eexists. rewrite <- !app_assoc. reflexivity.
  - unfold utterance. cbv zeta.
    change (prompt ++ " (" ++ Py.join "/" choices ++ ")")
      with (prompt ++ " " ++ "(" ++ Py.join "/" choices ++ ")").
    rewrite (hint_removed prompt " " (Py.join "/" choices)); [reflexivity | | reflexivity |].
    + destruct (mem_char 40 prompt) eqn:E; [|reflexivity].
      apply mem_char_occurs in E. contradiction.
    + destruct (mem_char 41 (Py.join "/" choices)) eqn:E; [|reflexivity].
      apply mem_char_occurs in E. contradiction.
Qed.


(** ** What the rules do not read *)

Lemma get_set_other (d : Py.dict Py.str) (k k' v default : Py.str) :
  k' <> k -> Py.get (Py.set d k v) k' default = Py.get d k' default.
Proof.
  intros Hne. unfold Py.get. induction d as [|[k0 v0] d IH]; cbn [Py.set Py.lookup].
  - destruct (str_eqb_spec k' k); [contradiction | reflexivity].
  - destruct (str_eqb_spec k k0) as [-> | Hk]; cbn [Py.lookup].
    + destruct (str_eqb_spec k' k0); [contradiction | reflexivity].
    + destruct (Py.eqb k' k0); [reflexivity | exact IH].
Qed.


(** X20. The score does not read the emotion answer, and the themes do not
    read the difficulties answer: assigning either one any value leaves the
    score, respectively the themes and the recommended strategies,
    unchanged.  The number of follow-up questions does not read the emotion
    or the thoughts answer. *)
Theorem rules_ignore_fields (answers : Py.dict Py.str) (v : Py.str) :
  score_checkin (Py.set answers "emotion" v) = score_checkin answers
  /\ rank_themes (Py.set answers "difficulties" v) = rank_themes answers
  /\ choose_strategies (rank_themes (Py.set answers "difficulties" v))
     = choose_strategies (rank_themes answers)
  /\ follow_up_questions (Py.set answers "emotion" v) = follow_up_questions answers
  /\ follow_up_questions (Py.set answers "thoughts" v) = follow_up_questions answers.
Proof.
  assert (Hth : rank_themes (Py.set answers "difficulties" v) = rank_themes answers).
  { unfold rank_themes. cbv zeta.
    now rewrite !get_set_other by discriminate. }
  split; [|split; [exact Hth | split; [now rewrite Hth | split]]].
  - unfold score_checkin. cbv zeta. now rewrite !get_set_other by discriminate.
  - unfold follow_up_questions. now rewrite !get_set_other by discriminate.
  - unfold follow_up_questions. now rewrite !get_set_other by discriminate.
Qed.

End Program.

(** * The theorems at work

    Each theorem that has a hypothesis is applied here to a session or a
    text, with the database of Unicode 14.0.0. *)

Lemma crisis_short_circuit_witness :
  exists s,
    run_session Py.unicode
      ["fine"; "mild"; "ok"; "I want to give up"; "money"; "yes"]
    = (Ok s, mk_world ["yes"]
                      (greeting_events
                       ++ checkin_events ["fine"; "mild"; "ok"; "I want to give up"; "money"]
                       ++ crisis_events))
    /\ exit s = CrisisExit
    /\ crisis_flag s = true
    /\ followup_resps s = None
    /\ score s = None
    /\ themes s = None
    /\ strategies s = None.
Proof.
  apply (proj1 (crisis_short_circuit Py.unicode
                  ["fine"; "mild"; "ok"; "I want to give up"; "money"; "yes"]
                  ltac:(vm_compute; reflexivity))).
  cbn. lia.
Defined.

Lemma contains_crisis_iff_witness :
  contains_crisis Py.unicode "Some days I Want To DIE" = true
  /\ contains_crisis Py.unicode "I feel okay today" = false.
Proof.
  split.
  - apply (proj1 (proj2 (contains_crisis_iff Py.unicode "Some days I Want To DIE"))).
    exists "die". split; [cbn; tauto|].
    exists "DIE". split; [vm_compute; reflexivity|].
    now exists "Some days I Want To ", "".
  - apply (proj1 (proj2 (proj2 (contains_crisis_iff Py.unicode "I feel okay today")))).
    intros kw Hin Hocc. apply in_str_spec in Hocc.
    cbn in Hin.
    repeat (destruct Hin as [<- | Hin]; [vm_compute in Hocc; discriminate Hocc|]).
    contradiction.
Defined.

Lemma choose_strategies_selection_witness :
  ~ In "journaling" (choose_strategies ["panic"]).
Proof.
  apply (proj2 (proj2 (proj2 (proj2 (proj2 (proj2 (proj2
           (choose_strategies_selection []))))))) "journaling"
           (mk_strategy "Write down your thoughts and feelings for 5-10 minutes."
                        ["rumination"; "sadness"; "confusion"])).
  - cbn. tauto.
  - cbn. intuition discriminate.
Defined.

Lemma score_checkin_bounds_witness :
  let answers :=
    [("emotion", "awful"); ("stress", "Severe"); ("energy", "very low");
     ("thoughts", "I want to give up"); ("difficulties", "rent")] in
  (0 <= score_checkin Py.unicode answers <= 7)%Z
  /\ score_checkin Py.unicode answers = 7%Z.
Proof.
  intros answers. split.
  - apply (score_checkin_bounds Py.unicode answers).
  - apply (proj2 (score_checkin_bounds Py.unicode answers));
      try (vm_compute; reflexivity); discriminate.
Defined.

Lemma rank_themes_have_cues_witness :
  exists c, Py.lookup THEME_CUES "panic" = Some c
            /\ forall default, Py.get THEME_CUES "panic" default = c.
Proof.
  apply (rank_themes_have_cues Py.unicode [("emotion", "panic attacks")] "panic").
  vm_compute. left. reflexivity.
Defined.

Lemma title_lower_roundtrip_witness :
  Py.lower Py.unicode (Py.title Py.unicode "self-compassion") = "self-compassion"
  /\ (In (Py.lower Py.unicode "Reach Out") (Py.keys STRATEGIES)
      /\ exists s, Py.lookup STRATEGIES (Py.lower Py.unicode "Reach Out") = Some s).
Proof.
  split.
  - apply (proj1 (title_lower_roundtrip Py.unicode)). cbn. tauto.
  - apply (proj1 (proj2 (proj2 (proj2 (proj2 (title_lower_roundtrip Py.unicode))))) []).
    vm_compute. tauto.
Defined.

Lemma contains_crisis_stable_witness :
  contains_crisis Py.unicode ("My " ++ "diet" ++ " is going fine") = true
  /\ contains_crisis Py.unicode "DIET" = contains_crisis Py.unicode "diet".
Proof.
  split.
  - apply (proj2 (contains_crisis_stable Py.unicode "diet")).
    vm_compute. reflexivity.
  - apply (proj1 (contains_crisis_stable Py.unicode "diet")). reflexivity.
Defined.

Lemma choose_strategies_wellformed_witness :
  choose_strategies ["panic"; "anxiety"; "panic"] = choose_strategies ["anxiety"; "panic"].
Proof.
  apply (proj2 (proj2 (proj2 (choose_strategies_wellformed ["anxiety"; "panic"])))).
  intros t. cbn. tauto.
Defined.

Lemma recommendations_reachable_witness :
  In "mindfulness"
     (choose_strategies (rank_themes Py.unicode [("emotion", "panic attacks")])).
Proof.
  apply (proj1 (proj2 (recommendations_reachable Py.unicode
                         [("emotion", "panic attacks")]))).
  vm_compute. right. left. reflexivity.
Defined.

Lemma detected_theme_is_heard_witness :
  shown_heard (Py.lower Py.unicode (Py.join " " (Py.values [("stress", "Anxious")])))
              "anxiety" <> [].
Proof.
  apply (proj1 (detected_theme_is_heard Py.unicode) [("stress", "Anxious")] "anxiety").
  - vm_compute. left. reflexivity.
  - discriminate.
Defined.

Lemma explain_unknown_theme_witness :
  writes (explain_theme Py.unicode "so much stress" "stress") tt
    [ Print ("  • " ++ Py.title Py.unicode "stress"
             ++ ": signals heard → general check‑in responses");
      SpeakSlow (Py.title Py.unicode "stress"
                 ++ ". I mainly relied on your general responses. ") ].
Proof.
  apply (explain_unknown_theme Py.unicode "so much stress" "stress"). reflexivity.
Defined.

Lemma ask_choice_accepts_witness :
  ask_choice Py.unicode "Would you like to try one of these strategies now?"
    ["yes"; "no"] (mk_world ["maybe"; "  NO "; "later"] [])
  = (Ok "no",
     mk_world ["later"]
       ([SpeakStripped "Would you like to try one of these strategies now?"]
        ++ reprompted "Would you like to try one of these strategies now? (yes/no)"
                      "yes/no" "maybe"
        ++ asked "Would you like to try one of these strategies now? (yes/no)"
                 "  NO ")).
Proof.
  apply (ask_choice_accepts Py.unicode
           "Would you like to try one of these strategies now?"
           ["yes"] [] ["maybe"] "  NO " ["later"] "no" []).
  - intros line [<- | []] x [<- | [<- | []]]; vm_compute; discriminate.
  - intros x [<- | []]. vm_compute. discriminate.
  - vm_compute. reflexivity.
Defined.

Lemma ask_choice_exhausts_witness :
  fst (ask_choice Py.unicode "Which would you like to try?" []
         (mk_world ["Mindfulness"; "x"] []))
  = Raise EOFError.
Proof.
  rewrite (ask_choice_exhausts Py.unicode "Which would you like to try?" []
             ["Mindfulness"; "x"] [] ltac:(intros ? ? ? [])).
  reflexivity.
Defined.

Lemma follow_up_asks_witness :
  follow_up Py.unicode
    [("stress", "Severe"); ("energy", "ok"); ("difficulties", "rent")]
    (mk_world (["my job"; " a loan "] ++ ["later"]) [])
  = (Ok ["my job"; "a loan"],
     mk_world ["later"]
       ([] ++ asked_each
                (follow_up_questions Py.unicode
                   [("stress", "Severe"); ("energy", "ok"); ("difficulties", "rent")])
                ["my job"; " a loan "])).
Proof.
  apply (proj1 (proj2 (proj2 (follow_up_asks Py.unicode
           [("stress", "Severe"); ("energy", "ok"); ("difficulties", "rent")])))
           ["my job"; " a loan "] ["later"] []).
  vm_compute. reflexivity.
Defined.

Lemma print_recommendations_lines_witness :
  print_recommendations Py.unicode (["movement"] ++ "yoga" :: ["grounding"])
                        (mk_world [] [])
  = (Raise (KeyError "yoga"),
     mk_world [] ([] ++ [recommendation_header]
                  ++ flat_map (strategy_events Py.unicode) ["movement"])).
Proof.
  apply (proj2 (print_recommendations_lines Py.unicode) ["movement"] "yoga"
               ["grounding"] (mk_world [] [])).
  - cbn. intuition.
  - reflexivity.
Defined.

Lemma run_session_state_witness :
  exists s w,
    run_session Py.unicode
      ["tired"; "moderate"; "low"; "overthinking"; ""; "not much"; "no"]
    = (Ok s, w)
    /\ crisis_flag s = false
    /\ Py.values (answers s) = user_inputs s.
Proof.
  eexists. eexists. split; [vm_compute; reflexivity|].
  split; [reflexivity|].
  eapply (run_session_state Py.unicode
            ["tired"; "moderate"; "low"; "overthinking"; ""; "not much"; "no"]).
  vm_compute. reflexivity.
Defined.


Lemma late_crisis_after_recommendations_witness :
  exists s evs,
    runs (run_bot Py.unicode)
         ["fine"; "mild"; "ok"; "none"; "rent"; "I want to give up"; "x"]
         s ["x"] evs
    /\ exit s = CrisisRecheckExit
    /\ score s = Some 1%Z.
Proof.
  eexists. eexists. split.
  - apply (late_crisis_after_recommendations Py.unicode
             "fine" "mild" "ok" "none" "rent" ["I want to give up"; "x"]
             ["I want to give up"] ["x"]
             (asked_each
                (follow_up_questions Py.unicode
                   (answer_set "fine" "mild" "ok" "none" "rent"))
                ["I want to give up"])).
    + vm_compute. reflexivity.
    + intros tr.
      apply (follow_up_run Py.unicode (answer_set "fine" "mild" "ok" "none" "rent")
                           ["I want to give up"] ["x"] tr).
      vm_compute. reflexivity.
    + vm_compute. reflexivity.
  - split; vm_compute; reflexivity.
Defined.

Lemma guided_exercise_witness :
  exists s evs,
    runs (run_bot Py.unicode)
         ["fine"; "mild"; "ok"; "none"; ""; "Yes"; "mindfulness"; "end"]
         s ["end"] evs
    /\ exit s = Closing
    /\ strategies s = Some ["mindfulness"; "reach out"].
Proof.
  eexists. eexists. split.
  - apply (proj1 (guided_exercise Py.unicode
             "fine" "mild" "ok" "none" "" ["Yes"; "mindfulness"; "end"]
             [] ["Yes"; "mindfulness"; "end"] ["mindfulness"; "end"] ["end"]
             "Mindfulness"
             (asked_each (follow_up_questions Py.unicode
                            (answer_set "fine" "mild" "ok" "none" ""))
                         [])
             _ _
             ltac:(vm_compute; reflexivity)
             (fun tr => follow_up_run Py.unicode
                          (answer_set "fine" "mild" "ok" "none" "")
                          [] ["Yes"; "mindfulness"; "end"] tr
                          ltac:(vm_compute; reflexivity))
             ltac:(vm_compute; reflexivity)
             (ask_choice_run Py.unicode
                "Would you like to try one of these strategies now?"
                ["yes"; "no"] [] "Yes" ["mindfulness"; "end"] "yes"
                (fun _ (H : False) => match H with end)
                ltac:(vm_compute; reflexivity))
             (ask_choice_run Py.unicode "Which would you like to try?"
                (map (Py.title Py.unicode)
                   (choose_strategies
                      (rank_themes Py.unicode
                         (answer_set "fine" "mild" "ok" "none" ""))))
                [] "mindfulness" ["end"] "Mindfulness"
                (fun _ (H : False) => match H with end)
                ltac:(vm_compute; reflexivity)))).
  - split; vm_compute; reflexivity.
Defined.

Lemma exercise_declined_witness :
  exists s evs,
    runs (run_bot Py.unicode)
         ["fine"; "mild"; "ok"; "none"; ""; "maybe"; "NO"; "end"]
         s ["end"] evs
    /\ exit s = Closing.
Proof.
  eexists. eexists. split.
  - apply (exercise_declined Py.unicode
             "fine" "mild" "ok" "none" "" ["maybe"; "NO"; "end"]
             [] ["maybe"; "NO"; "end"] ["end"]
             (asked_each (follow_up_questions Py.unicode
                            (answer_set "fine" "mild" "ok" "none" ""))
                         [])
             _
             ltac:(vm_compute; reflexivity)
             (fun tr => follow_up_run Py.unicode
                          (answer_set "fine" "mild" "ok" "none" "")
                          [] ["maybe"; "NO"; "end"] tr
                          ltac:(vm_compute; reflexivity))
             ltac:(vm_compute; reflexivity)
             (ask_choice_run Py.unicode
                "Would you like to try one of these strategies now?"
                ["yes"; "no"] ["maybe"] "NO" ["end"] "no"
                ltac:(intros line [<- | []]; vm_compute; reflexivity)
                ltac:(vm_compute; reflexivity))).
  - reflexivity.
Defined.

Lemma closing_hint_not_spoken_witness :
  strip_parentheticals ("How is your energy level?" ++ " " ++ "(" ++ "low/ok/high" ++ ")")
  = strip_parentheticals "How is your energy level?".
Proof.
  apply (closing_hint_not_spoken "How is your energy level?" " " "low/ok/high").
  - intros H. apply mem_char_occurs in H. discriminate.
  - reflexivity.
  - intros H. apply mem_char_occurs in H. discriminate.
Defined.

Lemma ask_choice_speaks_twice_witness :
  utterance (SpeakStripped ("Which would you like to try?" ++ " ("
                            ++ Py.join "/" ["Mindfulness"; "Reach Out"] ++ ")"))
  = utterance (SpeakStripped "Which would you like to try?").
Proof.
  apply (proj2 (ask_choice_speaks_twice Py.unicode "Which would you like to try?"
                  ["Mindfulness"; "Reach Out"] "x" [] []
                  ltac:(intros H; apply mem_char_occurs in H; discriminate)
                  ltac:(intros H; apply mem_char_occurs in H; discriminate))).
Defined.

(** * Texts beyond ASCII

    What the program does with some characters outside ASCII, in the
    database of Unicode 14.0.0. *)

(** The Kelvin sign U+212A lower-cases to the letter k. *)
Example kelvin_sign_lowers_to_k :
  Py.lower Py.unicode (8490%N :: "ill myself") = "kill myself"
  /\ contains_crisis Py.unicode (8490%N :: "ill myself") = true
  /\ rank_themes Py.unicode [("thoughts", "I overthin" ++ [8490%N])]
     = ["overthinking"].
Proof. vm_compute. repeat split. Qed.

(** A no-break space U+00A0 or an ideographic space U+3000 is white space:
    an answer made of it is blank. *)
Example no_break_space_is_blank :
  Py.strip [160%N] = ""
  /\ Py.strip [12288%N] = ""
  /\ score_checkin Py.unicode
       [("stress", "severe"); ("energy", "low"); ("thoughts", "give up");
        ("difficulties", [160%N])] = 6%Z
  /\ strip_parentheticals ("Stress?" ++ [160%N] ++ "(none/mild)") = "Stress?".
Proof. vm_compute. repeat split. Qed.

(** The title case of a sharp s is two letters, and an accented letter has
    one. *)
Example title_beyond_ascii :
  Py.title Py.unicode (223%N :: "uicide") = "Ssuicide"
  /\ Py.title Py.unicode (233%N :: "motion") = 201%N :: "motion"
  /\ contains_crisis Py.unicode (223%N :: "uicide") = false
  /\ contains_crisis Py.unicode (Py.title Py.unicode (223%N :: "uicide")) = true.
Proof. vm_compute. repeat split. Qed.

(** A capital sigma lower-cases to the final sigma at the end of a word
    only. *)
Example capital_sigma :
  Py.lower Py.unicode [927; 916; 927; 931]%N = [959; 948; 959; 962]%N
  /\ Py.lower Py.unicode [931; 927; 931]%N = [963; 959; 962]%N
  /\ Py.lower Py.unicode [931]%N = [963]%N.
Proof. vm_compute. repeat split. Qed.

(** A literal is the list of the code points of its text, not of its
    bytes. *)
Example literals_are_code_points :
  "né" = [110; 233]%N
  /\ "→" = [8594]%N
  /\ List.length "check‑in" = 8%nat.
Proof. repeat split. Qed.
